(* ===== verification/_CoqProject ===== *)
-Q . S2P
Prelude.v
JsString.v
Fixture.v
Search.v
JsDate.v
Url.v
Zod.v
Html.v
Jobs.v
Connect.v
Events.v
Resources.v
Dashboard.v
HallOfFame.v
Navbar.v
Landing.v
Listeners.v
Forms.v
AuthForm.v
ChatBot.v
Layout.v
Routes.v
Admin.v
Contracts.v
