(* ===== verification/Prelude.v ===== *)
(** * LinkCube: a verification development of the client-side logic

    LinkCube (src/src) is a React single-page application for an alumni
    and student network.  Every page keeps its data in a constant fixture
    array and its state in React [useState] hooks; there is no server.
    The pages repeat one pattern,

      fixture array  --filter(query)-->  filtered list  --tabs-->  cards
      --click-->  handler: [Array.find] by id, then a toast or a navigation,

    and around it sit the forms (zod schemas behind react-hook-form), the
    authentication form's simulated request, the chat bot, the route table,
    the dashboard, the leaderboards and the navigation bar.

    ** How the code is modelled

    A handler's visible behaviour is the list of [toast]/[navigate] calls
    it makes ([effect], this file).  A page is a state record (its
    [useState] values) and a [step] function from a user event to the next
    state and the effects, run over event sequences by [run_steps].  Where
    the code is asynchronous (AuthForm's awaited timer, the chat bot's
    reply timers) the pending timers are part of the state and their
    firing is an event, and the component is a step relation with its
    reachable states [reach], so that interleavings are explicit.  Shared
    mutable state outside React (the [dark] class of the document) is a
    field of the state beside the component's own.  JavaScript and library
    semantics the code relies on are modelled in their own files: string
    built-ins, [Date], zod, and react-router's matching.

    ** Files (in dependency order), and what they model

    - [Prelude]    (this file) [effect], [run_steps], [mapi] ([map] with an
                   index), the [js_scope] notations [⟪filter⟫]/[⟪find⟫], the
                   tactics [invc], [bool_simpl], [reflect_arith], [bool_lia],
                   the [linkcube] hint databases and the lemmas on [filter]
                   and [find] the pages share.
    - [JsString]   [toLowerCase], [startsWith], [includes], [trim],
                   [parseInt] and [Number.prototype.toString] on strings of
                   code units 0-255; [includes] is proved equal to its
                   specification and [parseInt] inverts [toString].
    - [Fixture]    records with an id ([HasId]), the [find]-then-act
                   handler shape [find_then], the data-access interface
                   ([DataAccess] with its laws) and a dispatcher proved
                   against the interface only.
    - [Search]     the search predicate of spec 4.1 as a generic search over
                   a record's text fields ([Searchable]), the partition into
                   tabs of spec 4.2, the empty-state rendering, the pages'
                   header and search bar ([PageChrome]), the interface a
                   list page offers its search bar ([ListingPage]), and the
                   case-equivalence of queries ([query_equiv]) with the
                   [Proper] instances that let [rewrite] cross a filter.
    - [JsDate]     [new Date(y, m, d)], [new Date("YYYY-MM-DD")], and the
                   local date that [format]/[toLocaleDateString] print, with
                   the Gregorian day-number conversions proved inverse.
    - [Url]        when [new URL(s)] succeeds: the WHATWG URL parser's
                   scheme, authority, host (domain, IPv4, IPv6) and port
                   checks, which zod's [.url()] and [type="url"] share.
    - [Zod]        the zod checks the schemas use and react-hook-form's
                   first-error-per-field resolution (libraries, modelled at
                   their call sites from their documented behaviour).
    - [Jobs], [Connect], [Events], [Resources]: each page's fixture, its
                   predicate as written, its tabs, its handlers and its
                   [step]; each predicate is proved to be the generic search.
    - [Html]       the browser's constraint validation of [type="email"]
                   and [type="url"] inputs, which runs before a form's
                   [onSubmit] when the form has no [noValidate].
    - [Forms]      Login, Register and AdminRegister: schemas, handlers, and
                   a click on the submit button through the browser's
                   validation ([attempt]).
    - [AuthForm]   the AuthForm component as a step relation over its state:
                   the pending requests of its asynchronous [handleSubmit],
                   the [try]/[catch] around the awaited timer, and its
                   unmount; and Auth.tsx's routing of auth types.
    - [ChatBot]    the assistant widget: messages, trim guard, pending reply
                   timers, and the [Math.random] index.
    - [Routes]     App.tsx's route table under react-router's ranking and
                   matching, the redirects, and every link of the routed
                   components.
    - [Dashboard]  the member dashboard: fixtures, tabs and what each one
                   shows, the RSVP toast, the event date badges, and the
                   [NotificationItem] fade-in timer with its cleanup.
    - [HallOfFame] the leaderboards and their ranks.
    - [Navbar]     the standalone navigation bar and its theme toggle.
    - [Landing]    the landing pages' interactive parts: the Features tabs,
                   Home's feature cards revealed by an IntersectionObserver
                   and a timer, Hero's cards, AnimatedCard's hover variants,
                   and Index's scroll-to click handler.
    - [Listeners]  the add/remove-listener effect of Hero (window scroll,
                   the parallax transform) and Index (document click) in
                   React's order of commit, effect, ref detach and cleanup.
    - [Admin]      the routed admin layout (navigation, sidebar toggle), the
                   unrouted admin shell with its [NavLink] sidebar (and
                   react-router's [NavLink] matching), the admin dashboard
                   and the chart wrappers of components/ui/charts.tsx.
    - [Contracts]  the dispatcher contract of [Fixture] discharged for every
                   handler of the four list pages, with the notification
                   each one emits, the distinct-id invariant of every
                   fixture, and the four search bars against
                   [ListingPage].
    - [Layout]     Layout.tsx as the product of the Navbar and ChatBot
                   machines (no theorem of its own: the two share no
                   state, so each component's theorems are its own).

    ** What the theorems show

    - Invariants over reachable states (by rule induction): AuthForm holds
      at most one pending request and shows its spinner exactly while one
      is pending; the chat conversation stays well formed; the Navbar's
      icon-versus-page agreement is fixed at mount; the Features tabs show
      exactly one panel; a Home feature card schedules its fade-in at most
      once; a dashboard notification leaves no timer behind; the admin
      sidebar highlights at most one link; Hero's and Index's listeners are
      registered exactly between effect and cleanup.
    - Safety: AuthForm's trace is a sequence of complete resolutions with
      the code's texts, never the catch branch's error toast, even after
      an unmount; Hero's [heroRef.current] guard keeps a scroll between the
      ref detach and the cleanup from throwing; every pathname renders
      something; every navigation a form emits reaches a page; the admin
      code's value never matters.
    - Functional behaviour of the handlers on every branch (found and
      unknown ids, guards such as [isConnected] and [isPast]), the two
      forms' submit behaviour through the browser's validation and zod,
      the tab partitions of spec 4.2, and the four search bars against one
      interface ([ListingPage]).
    - Liveness: pending chat replies are all delivered; a mounted feature
      card becomes visible.
    - Bounds: the chat bot's random index is always inside its array and
      picks each reply on a fifth of the range.
    - Findings: the properties that show the code disagreeing with the spec
      or with itself (a dashboard badge a day early west of UTC, an admin
      code checked only for length, a degree select that shows Required,
      leaderboards that never sort, an unrepairable theme mismatch, a
      login that navigates after its form is gone) are stated as theorems
      and listed in the project manifest.

    ** Bounds, fuel and what is left out

    Numbers the code compares or prints are [Z] or [nat] (JavaScript numbers
    in the ranges the fixtures use; no overflow can occur below 2^53).
    [Number.prototype.toString] is computed with fuel equal to its argument,
    which is enough since each step divides by ten.  Random values are
    rationals in [0, 1).  Time zones are a constant offset in ms.
    Hero's parallax offset [scrollY * 0.3] is the rational [scrollY * 3/10]:
    the double product and its printing into the CSS string are not
    modelled.  Animation delays written as one-decimal literals are kept
    in tenths.
    Not modelled: static markup (headings, copy, decoration) beyond the
    texts, links, buttons and classes that the state decides, the
    animations that framer-motion and CSS perform, recharts' drawing, and
    the shadcn/ui and theme-provider code that is not part of the
    repository snapshot. *)

From stdpp Require Export base list strings decidable.
From Stdlib Require Export String Ascii ZArith Lia.

(** ** UI effects

    A handler of the program does not return a value: it calls [toast],
    [toast.success], [toast.error] or [navigate].  The model of a handler
    returns the list of these calls, in the order the code makes them. *)

Inductive effect : Type :=
  | Toast (title description : string)      (* useToast().toast({title, description}) *)
  | ToastSuccess (message : string)         (* sonner: toast.success(message) *)
  | ToastError (message : string)           (* sonner: toast.error(message) *)
  | Navigate (path : string) (replace : bool). (* useNavigate()(path, {replace}) *)

#[export] Instance effect_eq_dec : EqDecision effect.
Proof. solve_decision. Defined.

(** ** Running a component

    A component is a [step] function from its state and a user event to
    its next state and the effects of its handler.  [run_steps] feeds it a
    sequence of events, left to right, and collects the effects in order. *)

Fixpoint run_steps {S E} (step : S -> E -> S * list effect) (st : S) (evs : list E)
    : S * list effect :=
  match evs with
  | [] => (st, [])
  | ev :: evs' =>
      let '(st1, e1) := step st ev in
      let '(st2, e2) := run_steps step st1 evs' in
      (st2, e1 ++ e2)
  end.

(** [xs.map((x, index) => f(index, x))] *)
Fixpoint mapi_from {A B} (f : nat -> A -> B) (i : nat) (xs : list A) : list B :=
  match xs with
  | [] => []
  | x :: xs' => f i x :: mapi_from f (S i) xs'
  end.

Definition mapi {A B} (f : nat -> A -> B) (xs : list A) : list B := mapi_from f 0 xs.

Declare Scope js_scope.
Delimit Scope js_scope with js.

(** [xs ⟪filter⟫ f] is [xs.filter(f)] with a boolean callback, as in
    JavaScript; [xs ⟪find⟫ f] is [xs.find(f)]. *)
Notation "xs ⟪filter⟫ f" := (List.filter f xs) (at level 40, left associativity) : js_scope.
Notation "xs ⟪find⟫ f" := (List.find f xs) (at level 40, left associativity) : js_scope.

(** ** Automation *)

Create HintDb linkcube.
Create Rewrite HintDb linkcube_rw.

Ltac invc H := inversion H; subst; clear H.

(** Split boolean connectives in hypotheses and goal. *)
Ltac bool_simpl :=
  repeat match goal with
  | H : (_ && _)%bool = true |- _ => apply andb_prop in H; destruct H
  | H : (_ || _)%bool = false |- _ => apply orb_false_elim in H; destruct H
  | H : negb _ = true |- _ => apply negb_true_iff in H
  | H : negb _ = false |- _ => apply negb_false_iff in H
  end.

(** Turn boolean comparisons on [nat] and [Z] into propositions. *)
Ltac reflect_arith :=
  repeat match goal with
  | H : (_ <=? _)%nat = true |- _ => apply Nat.leb_le in H
  | H : (_ <=? _)%nat = false |- _ => apply Nat.leb_gt in H
  | H : (_ <? _)%nat = true |- _ => apply Nat.ltb_lt in H
  | H : (_ <? _)%nat = false |- _ => apply Nat.ltb_ge in H
  | H : (_ =? _)%nat = true |- _ => apply Nat.eqb_eq in H
  | H : (_ =? _)%nat = false |- _ => apply Nat.eqb_neq in H
  | H : (_ <=? _)%Z = true |- _ => apply Z.leb_le in H
  | H : (_ <=? _)%Z = false |- _ => apply Z.leb_gt in H
  | H : (_ <? _)%Z = true |- _ => apply Z.ltb_lt in H
  | H : (_ <? _)%Z = false |- _ => apply Z.ltb_ge in H
  | H : (_ =? _)%Z = true |- _ => apply Z.eqb_eq in H
  | H : (_ =? _)%Z = false |- _ => apply Z.eqb_neq in H
  end.

(** Case on every boolean hypothesis built from [&&] and [||] over
    comparisons, and close each case with [lia]. *)
Ltac bool_lia :=
  repeat match goal with
  | H : (_ && _)%bool = true |- _ => apply andb_prop in H; destruct H
  | H : (_ || _)%bool = true |- _ => apply orb_prop in H; destruct H
  | H : (_ || _)%bool = false |- _ => apply orb_false_elim in H; destruct H
  | H : (_ && _)%bool = false |- _ => apply andb_false_elim in H; destruct H
  | H : negb _ = true |- _ => apply negb_true_iff in H
  | H : negb _ = false |- _ => apply negb_false_iff in H
  end; reflect_arith; lia.

(** Close a goal [b = true] or [b = false] whose boolean [b] is built
    from comparisons. *)
Ltac bool_goal_lia :=
  match goal with
  | |- ?b = true => destruct b eqn:?; [reflexivity|exfalso; bool_lia]
  | |- ?b = false => destruct b eqn:?; [exfalso; bool_lia|reflexivity]
  end.

(** ** Generic lemmas on [List.filter] and [List.find] *)

Section FilterFind.
Context {A : Type}.
Implicit Types (f g : A -> bool) (l : list A).

Lemma filter_all f l : (forall x, In x l -> f x = true) -> List.filter f l = l.
Proof.
  induction l as [|x l IH]; intros H; simpl; [done|].
  rewrite H by (left; done). f_equal. apply IH. intros y Hy. apply H. by right.
Qed.

Lemma filter_none f l : (forall x, In x l -> f x = false) -> List.filter f l = [].
Proof.
  induction l as [|x l IH]; intros H; simpl; [done|].
  rewrite H by (left; done). apply IH. intros y Hy. apply H. by right.
Qed.

Lemma filter_idem f l : List.filter f (List.filter f l) = List.filter f l.
Proof. apply filter_all. intros x Hx. by apply filter_In in Hx as [_ ->]. Qed.

Lemma filter_filter_comm f g l :
  List.filter f (List.filter g l) = List.filter (fun x => g x && f x)%bool l.
Proof.
  induction l as [|x l IH]; simpl; [done|].
  destruct (g x); simpl; [destruct (f x); simpl|]; by rewrite IH.
Qed.

Lemma filter_sublist f l : sublist (List.filter f l) l.
Proof.
  induction l as [|x l IH]; simpl; [apply sublist_nil|].
  destruct (f x); [by apply sublist_skip | by apply sublist_cons].
Qed.

Lemma filter_ext_in f g l :
  (forall x, In x l -> f x = g x) -> List.filter f l = List.filter g l.
Proof.
  induction l as [|x l IH]; intros H; simpl; [done|].
  rewrite H by (left; done). rewrite IH; [done|]. intros y Hy. apply H. by right.
Qed.

Lemma filter_mono f g l :
  (forall x, In x l -> f x = true -> g x = true) ->
  sublist (List.filter f l) (List.filter g l).
Proof.
  induction l as [|x l IH]; intros H; simpl; [apply sublist_nil|].
  assert (IH' : sublist (List.filter f l) (List.filter g l))
    by (apply IH; intros y Hy; apply H; by right).
  destruct (f x) eqn:Ef.
  - rewrite (H x (or_introl eq_refl) Ef). by apply sublist_skip.
  - destruct (g x); [by apply sublist_cons|done].
Qed.

(** Splitting by a predicate and its negation loses and duplicates
    nothing: the two halves are a permutation of the list. *)
Lemma filter_split_perm f l :
  List.filter f l ++ List.filter (fun x => negb (f x)) l ≡ₚ l.
Proof.
  induction l as [|x l IH]; simpl; [done|].
  destruct (f x); simpl.
  - by rewrite IH.
  - rewrite <- Permutation_middle. by rewrite IH.
Qed.

Lemma find_some_spec f l x :
  List.find f l = Some x -> In x l /\ f x = true.
Proof. intros H. split; [by eapply find_some | by eapply find_some]. Qed.

Lemma find_none_spec f l :
  List.find f l = None <-> forall x, In x l -> f x = false.
Proof.
  split; [by apply find_none|].
  induction l as [|x l IH]; intros H; simpl; [done|].
  rewrite H by (left; done). apply IH. intros y Hy. apply H. by right.
Qed.

(** [find] returns the first element that satisfies the callback. *)
Lemma find_ext_in f g l :
  (forall x, In x l -> f x = g x) -> List.find f l = List.find g l.
Proof.
  induction l as [|x l IH]; intros H; [done|]. simpl.
  rewrite (H x (or_introl eq_refl)), IH; [done|]. intros y Hy. apply H. by right.
Qed.

Lemma find_first f l x :
  List.find f l = Some x ->
  exists pre post, l = pre ++ x :: post /\ forall y, In y pre -> f y = false.
Proof.
  induction l as [|y l IH]; simpl; [done|].
  destruct (f y) eqn:Ey; intros H.
  - invc H. exists [], l. split; [done|]. intros z [].
  - destruct (IH H) as (pre & post & -> & Hpre).
    exists (y :: pre), post. split; [done|].
    intros z [<-|Hz]; [done|]. by apply Hpre.
Qed.
End FilterFind.

(** ** Generic lemmas on [run_steps] *)

Section Runs.
Context {S E : Type} (step : S -> E -> S * list effect).

(** A state predicate that every step preserves holds after any run. *)
Lemma run_steps_invariant (P : S -> Prop) st evs :
  (forall s e, P s -> P (step s e).1) -> P st -> P (run_steps step st evs).1.
Proof.
  intros Hstep. revert st. induction evs as [|e evs IH]; intros st Hst; simpl; [done|].
  destruct (step st e) as [s1 e1] eqn:Hs. destruct (run_steps step s1 evs) as [s2 e2] eqn:Hr.
  simpl. change s2 with (s2, e2).1. rewrite <- Hr. apply IH.
  change s1 with (s1, e1).1. rewrite <- Hs. by apply Hstep.
Qed.

Lemma run_steps_app st evs1 evs2 :
  run_steps step st (evs1 ++ evs2) =
  let '(s1, e1) := run_steps step st evs1 in
  let '(s2, e2) := run_steps step s1 evs2 in (s2, e1 ++ e2).
Proof.
  revert st. induction evs1 as [|e evs1 IH]; intros st; simpl.
  - by destruct (run_steps step st evs2).
  - destruct (step st e) as [s1 e1]. rewrite IH.
    destruct (run_steps step s1 evs1) as [s2 e2].
    destruct (run_steps step s2 evs2) as [s3 e3]. by rewrite app_assoc.
Qed.

End Runs.

#[export] Hint Resolve filter_sublist filter_idem : linkcube.
#[export] Hint Rewrite @filter_idem : linkcube_rw.

(** ** [mapi] *)

Lemma nth_error_mapi_from {A B} (f : nat -> A -> B) i xs k :
  nth_error (mapi_from f i xs) k = option_map (f (i + k)) (nth_error xs k).
Proof.
  revert i k. induction xs as [|x xs IH]; intros i [|k]; simpl; try done.
  - by rewrite Nat.add_0_r.
  - rewrite IH. by rewrite Nat.add_succ_r.
Qed.

Lemma nth_error_mapi {A B} (f : nat -> A -> B) xs k :
  nth_error (mapi f xs) k = option_map (f k) (nth_error xs k).
Proof. apply nth_error_mapi_from. Qed.

Lemma length_mapi_from {A B} (f : nat -> A -> B) i xs : List.length (mapi_from f i xs) = List.length xs.
Proof. revert i. induction xs; intros i; simpl; by f_equal. Qed.

Lemma Forall_mapi_from {A B} (P : B -> Prop) (f : nat -> A -> B) i xs :
  Forall P (mapi_from f i xs) <-> forall k x, nth_error xs k = Some x -> P (f (i + k)%nat x).
Proof.
  revert i. induction xs as [|x xs IH]; intros i; simpl.
  - split; [by intros _ [|k]|constructor].
  - rewrite Forall_cons_iff, IH. split.
    + intros [Hx Hr] [|k] y Hy; simpl in Hy; [injection Hy as <-; by rewrite Nat.add_0_r|].
      replace (i + S k)%nat with (S i + k)%nat by lia. by apply Hr.
    + intros H. split; [by rewrite <- (Nat.add_0_r i); apply H|].
      intros k y Hy. replace (S i + k)%nat with (i + S k)%nat by lia. by apply (H (S k)).
Qed.

(** A property holds of every image under [mapi] exactly when it holds
    of each element at its index. *)
Lemma Forall_mapi {A B} (P : B -> Prop) (f : nat -> A -> B) xs :
  Forall P (mapi f xs) <-> forall k x, nth_error xs k = Some x -> P (f k x).
Proof. apply Forall_mapi_from. Qed.
