(* ===== verification/JsString.v ===== *)
(** * JsString: the JavaScript string primitives the pages call

    Every search box of the program computes
    [field.toLowerCase().includes(searchQuery.toLowerCase())]; the chat bot
    tests [message.trim()]; the registration form calls [parseInt] on the
    batch year.  This file models these built-ins on Stdlib [string]s whose
    characters are the UTF-16 code units 0-255 (Latin-1): [toLowerCase]
    maps A-Z and the Latin-1 capitals (192-222 except 215) down by 32, as
    the Unicode default case mapping does on that range, and [trim] removes
    the ECMAScript white space of that range (9-13, 32, 160).

    [includes] is written as the engine's scan (try every start index) and
    proved equal to its specification: the query occurs as a factor. *)

From S2P Require Import Prelude.

Local Open Scope string_scope.

(** ** [String.prototype.toLowerCase] *)

Definition is_upper_code (n : nat) : bool :=
  (((65 <=? n) && (n <=? 90)) || ((192 <=? n) && (n <=? 222) && negb (n =? 215)))%nat.

Definition to_lower_char (c : ascii) : ascii :=
  let n := nat_of_ascii c in
  if is_upper_code n then ascii_of_nat (n + 32)%nat else c.

Fixpoint toLowerCase (s : string) : string :=
  match s with
  | EmptyString => EmptyString
  | String c s' => String (to_lower_char c) (toLowerCase s')
  end.

(** ** [String.prototype.startsWith] and [String.prototype.includes] *)

Fixpoint startsWith (s p : string) {struct p} : bool :=
  match p, s with
  | EmptyString, _ => true
  | String a p', String b s' => Ascii.eqb a b && startsWith s' p'
  | String _ _, EmptyString => false
  end.

(** [s.includes(q)]: try each start position of [s] in turn. *)
Fixpoint includes (s q : string) : bool :=
  startsWith s q ||
  match s with
  | EmptyString => false
  | String _ s' => includes s' q
  end.

(** ** [String.prototype.trim] *)

Definition is_js_space (c : ascii) : bool :=
  let n := nat_of_ascii c in
  (((9 <=? n) && (n <=? 13)) || (n =? 32) || (n =? 160))%nat.

Fixpoint trimStart (s : string) : string :=
  match s with
  | EmptyString => EmptyString
  | String c s' => if is_js_space c then trimStart s' else s
  end.

Fixpoint trimEnd (s : string) : string :=
  match s with
  | EmptyString => EmptyString
  | String c s' =>
      let r := trimEnd s' in
      if is_js_space c && String.eqb r "" then "" else String c r
  end.

Definition trim (s : string) : string := trimEnd (trimStart s).

(** A string is blank when every character is white space. *)
Fixpoint is_blank (s : string) : bool :=
  match s with
  | EmptyString => true
  | String c s' => is_js_space c && is_blank s'
  end.

(** ** [parseInt] and [Number.prototype.toString]

    [parseInt(s)] (no radix): skip leading white space, read an optional
    sign, read radix 16 after a "0x"/"0X" prefix and radix 10 otherwise,
    then the longest run of digits of that radix; no digit gives [NaN],
    modelled as [None].  Digits are 0-9 and letters a-z/A-Z for 10-35.
    (The value is exact in [Z]; a JavaScript number loses precision past
    2^53, which no batch year reaches.) *)

Definition digit_value (c : ascii) : option Z :=
  let n := nat_of_ascii c in
  if ((48 <=? n) && (n <=? 57))%nat then Some (Z.of_nat n - 48)%Z
  else if ((97 <=? n) && (n <=? 122))%nat then Some (Z.of_nat n - 87)%Z
  else if ((65 <=? n) && (n <=? 90))%nat then Some (Z.of_nat n - 55)%Z
  else None.

Fixpoint parse_digits (radix : Z) (s : string) (acc : option Z) : option Z :=
  match s with
  | EmptyString => acc
  | String c s' =>
      match digit_value c with
      | Some d =>
          if (d <? radix)%Z
          then parse_digits radix s' (Some (default 0 acc * radix + d)%Z)
          else acc
      | None => acc
      end
  end.

Definition strip_sign (s : string) : Z * string :=
  match s with
  | String "-" r => (-1, r)%Z
  | String "+" r => (1, r)%Z
  | _ => (1, s)%Z
  end.

Definition strip_radix (s : string) : Z * string :=
  match s with
  | String "0" (String x r) => if (Ascii.eqb x "x" || Ascii.eqb x "X")%bool then (16, r)%Z else (10, s)%Z
  | _ => (10, s)%Z
  end.

Definition parseInt (s : string) : option Z :=
  let '(sign, s1) := strip_sign (trimStart s) in
  let '(radix, s2) := strip_radix s1 in
  option_map (Z.mul sign) (parse_digits radix s2 None).

(** Decimal digits of [n], most significant first; [fuel] bounds the
    number of divisions by 10. *)
Fixpoint to_digits_aux (fuel n : nat) (acc : list nat) : list nat :=
  match fuel with
  | O => n :: acc
  | S f => if (n <? 10)%nat then n :: acc else to_digits_aux f (n / 10) (n mod 10 :: acc)
  end.

Definition to_digits (n : nat) : list nat := to_digits_aux n n [].

Definition digit_char (d : nat) : ascii := ascii_of_nat (48 + d).

Fixpoint digits_string (ds : list nat) : string :=
  match ds with
  | [] => EmptyString
  | d :: ds' => String (digit_char d) (digits_string ds')
  end.

(** [n.toString()] for a non-negative integer [n]. *)
Definition number_toString (n : nat) : string := digits_string (to_digits n).

(** The number a digit list denotes (most significant digit first). *)
Definition digits_value (ds : list nat) : Z :=
  fold_left (fun a d => a * 10 + Z.of_nat d)%Z ds 0%Z.

(** ** ASCII character classes and [split] on one character *)

Definition char_between (lo hi : nat) (c : ascii) : bool :=
  ((lo <=? nat_of_ascii c) && (nat_of_ascii c <=? hi))%nat.

Definition is_digit : ascii -> bool := char_between 48 57.
Definition is_upper : ascii -> bool := char_between 65 90.
Definition is_lower : ascii -> bool := char_between 97 122.
Definition is_alpha (c : ascii) : bool := is_upper c || is_lower c.
Definition is_alnum (c : ascii) : bool := is_alpha c || is_digit c.

Definition char_in (cs : string) (c : ascii) : bool :=
  existsb (Ascii.eqb c) (list_ascii_of_string cs).

Definition chars (s : string) : list ascii := list_ascii_of_string s.

(** [s.split(sep)] for a one-character separator. *)
Fixpoint split_on (sep : ascii) (s : string) : list string :=
  match s with
  | EmptyString => [""]
  | String c s' =>
      if Ascii.eqb c sep then "" :: split_on sep s'
      else match split_on sep s' with
           | [] => [String c ""]
           | h :: t => String c h :: t
           end
  end.

(** ** Properties

    *** Generic facts on [string] concatenation *)

(** stdpp makes [String.append] opaque to [simpl]; these two equations
    are its defining clauses. *)
Lemma str_app_nil_l (s : string) : "" ++ s = s.
Proof. reflexivity. Qed.

Lemma str_app_cons c (a b : string) : String c a ++ b = String c (a ++ b).
Proof. reflexivity. Qed.

Lemma str_app_nil_r (s : string) : s ++ "" = s.
Proof. induction s as [|c s IH]; [done|by rewrite str_app_cons, IH]. Qed.

Lemma str_app_assoc (a b c : string) : a ++ (b ++ c) = (a ++ b) ++ c.
Proof. induction a as [|x a IH]; [done|by rewrite !str_app_cons, IH]. Qed.

#[export] Hint Rewrite str_app_nil_l str_app_cons str_app_nil_r : linkcube_rw.

(** [===] on strings is [String.eqb]; stdpp's [bool_decide] is the same test. *)
Lemma string_eqb_decide (s t : string) : String.eqb s t = bool_decide (s = t).
Proof.
  destruct (String.eqb s t) eqn:E; symmetry.
  - apply bool_decide_eq_true. by apply String.eqb_eq.
  - apply bool_decide_eq_false. by apply String.eqb_neq.
Qed.

(** ** Case mapping *)

(** Checked on each of the 256 characters. *)
Lemma to_lower_char_idem c : to_lower_char (to_lower_char c) = to_lower_char c.
Proof. destruct c as [[] [] [] [] [] [] [] []]; vm_compute; reflexivity. Qed.

Lemma toLowerCase_idem s : toLowerCase (toLowerCase s) = toLowerCase s.
Proof. induction s as [|c s IH]; simpl; [done|]. by rewrite to_lower_char_idem, IH. Qed.

Lemma toLowerCase_app a b : toLowerCase (a ++ b) = toLowerCase a ++ toLowerCase b.
Proof. induction a as [|c a IH]; [done|]. rewrite str_app_cons. simpl. by rewrite IH. Qed.

Lemma toLowerCase_length s : String.length (toLowerCase s) = String.length s.
Proof.
  induction s as [|c s IH]; [done|].
  change (S (String.length (toLowerCase s)) = S (String.length s)). by rewrite IH.
Qed.

#[export] Hint Rewrite toLowerCase_idem toLowerCase_app : linkcube_rw.

(** ** The scan for [includes] meets its specification *)

Lemma startsWith_spec s p : startsWith s p = true <-> exists post, s = p ++ post.
Proof.
  revert s. induction p as [|a p IH]; intros s; simpl.
  - split; [by exists s|intros; reflexivity].
  - destruct s as [|b s]; simpl.
    + split; [discriminate|]. intros [post Hp]. discriminate Hp.
    + rewrite andb_true_iff, IH. split.
      * intros [Hab%Ascii.eqb_eq [post ->]]. subst. by exists post.
      * intros [post Hs]. injection Hs as -> ->. split; [apply Ascii.eqb_refl|by exists post].
Qed.

Lemma includes_spec s q :
  includes s q = true <-> exists pre post, s = pre ++ q ++ post.
Proof.
  induction s as [|c s IH]; simpl.
  - rewrite orb_false_r, startsWith_spec. split.
    + intros [post Hp]. by exists "", post.
    + intros (pre & post & Hp). destruct pre; [by exists post|done].
  - rewrite orb_true_iff, startsWith_spec, IH. split.
    + intros [[post Hp] | (pre & post & ->)].
      * by exists "", post.
      * by exists (String c pre), post.
    + intros (pre & post & Hp). destruct pre as [|d pre].
      * left. by exists post.
      * right. injection Hp as -> ->. by exists pre, post.
Qed.

Lemma includes_empty s : includes s "" = true.
Proof. destruct s; reflexivity. Qed.

Lemma includes_refl s : includes s s = true.
Proof. apply includes_spec. exists "", "". by rewrite str_app_nil_r. Qed.

Lemma includes_trans a b c :
  includes a b = true -> includes b c = true -> includes a c = true.
Proof.
  rewrite !includes_spec. intros (p1 & s1 & ->) (p2 & s2 & ->).
  exists (p1 ++ p2), (s2 ++ s1). by rewrite !str_app_assoc.
Qed.

(** Lower-casing both sides keeps an occurrence: case-insensitive search
    finds at least what case-sensitive search finds. *)
Lemma includes_toLowerCase s q :
  includes s q = true -> includes (toLowerCase s) (toLowerCase q) = true.
Proof.
  rewrite !includes_spec. intros (pre & post & ->).
  exists (toLowerCase pre), (toLowerCase post). by rewrite !toLowerCase_app.
Qed.

#[export] Hint Resolve includes_empty includes_refl : linkcube.

(** ** White space *)

Lemma trimEnd_blank s : trimEnd s = "" <-> is_blank s = true.
Proof.
  induction s as [|c s IH]; simpl; [done|].
  destruct (is_js_space c) eqn:Hc; simpl.
  - destruct (String.eqb (trimEnd s) "") eqn:E.
    + apply String.eqb_eq in E. split; [intros _; by apply IH|done].
    + apply String.eqb_neq in E. split; [done|]. intros H. by apply IH in H.
  - done.
Qed.

Lemma trimStart_blank s : is_blank (trimStart s) = is_blank s.
Proof.
  induction s as [|c s IH]; simpl; [done|].
  destruct (is_js_space c) eqn:Hc; simpl; [exact IH|by rewrite Hc].
Qed.

(** [s.trim()] is the empty string exactly when [s] is blank. *)
Lemma trim_empty_iff s : trim s = "" <-> is_blank s = true.
Proof. unfold trim. by rewrite trimEnd_blank, trimStart_blank. Qed.

(** ** Printing then parsing a number gives the number back *)

Lemma digits_value_snoc ds d :
  digits_value (ds ++ [d]) = (digits_value ds * 10 + Z.of_nat d)%Z.
Proof. unfold digits_value. by rewrite fold_left_app. Qed.

Lemma to_digits_aux_spec fuel : forall n acc, (n <= fuel)%nat ->
  exists ds, to_digits_aux fuel n acc = (ds ++ acc)%list /\ ds <> [] /\
             Forall (fun d => d < 10)%nat ds /\ digits_value ds = Z.of_nat n.
Proof.
  induction fuel as [|fuel IH]; intros n acc Hn; cbn [to_digits_aux].
  - exists [n]. split; [done|]. split; [done|]. split; [constructor; [lia|constructor]|].
    unfold digits_value. simpl. lia.
  - destruct (n <? 10)%nat eqn:E; reflect_arith.
    + exists [n]. split; [done|]. split; [done|]. split; [constructor; [lia|constructor]|].
      unfold digits_value. simpl. lia.
    + assert (Hd : (n / 10 <= fuel)%nat).
      { assert (n / 10 < n)%nat by (apply Nat.div_lt; lia). lia. }
      destruct (IH (n / 10) (n mod 10 :: acc) Hd) as (ds & Heq & Hne & Hall & Hv).
      exists (ds ++ [n mod 10])%list. rewrite Heq, <- app_assoc. split; [done|]. split.
      * intros Hnil. by destruct ds.
      * split; [apply Forall_app; split; [done|]; constructor; [apply Nat.mod_upper_bound; lia|constructor]|].
        rewrite digits_value_snoc, Hv. pose proof (Nat.div_mod_eq n 10). lia.
Qed.

Lemma digit_value_char d : (d < 10)%nat -> digit_value (digit_char d) = Some (Z.of_nat d).
Proof.
  intros Hd. unfold digit_value, digit_char. rewrite nat_ascii_embedding by lia.
  destruct ((48 <=? 48 + d) && (48 + d <=? 57))%nat eqn:E; [|bool_lia].
  f_equal. lia.
Qed.

Lemma parse_digits_string ds a :
  Forall (fun d => d < 10)%nat ds ->
  parse_digits 10 (digits_string ds) (Some a) =
  Some (fold_left (fun a d => a * 10 + Z.of_nat d)%Z ds a).
Proof.
  revert a. induction ds as [|d ds IH]; intros a Hall; cbn [digits_string parse_digits]; [done|].
  inversion Hall as [|? ? Hd Hds]; subst.
  rewrite digit_value_char by done.
  destruct (Z.of_nat d <? 10)%Z eqn:E; [|bool_lia]. cbn [default]. by apply IH.
Qed.

(** [parseInt(n.toString()) === n] for every non-negative integer. *)
Lemma parseInt_number_toString n : parseInt (number_toString n) = Some (Z.of_nat n).
Proof.
  unfold number_toString, to_digits.
  destruct (to_digits_aux_spec n n [] (le_n n)) as (ds & Heq & Hne & Hall & Hv).
  rewrite Heq, app_nil_r. destruct ds as [|d ds]; [done|].
  inversion Hall as [|? ? Hd Hds]; subst.
  set (s := String (digit_char d) (digits_string ds)).
  assert (Hsp : trimStart s = s).
  { subst s. cbn [trimStart].
    replace (is_js_space (digit_char d)) with false; [done|].
    symmetry. unfold is_js_space, digit_char. rewrite nat_ascii_embedding by lia. bool_goal_lia. }
  assert (Hsign : strip_sign s = (1%Z, s)).
  { subst s. destruct d as [|[|[|[|[|[|[|[|[|[|d]]]]]]]]]]; try lia; reflexivity. }
  assert (Hradix : strip_radix s = (10%Z, s)).
  { subst s. destruct d as [|d].
    - destruct ds as [|d' ds]; [reflexivity|]. inversion Hds as [|? ? Hd' _]; subst.
      destruct d' as [|[|[|[|[|[|[|[|[|[|d']]]]]]]]]]; try lia; reflexivity.
    - destruct d as [|[|[|[|[|[|[|[|[|d]]]]]]]]]; try lia; reflexivity. }
  unfold parseInt. change (digits_string (d :: ds)) with s.
  rewrite Hsp, Hsign, Hradix. subst s. cbn [parse_digits].
  rewrite digit_value_char by done.
  destruct (Z.of_nat d <? 10)%Z eqn:E; [|bool_lia]. cbn [default].
  rewrite parse_digits_string by done. cbn [option_map].
  f_equal. rewrite <- Hv. unfold digits_value. cbn [fold_left]. apply Z.mul_1_l.
Qed.
