(* ===== verification/Fixture.v ===== *)
(** * Fixture: records with an id, lookup by id, the action dispatcher

    Each page of the program declares a constant array of records with a
    numeric [id] (jobsData, peopleData, eventsData, resourcesData, the
    hall-of-fame arrays) and every handler starts the same way:

      const job = jobsData.find(j => j.id === jobId);
      if (job) { toast(...) }

    [HasId] is the interface a record type offers ([id]); [find_by_id] is
    the [Array.prototype.find] call; [find_then] is the whole handler shape
    (look up, then act, or do nothing when the id is unknown).  The
    data-access interface the spec's design notes ask for ([list] and
    [getById]) is the class [DataAccess] with its laws [DataAccessLaws];
    [fixture_access] implements it on a constant array, and its laws hold
    whenever the array's ids are distinct ([ids_unique]). *)

From S2P Require Import Prelude.

Class HasId (R : Type) := id_of : R -> nat.

Section Lookup.
Context {R : Type} `{HasId R}.
Implicit Types (xs : list R) (r : R) (k : nat).

(** [xs.find(r => r.id === k)] *)
Definition find_by_id xs k : option R :=
  (xs ⟪find⟫ (fun r => Nat.eqb (id_of r) k))%js.

(** The handler shape: look the id up, act on the record when it is
    found, and do nothing when it is not. *)
Definition find_then {E} xs k (act : R -> list E) : list E :=
  match find_by_id xs k with
  | Some r => act r
  | None => []
  end.

(** The contract of spec 4.3 for a handler [h] of the fixture [xs] and
    the action [act]: the id of a listed record acts on that record, and
    an unknown id does nothing. *)
Definition dispatch_contract {E} xs (h : nat -> list E) (act : R -> list E) : Prop :=
  (forall r, In r xs -> h (id_of r) = act r) /\
  (forall k, ~ In k (map id_of xs) -> h k = []).

(** The fixture invariant of spec section 3: ids are distinct. *)
Definition ids_unique xs : bool := bool_decide (NoDup (map id_of xs)).

End Lookup.

(** ** The data-access interface *)

Class DataAccess (R : Type) := {
  da_list : list R;
  da_getById : nat -> option R;
}.

Class DataAccessLaws (R : Type) `{HasId R} `{DataAccess R} := {
  getById_sound : forall k r, da_getById k = Some r -> In r da_list /\ id_of r = k;
  getById_complete : forall r, In r da_list -> da_getById (id_of r) = Some r;
}.

(** A constant array is a data source; [getById] is [Array.find]. *)
Definition fixture_access {R} `{HasId R} (xs : list R) : DataAccess R :=
  {| da_list := xs; da_getById := find_by_id xs |}.

(** A client of the interface: the dispatcher of spec 4.3, proved against
    the laws only. *)
Section Dispatch.
Context {R : Type} `{HasId R} `{DataAccess R} `{!DataAccessLaws R}.

Definition dispatch {E} (k : nat) (act : R -> list E) : list E :=
  match da_getById k with
  | Some r => act r
  | None => []
  end.

End Dispatch.

(** ** Properties *)

Section LookupLemmas.
Context {R : Type} `{HasId R}.
Implicit Types (xs : list R) (r : R) (k : nat).

Lemma find_by_id_sound xs k r :
  find_by_id xs k = Some r -> In r xs /\ id_of r = k.
Proof.
  unfold find_by_id. intros Hf. apply find_some_spec in Hf as [Hin Hk].
  split; [done|]. by apply Nat.eqb_eq.
Qed.

Lemma find_by_id_None xs k :
  find_by_id xs k = None <-> ~ In k (map id_of xs).
Proof.
  unfold find_by_id. rewrite find_none_spec. split.
  - intros Hn (r & <- & Hr)%in_map_iff. specialize (Hn r Hr).
    by rewrite Nat.eqb_refl in Hn.
  - intros Hn r Hr. apply Nat.eqb_neq. intros <-. apply Hn, in_map, Hr.
Qed.

(** With distinct ids, looking up the id of a listed record finds that
    very record. *)
Lemma find_by_id_complete xs r :
  ids_unique xs = true -> In r xs -> find_by_id xs (id_of r) = Some r.
Proof.
  unfold ids_unique. rewrite bool_decide_eq_true. intros Hnd Hr.
  destruct (find_by_id xs (id_of r)) as [r'|] eqn:Hf.
  - apply find_by_id_sound in Hf as [Hr' Hid]. f_equal.
    apply list_elem_of_In in Hr, Hr'.
    apply list_elem_of_lookup in Hr as [i Hi], Hr' as [j Hj].
    assert (i = j) as ->.
    { eapply NoDup_lookup; [exact Hnd | rewrite list_lookup_fmap, Hi; done |].
      rewrite list_lookup_fmap, Hj. simpl. by rewrite Hid. }
    congruence.
  - apply find_by_id_None in Hf. destruct Hf. by apply in_map.
Qed.

Lemma find_then_found {E} xs k r (act : R -> list E) :
  find_by_id xs k = Some r -> find_then xs k act = act r.
Proof. unfold find_then. by intros ->. Qed.

(** On a fixture with distinct ids, the handler of a listed record acts
    on that record. *)
Lemma find_then_listed {E} xs r (act : R -> list E) :
  ids_unique xs = true -> In r xs -> find_then xs (id_of r) act = act r.
Proof. intros Hu Hr. apply find_then_found. by apply find_by_id_complete. Qed.

(** An unknown id is a silent no-op (spec 4.3). *)
Lemma find_then_unknown {E} xs k (act : R -> list E) :
  ~ In k (map id_of xs) -> find_then xs k act = [].
Proof. unfold find_then. by intros ->%find_by_id_None. Qed.
(** On a fixture with distinct ids, the handler shape meets the contract. *)
Lemma find_then_contract {E} xs (act : R -> list E) :
  ids_unique xs = true -> dispatch_contract xs (fun k => find_then xs k act) act.
Proof.
  intros Hu. split.
  - intros r Hr. by apply find_then_listed.
  - intros k Hk. by apply find_then_unknown.
Qed.
End LookupLemmas.

Lemma fixture_access_laws {R} `{HasId R} (xs : list R) :
  ids_unique xs = true -> @DataAccessLaws R _ (fixture_access xs).
Proof.
  intros Hu. split; simpl.
  - apply find_by_id_sound.
  - intros r. by apply find_by_id_complete.
Qed.

Section DispatchLemmas.
Context {R : Type} `{HasId R} `{DataAccess R} `{!DataAccessLaws R}.

Lemma dispatch_listed {E} r (act : R -> list E) :
  In r da_list -> dispatch (id_of r) act = act r.
Proof. intros Hr. unfold dispatch. by rewrite getById_complete. Qed.

Lemma dispatch_acts_on_listed {E} k (act : R -> list E) :
  dispatch k act = [] \/ exists r, In r da_list /\ id_of r = k /\ dispatch k act = act r.
Proof.
  unfold dispatch. destruct (da_getById k) as [r|] eqn:Hg; [|by left].
  right. exists r. apply getById_sound in Hg as [? ?]. done.
Qed.
(** Any lawful data source meets the contract through the dispatcher. *)
Lemma dispatch_contract_laws {E} (act : R -> list E) :
  (forall r r', In r da_list -> In r' da_list -> id_of r = id_of r' -> r = r') ->
  dispatch_contract da_list (fun k => dispatch k act) act.
Proof.
  intros Hinj. split.
  - intros r Hr. by apply dispatch_listed.
  - intros k Hk. unfold dispatch. destruct (da_getById k) as [r|] eqn:Hg; [|done].
    apply getById_sound in Hg as [Hr <-]. destruct Hk. by apply in_map.
Qed.
End DispatchLemmas.

(** On a fixture, the handler shape [find_then] is the dispatcher. *)
Lemma find_then_dispatch {R E} `{HasId R} (xs : list R) k (act : R -> list E) :
  find_then xs k act = @dispatch R (fixture_access xs) E k act.
Proof. reflexivity. Qed.
