(* ===== verification/Search.v ===== *)
(** * Search: the filter predicate and the view partitioner

    Every list page filters its fixture on each keystroke with a predicate
    of the form

      r.f1.toLowerCase().includes(searchQuery.toLowerCase()) ||
      r.f2.toLowerCase().includes(searchQuery.toLowerCase()) || ...

    over a fixed whitelist of text fields (spec 4.1), and then splits the
    result into tabs by a discriminant (spec 4.2).  [Searchable] is the
    interface a record type offers the search (its whitelist of fields, in
    the order the code tests them); [search] is the generic filter, and
    each page proves that its hand-written predicate is [search_any] on its
    fields.  [partition_by] is the tab split by a key, with the cover and
    disjointness theorem.

    Two queries that lower-case alike ([query_equiv], an equivalence) are
    searched alike: [search] and every page filter are [Proper] for it, so
    [rewrite] replaces a query by a case-equivalent one under a filter.
    Each page also renders a header and a search bar ([PageChrome]).
    [ListingPage] is what a list page offers its search bar: the stored
    query, the [onChange] event, the step, the chrome and the tabs.
    [search_controlled] is its contract, derived from three laws by
    [search_controlled_intro]. *)

From S2P Require Import Prelude JsString Fixture.

Local Open Scope string_scope.

(** [field.toLowerCase().includes(query.toLowerCase())] *)
Definition field_includes (q f : string) : bool :=
  includes (toLowerCase f) (toLowerCase q).

(** The disjunction over the whitelist, left to right as [||] evaluates. *)
Definition search_any (q : string) (fields : list string) : bool :=
  existsb (field_includes q) fields.

Class Searchable (R : Type) := search_fields : R -> list string.

Definition search {R} `{Searchable R} (q : string) (xs : list R) : list R :=
  (xs ⟪filter⟫ (fun r => search_any q (search_fields r)))%js.

(** Two queries the search cannot tell apart: they lower-case alike. *)
Definition query_equiv (q1 q2 : string) : Prop := toLowerCase q1 = toLowerCase q2.


(** ** The view partitioner *)

Section Partition.
Context {R K : Type} `{EqDecision K} (key : R -> K).
Implicit Types (xs : list R) (ks : list K).

Definition partition_by (k : K) xs : list R :=
  (xs ⟪filter⟫ (fun r => bool_decide (key r = k)))%js.

Definition partitions ks xs : list (list R) := map (fun k => partition_by k xs) ks.

End Partition.

(** ** Rendering a tab

    A tab shows one card per record, keyed by id, or, when its list is
    empty, a fixed empty-state panel ([length > 0 ? cards : empty]). *)

Inductive tab_view : Type :=
  | Cards (ids : list nat)
  | EmptyState (heading : string).

Definition render_tab {R} `{HasId R} (xs : list R) (heading : string) : tab_view :=
  if Nat.ltb 0 (List.length xs) then Cards (map id_of xs) else EmptyState heading.

(** ** The page chrome

    Above its tabs each list page renders a header ([h1], a subtitle and,
    on three of the four pages, a button) and a search bar: a controlled
    [Input] with [value={searchQuery}] whose [onChange] stores
    [e.target.value], beside a "Filters" button.  A button is its label
    and whether the code gives it an [onClick]. *)

Record ButtonView : Type := mkButton { button_label : string; button_onClick : bool }.

Record PageChrome : Type := mkChrome {
  chrome_title : string;
  chrome_subtitle : string;
  chrome_action : option ButtonView;
  chrome_placeholder : string;
  chrome_query : string;
  chrome_filters : ButtonView }.

(** [<Button variant="outline"><Filter/>Filters</Button>], with no handler. *)
Definition filters_button : ButtonView := mkButton "Filters" false.

(** A list page as the search bar sees it: its state's query, the event
    its [Input]'s [onChange] raises, its step, its chrome and its tabs. *)
Class ListingPage (S T E : Type) := {
  page_query : S -> string;
  page_type : string -> E;
  page_step : S -> E -> S * list effect;
  page_chrome : S -> PageChrome;
  page_render : S -> T -> tab_view }.

(** The search bar is a controlled input and the search ignores case:
    typing [v] emits nothing, the input then shows exactly [v], and every
    tab is the one a case-equivalent query would show. *)
Definition search_controlled {S T E} `{ListingPage S T E} : Prop :=
  forall st v v' tab, query_equiv v v' ->
    (page_step st (page_type v)).2 = [] /\
    chrome_query (page_chrome (page_step st (page_type v)).1) = v /\
    page_render (page_step st (page_type v)).1 tab = page_render (page_step st (page_type v')).1 tab.

(** ** Properties *)

Section SearchLemmas.
Context {R : Type} `{Searchable R}.
Implicit Types (xs : list R) (q : string).

Lemma search_any_empty fields : fields <> [] -> search_any "" fields = true.
Proof.
  destruct fields as [|f fs]; [done|]. intros _. simpl. unfold field_includes.
  change (toLowerCase "") with "". by rewrite includes_empty.
Qed.

(** Narrowing: if the longer query [q'] matches a field, so does any
    factor [q] of it. *)
Lemma search_any_narrow q q' fields :
  includes q' q = true -> search_any q' fields = true -> search_any q fields = true.
Proof.
  intros Hq. unfold search_any. rewrite !existsb_exists.
  intros (f & Hf & Hinc). exists f. split; [done|].
  unfold field_includes in *. eapply includes_trans; [exact Hinc|].
  by apply includes_toLowerCase.
Qed.

Lemma search_any_lower q fields :
  search_any (toLowerCase q) fields = search_any q fields.
Proof. unfold search_any, field_includes. by rewrite toLowerCase_idem. Qed.

Lemma search_In q xs r :
  In r (search q xs) <->
  In r xs /\ exists f, In f (search_fields r) /\
                       includes (toLowerCase f) (toLowerCase q) = true.
Proof. unfold search. rewrite filter_In. unfold search_any. by rewrite existsb_exists. Qed.

(** The empty query keeps every record that has a field to search. *)
Lemma search_empty xs :
  (forall r, In r xs -> search_fields r <> []) -> search "" xs = xs.
Proof. intros Hne. apply filter_all. intros r Hr. by apply search_any_empty, Hne. Qed.

Lemma search_sublist q xs : sublist (search q xs) xs.
Proof. apply filter_sublist. Qed.

Lemma search_idem q xs : search q (search q xs) = search q xs.
Proof. apply filter_idem. Qed.

Lemma search_case_insensitive q xs : search (toLowerCase q) xs = search q xs.
Proof. unfold search. apply filter_ext_in. intros r _. apply search_any_lower. Qed.

Lemma search_narrowing q q' xs :
  includes q' q = true -> sublist (search q' xs) (search q xs).
Proof. intros Hq. apply filter_mono. intros r _. by apply search_any_narrow. Qed.

(** The search respects [query_equiv]: [search] can be rewritten under
    a change of the query's case. *)
#[export] Instance search_Proper : Proper (query_equiv ==> eq ==> eq) (@search R _).
Proof.
  intros q1 q2 Hq xs ? <-. by rewrite <- (search_case_insensitive q1), <- (search_case_insensitive q2), Hq.
Qed.

(** A page filter that matches its records field-wise is a search, so it
    cannot tell case-equivalent queries apart. *)
Lemma filter_search_Proper (matches : string -> R -> bool) xs :
  (forall q r, matches q r = search_any q (search_fields r)) ->
  Proper (query_equiv ==> eq) (fun q => List.filter (matches q) xs).
Proof.
  intros Hm q1 q2 Hq.
  assert (E : forall q, List.filter (matches q) xs = search q xs) by (intros q; by apply filter_ext_in).
  cbv beta. by rewrite !E, Hq.
Qed.

End SearchLemmas.

#[export] Instance query_equiv_Equivalence : Equivalence query_equiv.
Proof. unfold query_equiv. split; [done|by intros ??|by intros ??? -> ->]. Qed.

(** The interface's laws: a page whose [onChange] stores the text and
    emits nothing, whose chrome shows the stored query and whose tabs
    depend on the query only up to case has a controlled search bar. *)
Section ListingLaws.
Context {S T E : Type} `{ListingPage S T E}.
Hypothesis type_stores : forall st v, page_step st (page_type v) = ((page_step st (page_type v)).1, []) /\
  page_query (page_step st (page_type v)).1 = v.
Hypothesis chrome_shows : forall st, chrome_query (page_chrome st) = page_query st.
Hypothesis render_equiv : forall st st' tab,
  query_equiv (page_query st) (page_query st') -> page_render st tab = page_render st' tab.

Lemma search_controlled_intro : search_controlled.
Proof.
  intros st v v' tab Hv. destruct (type_stores st v) as [Hs Hq], (type_stores st v') as [_ Hq'].
  split; [by rewrite Hs|]. split; [by rewrite chrome_shows|].
  apply render_equiv. by rewrite Hq, Hq'.
Qed.
End ListingLaws.

Lemma query_equiv_lower q : query_equiv (toLowerCase q) q.
Proof. unfold query_equiv. apply toLowerCase_idem. Qed.

Section PartitionLemmas.
Context {R K : Type} `{EqDecision K} (key : R -> K).
Implicit Types (xs : list R) (ks : list K).
Local Abbreviation partition_by := (partition_by key).
Local Abbreviation partitions := (partitions key).

Lemma partition_by_In k xs r : In r (partition_by k xs) <-> In r xs /\ key r = k.
Proof. unfold partition_by. by rewrite filter_In, bool_decide_eq_true. Qed.

Lemma partitions_skip x xs ks :
  ~ In (key x) ks ->
  partitions ks (x :: xs) = partitions ks xs.
Proof.
  induction ks as [|k ks IH]; intros Hn; simpl; [done|].
  rewrite IH by (intros ?; apply Hn; by right). f_equal.
  unfold partition_by. simpl. rewrite bool_decide_eq_false_2; [done|].
  intros Heq. apply Hn. by left.
Qed.

Lemma partitions_cons x xs ks :
  NoDup ks -> In (key x) ks ->
  List.concat (partitions ks (x :: xs)) ≡ₚ x :: List.concat (partitions ks xs).
Proof.
  induction ks as [|k ks IH]; intros Hnd Hin; [done|].
  inversion Hnd as [|? ? Hk Hnd']; subst. rewrite list_elem_of_In in Hk. simpl.
  destruct (decide (key x = k)) as [<-|Hne].
  - rewrite partitions_skip by done.
    unfold partition_by at 1. simpl. rewrite bool_decide_eq_true_2 by done. done.
  - destruct Hin as [Hin|Hin]; [congruence|].
    unfold partition_by at 1. simpl. rewrite bool_decide_eq_false_2 by done.
    fold (partition_by k xs). rewrite IH by done. by rewrite Permutation_middle.
Qed.

(** When every record's key is one of the tabs' keys, the tabs together
    hold each record exactly once (spec 4.2: a complete, disjoint
    cover). *)
Lemma partitions_cover ks xs :
  NoDup ks -> (forall r, In r xs -> In (key r) ks) ->
  List.concat (partitions ks xs) ≡ₚ xs.
Proof.
  intros Hnd. induction xs as [|x xs IH]; intros Hk.
  - clear Hnd Hk. unfold partitions, partition_by.
    induction ks as [|k ks IHk]; simpl; [done|exact IHk].
  - rewrite partitions_cons by (done || (apply Hk; by left)).
    f_equal. rewrite IH; [done|]. intros r Hr. apply Hk. by right.
Qed.

Lemma partitions_disjoint k1 k2 xs r :
  In r (partition_by k1 xs) -> In r (partition_by k2 xs) -> k1 = k2.
Proof. rewrite !partition_by_In. by intros [_ <-] [_ <-]. Qed.
End PartitionLemmas.

Lemma render_tab_empty {R} `{HasId R} (xs : list R) heading :
  render_tab xs heading = EmptyState heading <-> xs = [].
Proof. unfold render_tab. destruct xs; simpl; split; congruence. Qed.

Lemma search_any_nil q : search_any q [] = false.
Proof. reflexivity. Qed.

(** C2: the filter predicate's contract (spec 4.1 and 8), for every
    searchable record type: a record is kept exactly when the lower-cased
    query occurs in the lower-cased text of one of its fields; the result
    keeps the fixture's order (a sublist); filtering twice with the same
    query changes nothing; the query's letter case does not matter; the
    empty query keeps every record that has a field to search; and typing
    more text around a query never brings a record back. *)
Theorem search_contract {R} `{Searchable R} (q : string) (xs : list R) :
  (forall r, In r (search q xs) <->
     In r xs /\ exists f, In f (search_fields r) /\ includes (toLowerCase f) (toLowerCase q) = true) /\
  sublist (search q xs) xs /\
  search q (search q xs) = search q xs /\
  search (toLowerCase q) xs = search q xs /\
  search "" xs = List.filter (fun r => negb (bool_decide (search_fields r = []))) xs /\
  (forall pre post, sublist (search (pre ++ q ++ post) xs) (search q xs)).
Proof.
  split; [intros r; apply search_In|]. split; [apply search_sublist|].
  split; [apply search_idem|]. split; [apply search_case_insensitive|]. split.
  - unfold search. apply filter_ext_in. intros r _.
    destruct (search_fields r) as [|f fs] eqn:E.
    + rewrite bool_decide_eq_true_2 by done. apply search_any_nil.
    + rewrite bool_decide_eq_false_2 by done. by apply search_any_empty.
  - intros pre post. apply search_narrowing. apply includes_spec. by exists pre, post.
Qed.
