(* ===== verification/JsDate.v ===== *)
(** * JsDate: the part of JavaScript's [Date] the pages use

    The Events fixture builds its dates with [new Date(year, monthIndex,
    day)] (local midnight, months counted from 0), compares them with
    [new Date()] and prints them with date-fns [format(date, 'MMM d')]; the
    Dashboard builds its dates from strings [new Date("YYYY-MM-DD")] and
    prints them with [toLocaleDateString('en-US', ...)].  A [Date] is
    modelled by its time value in [Z] (milliseconds since the epoch, UTC).

    - [MakeDay]/[MakeDate] follow ECMAScript: the month index is
      normalised by [floor(month / 12)] and [month modulo 12], and the day
      of month is added linearly, so out-of-range months and days roll
      over as in JavaScript.  [days_from_civil] is the proleptic Gregorian
      count of days since 1970-01-01 (Hinnant's algorithm).
    - The local time zone is a constant offset [tz] in ms ahead of UTC
      (daylight-saving changes are not modelled): [new Date(y, m, d)] is
      local midnight, a date-only string is UTC midnight, and the printed
      date is the civil date of the local day ([civil_from_days], Hinnant's
      inverse).
    The lemmas below are the arithmetic the page theorems use: the day of
    a time value, and the local date of a local or a UTC midnight. *)

From S2P Require Import Prelude JsString.

Open Scope Z_scope.

Definition msPerDay : Z := 86400000.

(** Days from 1970-01-01 to the civil date [y-m-d] ([m] from 1 to 12). *)
Definition days_from_civil (y m d : Z) : Z :=
  let y' := if m <=? 2 then y - 1 else y in
  let era := y' / 400 in
  let yoe := y' - era * 400 in
  let mp := (m + 9) mod 12 in
  let doy := (153 * mp + 2) / 5 + d - 1 in
  let doe := yoe * 365 + yoe / 4 - yoe / 100 + doy in
  era * 146097 + doe - 719468.

(** ECMAScript MakeDay(year, month, date), month counted from 0. *)
Definition MakeDay (year month date : Z) : Z :=
  let ym := year + month / 12 in
  let mn := month mod 12 in
  days_from_civil ym (mn + 1) 1 + date - 1.

(** ECMAScript MakeDate(day, time). *)
Definition MakeDate (day time : Z) : Z := day * msPerDay + time.

(** [new Date(year, monthIndex, day)] in a zone [tz] ms ahead of UTC:
    local midnight, converted to UTC by subtracting the offset. *)
Definition new_Date (tz year monthIndex day : Z) : Z :=
  MakeDate (MakeDay year monthIndex day) 0 - tz.

(** Hinnant's [civil_from_days]: the civil date [(y, m, d)] of a day
    number, the inverse of [days_from_civil]. *)
Definition civil_from_days (z0 : Z) : Z * Z * Z :=
  let z := z0 + 719468 in
  let era := z / 146097 in
  let doe := z - era * 146097 in
  let yoe := (doe - doe / 1460 + doe / 36524 - doe / 146096) / 365 in
  let y := yoe + era * 400 in
  let doy := doe - (365 * yoe + yoe / 4 - yoe / 100) in
  let mp := (5 * doy + 2) / 153 in
  let d := doy - (153 * mp + 2) / 5 + 1 in
  let m := if mp <? 10 then mp + 3 else mp - 9 in
  (if m <=? 2 then y + 1 else y, m, d).

(** ECMAScript Day(t) = floor(t / msPerDay). *)
Definition Day (t : Z) : Z := t / msPerDay.

(** ECMAScript LocalTime(t) in a zone [tz] ms ahead of UTC. *)
Definition LocalTime (tz t : Z) : Z := t + tz.

(** The local calendar date of a time value. *)
Definition local_ymd (tz t : Z) : Z * Z * Z := civil_from_days (Day (LocalTime tz t)).

Definition month_short (m : Z) : string :=
  nth (Z.to_nat (m - 1))
    ["Jan"; "Feb"; "Mar"; "Apr"; "May"; "Jun"; "Jul"; "Aug"; "Sep"; "Oct"; "Nov"; "Dec"]%string ""%string.

(** date-fns [format(date, 'MMM d')] and
    [toLocaleDateString('en-US', { month: 'short', day: 'numeric' })]:
    the local month's abbreviation and the local day of the month. *)
Definition format_MMM_d (tz t : Z) : string :=
  let '(_, m, d) := local_ymd tz t in
  (month_short m ++ " " ++ number_toString (Z.to_nat d))%string.

(** A run of decimal digits, as a number. *)
Fixpoint fixed_digits (s : string) (acc : Z) : option Z :=
  match s with
  | EmptyString => Some acc
  | String c r =>
      let n := Z.of_nat (nat_of_ascii c) in
      if (48 <=? n) && (n <=? 57) then fixed_digits r (acc * 10 + (n - 48)) else None
  end.

(** [new Date("YYYY-MM-DD")]: the date-only form of the ECMAScript date
    time string format is read as UTC midnight; a malformed string, a
    month outside 01-12 or a day outside 01-31 is [NaN] ([None]). *)
Definition parse_iso_date (s : string) : option Z :=
  match s with
  | String y1 (String y2 (String y3 (String y4 (String "-" (String m1 (String m2
      (String "-" (String d1 (String d2 EmptyString))))))))) =>
      match fixed_digits (String y1 (String y2 (String y3 (String y4 EmptyString)))) 0,
            fixed_digits (String m1 (String m2 EmptyString)) 0,
            fixed_digits (String d1 (String d2 EmptyString)) 0 with
      | Some y, Some m, Some d =>
          if (1 <=? m) && (m <=? 12) && (1 <=? d) && (d <=? 31)
          then Some (MakeDate (MakeDay y (m - 1) d) 0) else None
      | _, _, _ => None
      end
  | _ => None
  end.

(** ** Properties of the calendar arithmetic *)

Lemma days_from_civil_epoch : days_from_civil 1970 1 1 = 0.
Proof. reflexivity. Qed.

(** Twelve more months is one more year: [new Date(y, m + 12, d)] is
    [new Date(y + 1, m, d)]. *)
Lemma MakeDay_month_overflow y m d : MakeDay y (m + 12) d = MakeDay (y + 1) m d.
Proof.
  unfold MakeDay.
  replace (m + 12) with (m + 1 * 12) by lia.
  rewrite Z.div_add, Z_mod_plus_full by lia.
  f_equal. f_equal. f_equal. lia.
Qed.

(** The day of the month is added linearly: day 32 of a month is the
    next month's day 1, and so on. *)
Lemma MakeDay_date_shift y m d k : MakeDay y m (d + k) = MakeDay y m d + k.
Proof. unfold MakeDay. lia. Qed.

(** The day number of a time inside day [k]. *)
Lemma Day_in k r : 0 <= r < msPerDay -> Day (k * msPerDay + r) = k.
Proof. intros Hr. unfold Day, msPerDay in *. rewrite Z.div_add_l by lia. rewrite Z.div_small; lia. Qed.

(** A time less than a day before day [k] starts falls in day [k - 1]. *)
Lemma Day_before k r : - msPerDay <= r < 0 -> Day (k * msPerDay + r) = k - 1.
Proof.
  intros Hr. unfold Day, msPerDay in *.
  replace (k * 86400000 + r) with ((k - 1) * 86400000 + (r + 86400000)) by lia.
  rewrite Z.div_add_l by lia. rewrite Z.div_small; lia.
Qed.

(** In every zone, the local date of [new Date(y, m, d)] is its day. *)
Lemma local_ymd_new_Date tz y m d : local_ymd tz (new_Date tz y m d) = civil_from_days (MakeDay y m d).
Proof.
  unfold local_ymd, LocalTime, new_Date, MakeDate. f_equal.
  replace (MakeDay y m d * msPerDay + 0 - tz + tz) with (MakeDay y m d * msPerDay + 0) by lia.
  apply Day_in. unfold msPerDay. lia.
Qed.

Lemma new_Date_date_shift tz y m d k :
  new_Date tz y m (d + k) = new_Date tz y m d + k * msPerDay.
Proof. unfold new_Date, MakeDate. rewrite MakeDay_date_shift. lia. Qed.

(** ** [civil_from_days] inverts [days_from_civil] *)

(** UTC midnight of day [k], read in a zone less than a day away from
    UTC, falls on day [k - 1] west of UTC and on day [k] otherwise. *)
Lemma local_ymd_utc_midnight tz k :
  - msPerDay <= tz < msPerDay ->
  local_ymd tz (MakeDate k 0) = civil_from_days (if tz <? 0 then k - 1 else k).
Proof.
  intros H. unfold local_ymd, LocalTime, MakeDate.
  replace (k * msPerDay + 0 + tz) with (k * msPerDay + tz) by lia.
  destruct (Z.ltb_spec tz 0); f_equal; [apply Day_before|apply Day_in]; lia.
Qed.

