(* ===== verification/Url.v ===== *)
(** * Url: when [new URL(s)] succeeds

    zod's [.url()] check (zod 3: [try { new URL(input) } catch { issue }])
    and the browser's [<input type="url">] (a valid absolute URL) accept
    exactly the strings that the basic URL parser of the WHATWG URL
    Standard parses without a base URL.  The parser is a browser
    built-in, not code of the repository; [parses] models, from the
    standard, whether it returns failure:

    - leading and trailing C0 controls and spaces are stripped, and every
      tab and newline is removed;
    - a scheme is required: an ASCII letter, then letters, digits, [+],
      [-] or [.], then [:];
    - for the special schemes [http], [https], [ws], [wss] and [ftp], the
      authority follows any run of [/] and [\] and must hold a host.
      That is the part after the last [@]: non-empty, then an optional
      all-digit port of at most 65535.  The host is either an IPv6
      address in brackets or a domain.  A domain, after percent-decoding
      and lower-casing, holds no forbidden domain code point and, when its
      last label is a number, is a valid IPv4 address;
    - a [file] URL fails only on an invalid host after [//];
    - a URL of any other scheme fails only on an invalid authority after
      [//]: a forbidden host code point or an invalid port.

    Strings are of code units 0-255.  IDNA processing is not modelled:
    a non-ASCII code point of a host, or an [xn--] label, is taken as
    valid. *)

From S2P Require Import Prelude JsString.

Local Open Scope string_scope.

Module WhatwgUrl.

Definition code (c : ascii) : nat := nat_of_ascii c.

Definition is_some {A} (o : option A) : bool := match o with Some _ => true | None => false end.

Definition is_nil {A} (l : list A) : bool := match l with [] => true | _ => false end.

(** ** Preprocessing *)

Definition is_c0_or_space (c : ascii) : bool := (code c <=? 32)%nat.

Definition is_tab_or_newline (c : ascii) : bool := ((code c =? 9) || (code c =? 10) || (code c =? 13))%nat.

Fixpoint drop_while (p : ascii -> bool) (l : list ascii) : list ascii :=
  match l with [] => [] | c :: r => if p c then drop_while p r else l end.

Fixpoint take_until (p : ascii -> bool) (l : list ascii) : list ascii :=
  match l with [] => [] | c :: r => if p c then [] else c :: take_until p r end.

Definition preprocess (s : string) : list ascii :=
  List.filter (fun c => negb (is_tab_or_newline c))
    (rev (drop_while is_c0_or_space (rev (drop_while is_c0_or_space (chars s))))).

(** ** Scheme *)

Definition is_scheme_char (c : ascii) : bool := is_alnum c || char_in "+-." c.

(** The scheme state: the lower-cased scheme and what follows its [:];
    [None] is "no scheme", a failure without a base URL. *)
Fixpoint scheme_rest (l : list ascii) : option (list ascii * list ascii) :=
  match l with
  | [] => None
  | c :: r =>
      if Ascii.eqb c ":" then Some ([], r)
      else if is_scheme_char c then option_map (fun '(sc, rest) => (to_lower_char c :: sc, rest)) (scheme_rest r)
      else None
  end.

Definition split_scheme (l : list ascii) : option (string * list ascii) :=
  match l with
  | c :: _ =>
      if is_alpha c then option_map (fun '(sc, rest) => (string_of_list_ascii sc, rest)) (scheme_rest l)
      else None
  | [] => None
  end.

Definition is_special (sc : string) : bool :=
  existsb (String.eqb sc) ["ftp"; "file"; "http"; "https"; "ws"; "wss"].

(** ** Numbers *)

(** The value of [l] in base [radix]; [None] when a code point is not a
    digit of that base. *)
Fixpoint radix_value_acc (radix acc : Z) (l : list ascii) : option Z :=
  match l with
  | [] => Some acc
  | c :: r =>
      match digit_value c with
      | Some d => if (d <? radix)%Z then radix_value_acc radix (acc * radix + d)%Z r else None
      | None => None
      end
  end.

Definition radix_value (radix : Z) (l : list ascii) : option Z := radix_value_acc radix 0 l.

Definition port_ok (p : list ascii) : bool :=
  forallb is_digit p && match radix_value 10 p with Some v => (v <=? 65535)%Z | None => false end.

Fixpoint split_l (sep : ascii) (l : list ascii) : list (list ascii) :=
  match l with
  | [] => [[]]
  | c :: r =>
      if Ascii.eqb c sep then [] :: split_l sep r
      else match split_l sep r with [] => [[c]] | h :: t => (c :: h) :: t end
  end.

(** The IPv4 number parser: [0x] hexadecimal, a leading [0] octal,
    decimal otherwise. *)
Definition ipv4_number (l : list ascii) : option Z :=
  match l with
  | [] => None
  | c :: x :: r =>
      if Ascii.eqb c "0" then
        if Ascii.eqb x "x" || Ascii.eqb x "X" then radix_value 16 r else radix_value 8 (x :: r)
      else radix_value 10 l
  | _ => radix_value 10 l
  end.

Definition drop_empty_last (parts : list (list ascii)) : list (list ascii) :=
  match List.last parts [] with
  | [] => if (1 <? List.length parts)%nat then removelast parts else parts
  | _ => parts
  end.

(** The IPv4 parser: at most four parts; every part but the last at most
    255, the last below [256 ^ (5 - parts)]. *)
Definition ipv4_ok (l : list ascii) : bool :=
  let parts := drop_empty_last (split_l "." l) in
  if (4 <? List.length parts)%nat then false
  else match mapM ipv4_number parts with
       | None => false
       | Some ns =>
           forallb (fun n => (n <=? 255)%Z) (removelast ns) &&
           (List.last ns 0 <? 256 ^ Z.of_nat (5 - List.length ns))%Z
       end.

(** The ends-in-a-number checker. *)
Definition ends_in_number (l : list ascii) : bool :=
  let parts := split_l "." l in
  match List.last parts [] with
  | [] => if (List.length parts =? 1)%nat then false
          else let lst := List.last (removelast parts) [] in
               (negb (is_nil lst) && forallb is_digit lst) || is_some (ipv4_number lst)
  | lst => (negb (is_nil lst) && forallb is_digit lst) || is_some (ipv4_number lst)
  end.

(** ** IPv6 *)

Definition is_hex (c : ascii) : bool := is_digit c || char_between 65 70 c || char_between 97 102 c.

Fixpoint take_hex (n : nat) (l : list ascii) : nat * list ascii :=
  match n, l with
  | S n', c :: r => if is_hex c then let '(k, rest) := take_hex n' r in (S k, rest) else (0%nat, l)
  | _, _ => (0%nat, l)
  end.

(** One decimal piece of an IPv4 address inside an IPv6 address: no
    leading zero, at most 255; the rest of the input. *)
Fixpoint v4_piece (l : list ascii) (piece : option nat) : option (list ascii) :=
  match l with
  | c :: r =>
      if is_digit c then
        let d := (code c - 48)%nat in
        match piece with
        | None => v4_piece r (Some d)
        | Some 0 => None
        | Some p => if (255 <? p * 10 + d)%nat then None else v4_piece r (Some (p * 10 + d))
        end
      else match piece with None => None | Some _ => Some l end
  | [] => match piece with None => None | Some _ => Some [] end
  end.

(** The dotted IPv4 tail: how many numbers it holds. *)
Fixpoint v4_tail (fuel : nat) (l : list ascii) (seen : nat) : option nat :=
  match fuel with
  | O => None
  | S f =>
      match l with
      | [] => Some seen
      | c :: r =>
          let start := if (0 <? seen)%nat then (if Ascii.eqb c "." && (seen <? 4)%nat then Some r else None)
                       else Some l in
          match start with
          | None => None
          | Some l1 => match v4_piece l1 None with None => None | Some l2 => v4_tail f l2 (S seen) end
          end
      end
  end.

(** The main loop of the IPv6 parser: the piece index reached and
    whether a [::] was seen. *)
Fixpoint v6_loop (fuel : nat) (l : list ascii) (pi : nat) (comp : bool) : option (nat * bool) :=
  match fuel with
  | O => None
  | S f =>
      match l with
      | [] => Some (pi, comp)
      | c :: r =>
          if (pi =? 8)%nat then None
          else if Ascii.eqb c ":" then (if comp then None else v6_loop f r (S pi) true)
          else
            let '(len, l1) := take_hex 4 l in
            match l1 with
            | [] => Some (S pi, comp)
            | d :: r1 =>
                if Ascii.eqb d "." then
                  if (len =? 0)%nat || (6 <? pi)%nat then None
                  else match v4_tail (S (List.length l)) l 0 with
                       | Some 4%nat => Some (pi + 2, comp)%nat
                       | _ => None
                       end
                else if Ascii.eqb d ":" then
                  match r1 with [] => None | _ => v6_loop f r1 (S pi) comp end
                else None
            end
      end
  end.

Definition ipv6_ok (l : list ascii) : bool :=
  let start := match l with
               | c1 :: c2 :: r => if Ascii.eqb c1 ":" then (if Ascii.eqb c2 ":" then Some (r, 1%nat, true) else None)
                                  else Some (l, 0%nat, false)
               | [c1] => if Ascii.eqb c1 ":" then None else Some (l, 0%nat, false)
               | [] => Some (l, 0%nat, false)
               end in
  match start with
  | None => false
  | Some (l0, pi, comp) =>
      match v6_loop (S (List.length l0)) l0 pi comp with
      | Some (pi', comp') => comp' || (pi' =? 8)%nat
      | None => false
      end
  end.

(** ** Hosts *)

Definition forbidden_host (c : ascii) : bool :=
  ((code c =? 0) || (code c =? 9) || (code c =? 10) || (code c =? 13))%nat || char_in " #/:<>?@[\]^|" c.

Definition forbidden_domain (c : ascii) : bool :=
  forbidden_host c || ((code c <? 32) || (code c =? 37) || (code c =? 127))%nat.

Definition hex_value (c : ascii) : option nat :=
  if is_hex c then option_map Z.to_nat (digit_value c) else None.

Fixpoint percent_decode (l : list ascii) : list ascii :=
  match l with
  | c :: (h :: lo :: r) as tl =>
      if Ascii.eqb c "%" then
        match hex_value h, hex_value lo with
        | Some a, Some b => ascii_of_nat (a * 16 + b) :: percent_decode r
        | _, _ => c :: percent_decode tl
        end
      else c :: percent_decode tl
  | c :: r => c :: percent_decode r
  | [] => []
  end.

(** The host parser: an IPv6 address in brackets; for a special URL a
    domain (percent-decoded, lower-cased, no forbidden domain code point,
    an IPv4 address when it ends in a number); otherwise an opaque host
    with no forbidden host code point. *)
Definition host_ok (not_special : bool) (l : list ascii) : bool :=
  match l with
  | c :: r =>
      if Ascii.eqb c "[" then
        match rev r with
        | e :: inner => Ascii.eqb e "]" && ipv6_ok (rev inner)
        | [] => false
        end
      else if not_special then negb (existsb forbidden_host l)
      else let d := map to_lower_char (percent_decode l) in
           negb (is_nil d) && negb (existsb forbidden_domain d) && (negb (ends_in_number d) || ipv4_ok d)
  | [] => not_special
  end.

(** The authority state: the host and port after the last [@]. *)
Fixpoint after_last_at (l : list ascii) : option (list ascii) :=
  match l with
  | [] => None
  | c :: r =>
      match after_last_at r with
      | Some h => Some h
      | None => if Ascii.eqb c "@" then Some r else None
      end
  end.

(** The host state: the host, and the port after a [:] outside
    brackets. *)
Fixpoint split_port (inside : bool) (l : list ascii) : list ascii * option (list ascii) :=
  match l with
  | [] => ([], None)
  | c :: r =>
      if Ascii.eqb c ":" && negb inside then ([], Some r)
      else let inside' := if Ascii.eqb c "[" then true else if Ascii.eqb c "]" then false else inside in
           let '(h, p) := split_port inside' r in (c :: h, p)
  end.

Definition authority_ok (special : bool) (auth : list ascii) : bool :=
  let at_part := after_last_at auth in
  let hostport := match at_part with Some h => h | None => auth end in
  if is_some at_part && is_nil hostport then false
  else let '(host, port) := split_port false hostport in
       match port with
       | Some p => negb (is_nil host) && host_ok (negb special) host && port_ok p
       | None => host_ok (negb special) host
       end.

Definition ends_authority (special : bool) (c : ascii) : bool :=
  char_in "/?#" c || (special && Ascii.eqb c "\").

Definition is_slash (c : ascii) : bool := char_in "/\" c.

(** A Windows drive letter: an ASCII letter and [:] or [|]. *)
Definition windows_drive (l : list ascii) : bool :=
  match l with [a; b] => is_alpha a && char_in ":|" b | _ => false end.

(** ** The parser *)

Definition parses (s : string) : bool :=
  match split_scheme (preprocess s) with
  | None => false
  | Some (sc, rest) =>
      if String.eqb sc "file" then
        match rest with
        | a :: b :: r =>
            if is_slash a && is_slash b then
              let h := take_until (ends_authority true) r in
              windows_drive h || is_nil h || host_ok false h
            else true
        | _ => true
        end
      else if is_special sc then
        authority_ok true (take_until (ends_authority true) (drop_while is_slash rest))
      else
        match rest with
        | a :: b :: r =>
            if Ascii.eqb a "/" && Ascii.eqb b "/" then authority_ok false (take_until (ends_authority false) r)
            else true
        | _ => true
        end
  end.

End WhatwgUrl.

(** ** Properties *)

Import WhatwgUrl.

(** What [new URL] does on a few inputs: a space or a non-numeric port
    in the host fails, IPv4 hosts are range-checked, IPv6 hosts may
    compress zeros once and end in a dotted quad without leading zeros,
    and a scheme is required. *)
Lemma parses_examples :
  parses "https://a b" = false /\ parses "http://a:b" = false /\
  parses "https://www.linkedin.com/in/ada-lovelace" = true /\ parses "www.linkedin.com/in/ada" = false /\
  parses "http://1.2.3.999/" = false /\ parses "http://0x7f.1/" = true /\
  parses "http://[::1]:8080/" = true /\ parses "http://[1:2:3:4:5:6:7::]" = true /\
  parses "http://[1:2:3:4:5:6:7:8:9]" = false /\ parses "http://[::ffff:1.2.3.4]/" = true /\
  parses "http://[::1.2.3.04]/" = false /\ parses "http://host:65536/" = false /\
  parses "mailto:ada@linkcube.edu" = true /\ parses "https:linkedin.com" = true.
Proof. vm_compute. repeat split. Qed.
