(* ===== verification/Zod.v ===== *)
(** * Zod: the validation library calls of the three forms

    Login, Register and AdminRegister validate with [zod] schemas through
    [zodResolver] and [react-hook-form].  This file models the part of
    zod 3 they use, from its documented behaviour (the library is not part
    of the repository):

    - [z.string()] on a value that was never set ([undefined]) reports the
      single issue "Required" and runs no further check;
    - on a string, every check of the chain runs and each failing one
      reports its message, in chain order;
    - [.email()] is zod's e-mail pattern
      [^(?!\.)(?!.{0,}\.\.)([A-Z0-9_'+\-\.]{0,})[A-Z0-9_+-]@([A-Z0-9][A-Z0-9\-]{0,}\.)+[A-Z]{2,}$/i]
      (written here with [{0,}] for the star);
    - [.url()] accepts what [new URL(s)] parses ([WhatwgUrl.parses]);
    - [.optional().or(z.literal(''))] accepts [undefined], [""] and any
      value the inner schema accepts, and otherwise reports the inner
      schema's issues.

    [react-hook-form] keeps the first issue of each field ([criteriaMode]
    "firstError"); [resolve] computes that error object, and the submit
    handler runs only when it is empty. *)

From S2P Require Import Prelude JsString Url.

Local Open Scope string_scope.

Module Zod.

(** ** The e-mail pattern *)

Definition local_ok (l : string) : bool :=
  match List.last (chars l) "x"%char, chars l with
  | _, [] => false
  | c, _ => forallb (fun a => is_alnum a || char_in "_'+-." a) (chars l)
            && (is_alnum c || char_in "_+-" c)
  end.

Definition label_ok (l : string) : bool :=
  match l with
  | EmptyString => false
  | String c r => is_alnum c && forallb (fun a => is_alnum a || Ascii.eqb a "-") (chars r)
  end.

Definition tld_ok (t : string) : bool :=
  (2 <=? String.length t)%nat && forallb is_alpha (chars t).

Definition domain_ok (d : string) : bool :=
  let labels := split_on "." d in
  (2 <=? List.length labels)%nat && forallb label_ok (removelast labels)
  && tld_ok (List.last labels "").

Definition email_ok (s : string) : bool :=
  negb (startsWith s ".") && negb (includes s "..") &&
  match split_on "@" s with
  | [l; d] => local_ok l && domain_ok d
  | _ => false
  end.

(** ** The URL test *)

(** [.url()] runs [new URL(input)] and reports an issue when it throws. *)
Definition url_ok (s : string) : bool := WhatwgUrl.parses s.

(** ** Schemas *)

Inductive check : Type :=
  | Min (n : nat) (message : string)
  | Email (message : string)
  | Regex (test : string -> bool) (message : string)
  | Url (message : string).

Definition check_passes (c : check) (s : string) : bool :=
  match c with
  | Min n _ => (n <=? String.length s)%nat
  | Email _ => email_ok s
  | Regex t _ => t s
  | Url _ => url_ok s
  end.

Definition check_message (c : check) : string :=
  match c with
  | Min _ m | Email m | Regex _ m | Url m => m
  end.

(** [z.string().c1(...).c2(...)...] on a value; [None] is [undefined]. *)
Definition z_string (checks : list check) (v : option string) : list string :=
  match v with
  | None => ["Required"]
  | Some s => map check_message (List.filter (fun c => negb (check_passes c s)) checks)
  end.

(** [z.string().c1(...)....optional().or(z.literal(''))] *)
Definition z_optional_or_empty (checks : list check) (v : option string) : list string :=
  match v with
  | None => []
  | Some s => if String.eqb s "" then [] else z_string checks (Some s)
  end.

(** The error object [react-hook-form] builds: the first issue of each
    field that has one, in schema order. *)
Fixpoint resolve (issues : list (string * list string)) : list (string * string) :=
  match issues with
  | [] => []
  | (f, []) :: rest => resolve rest
  | (f, m :: _) :: rest => (f, m) :: resolve rest
  end.

(** [handleSubmit(onSubmit)]: validate, then either record the errors or
    run the handler on the data. *)
Definition handleSubmit (issues : list (string * list string)) (onSubmit : list effect)
    : list (string * string) + list effect :=
  match resolve issues with
  | [] => inr onSubmit
  | errs => inl errs
  end.

(** ** Properties *)

Lemma resolve_nil_iff issues : resolve issues = [] <-> Forall (fun fi => snd fi = []) issues.
Proof.
  induction issues as [|[f [|m ms]] rest IH]; simpl.
  - split; [constructor|done].
  - rewrite IH. split; [by constructor|]. by inversion 1.
  - split; [done|]. inversion 1. simpl in *. congruence.
Qed.

Lemma handleSubmit_valid issues onSubmit :
  Forall (fun fi => snd fi = []) issues -> handleSubmit issues onSubmit = inr onSubmit.
Proof. intros H. unfold handleSubmit. by rewrite (proj2 (resolve_nil_iff issues) H). Qed.

Lemma handleSubmit_invalid issues onSubmit :
  resolve issues <> [] -> handleSubmit issues onSubmit = inl (resolve issues).
Proof. unfold handleSubmit. by destruct (resolve issues). Qed.

(** The handler's effects are the only thing a successful submit emits. *)
Lemma handleSubmit_inr issues onSubmit effs :
  handleSubmit issues onSubmit = inr effs -> effs = onSubmit.
Proof. unfold handleSubmit. destruct (resolve issues); congruence. Qed.

(** An unset field reports "Required", whatever messages its checks carry. *)
Lemma z_string_undefined checks : z_string checks None = ["Required"].
Proof. reflexivity. Qed.

Lemma z_string_ok checks s :
  z_string checks (Some s) = [] <-> Forall (fun c => check_passes c s = true) checks.
Proof.
  simpl. induction checks as [|c cs IH]; simpl; [split; [constructor|done]|].
  destruct (check_passes c s) eqn:E; simpl.
  - rewrite IH. split; [by constructor|]. by inversion 1.
  - split; [done|]. inversion 1. congruence.
Qed.

End Zod.
