(* ===== verification/Html.v ===== *)
(** * Html: the browser's constraint validation of a form

    The forms of Login.tsx, Register.tsx, admin/Register.tsx and
    AuthForms.tsx have no [noValidate] attribute, so when one is
    submitted the browser first checks the constraints of its inputs.
    Only when every input satisfies them does it fire the [submit] event
    and run the form's [onSubmit] handler.  Otherwise it reports the
    first invalid input and nothing else happens.  Whether an input
    satisfies its constraints depends on its type:

    - a non-empty [type="email"] input must hold a valid e-mail address
      (the HTML standard's pattern, [html_email_ok]);
    - a non-empty [type="url"] input must hold a valid absolute URL, that
      is, one the URL parser accepts ([WhatwgUrl.parses]);
    - [text], [password] and [tel] inputs have no constraint unless they
      are [required], and an empty value is never checked for its type.

    An input's value is what [input.value] returns, which for an e-mail
    input is already stripped of newlines and surrounding white space. *)

From S2P Require Import Prelude JsString Url.

Local Open Scope string_scope.

Module Html.

(** The valid e-mail address of the HTML standard:
    [/^[a-zA-Z0-9.!#$%&'*+\/=?^_`{|}~-]+@[a-zA-Z0-9](?:[a-zA-Z0-9-]{0,61}[a-zA-Z0-9])?(?:\.[a-zA-Z0-9](?:[a-zA-Z0-9-]{0,61}[a-zA-Z0-9])?)*$/]. *)
Definition html_local_char (c : ascii) : bool := is_alnum c || char_in ".!#$%&'*+/=?^_`{|}~-" c.

Definition html_label_ok (l : string) : bool :=
  match chars l with
  | [] => false
  | c :: _ =>
      is_alnum c && is_alnum (List.last (chars l) c) &&
      forallb (fun a => is_alnum a || Ascii.eqb a "-") (chars l) && (String.length l <=? 63)%nat
  end.

Definition html_email_ok (s : string) : bool :=
  match split_on "@" s with
  | [l; d] => negb (String.eqb l "") && forallb html_local_char (chars l) &&
              forallb html_label_ok (split_on "." d)
  | _ => false
  end.

(** Whether an input of [type] holding [value] satisfies its type's
    constraint. *)
Definition input_valid (type value : string) : bool :=
  String.eqb value "" ||
  (if String.eqb type "email" then html_email_ok value
   else if String.eqb type "url" then WhatwgUrl.parses value
   else true).

(** A submit attempt: blocked by the browser at the first invalid input
    (by its id), or submitted, with what the handler then does. *)
Inductive Outcome (A : Type) : Type :=
  | Blocked (id : string)
  | Submitted (r : A).
Arguments Blocked {A} id.
Arguments Submitted {A} r.

(** Submitting a form whose inputs are [(id, type, value)] in tree order
    and whose [onSubmit] handler does [r]. *)
Definition form_submit {A} (inputs : list (string * string * string)) (r : A) : Outcome A :=
  match List.find (fun '(_, t, v) => negb (input_valid t v)) inputs with
  | Some (i, _, _) => Blocked i
  | None => Submitted r
  end.

End Html.

(** ** Properties *)

Import Html.

(** The handler runs exactly when every input is valid. *)
Lemma form_submit_Submitted {A} inputs (r r' : A) :
  form_submit inputs r = Submitted r' <->
  Forall (fun '(_, t, v) => input_valid t v = true) inputs /\ r = r'.
Proof.
  unfold form_submit. induction inputs as [|x xs IH]; cbn.
  - split; [intros [= ->]; split; [constructor|done]|by intros [_ ->]].
  - destruct x as [[i t] v]. destruct (input_valid t v) eqn:E; cbn.
    + rewrite IH, Forall_cons_iff. split; [intros [? ->]; by split|by intros [[_ ?] ->]].
    + split; [done|]. intros [Hf _]. apply Forall_cons_iff in Hf as [Hf _]. congruence.
Qed.
