(* ===== verification/Jobs.v ===== *)
(** * Jobs: the job board page (src/src/pages/Jobs.tsx)

    State: the page's only [useState] is [searchQuery].  The job records
    and their [isBookmarked] flags are the constant [jobsData]; the
    bookmark button calls [onBookmark(job.id, !job.isBookmarked)], whose
    handler only shows a toast.  [step] is the page's reaction to each user
    event; the tabs are functions of the state. *)

From S2P Require Import Prelude JsString Fixture Search.

Local Open Scope string_scope.

Module JobsPage.

Record Job : Type := mkJob {
  id : nat;
  title : string;
  company : string;
  location : string;
  type : string;
  category : string;
  salary : string;
  posted : string;
  description : string;
  requirements : list string;
  logo : string;
  isBookmarked : bool;
}.

#[export] Instance job_has_id : HasId Job := id.

Definition jobsData : list Job := [
  mkJob 1 "Software Engineer" "Google" "Mountain View, CA" "Full-time" "Engineering"
    "$120,000 - $150,000" "2 days ago"
    "Google is looking for Software Engineers to build the next generation of web applications. You'll work on challenging projects and collaborate with talented engineers."
    ["BS in Computer Science or related field"; "3+ years of experience in web development";
     "Strong JavaScript and React skills"; "Experience with backend technologies"]
    "/placeholder.svg" false;
  mkJob 2 "Product Manager" "Meta" "New York, NY" "Full-time" "Product"
    "$130,000 - $160,000" "1 week ago"
    "Join Meta as a Product Manager to drive the development of innovative features. You'll work with cross-functional teams to deliver exceptional user experiences."
    ["BS/MS in Computer Science, Business, or related field"; "3+ years of product management experience";
     "Strong analytical and communication skills"; "Experience with agile methodologies"]
    "/placeholder.svg" true;
  mkJob 3 "Data Scientist" "Netflix" "Los Gatos, CA" "Full-time" "Data Science"
    "$125,000 - $155,000" "3 days ago"
    "Netflix is seeking a Data Scientist to help optimize our recommendation systems. You'll analyze large datasets and develop models to enhance user experience."
    ["MS/PhD in Computer Science, Statistics, or related field"; "2+ years of experience in data science";
     "Strong programming skills in Python, R, or similar"; "Experience with machine learning algorithms"]
    "/placeholder.svg" false;
  mkJob 4 "UX Designer" "Apple" "Cupertino, CA" "Full-time" "Design"
    "$110,000 - $140,000" "5 days ago"
    "Apple is looking for a UX Designer to create intuitive and elegant user experiences. You'll work on products used by millions of people worldwide."
    ["Bachelor's degree in Design, HCI, or related field"; "3+ years of UX design experience";
     "Strong portfolio showcasing user-centered design"; "Experience with design tools like Figma and Sketch"]
    "/placeholder.svg" false;
  mkJob 5 "Marketing Intern" "Spotify" "Remote" "Internship" "Marketing"
    "$25 - $30 per hour" "1 day ago"
    "Spotify is seeking a Marketing Intern to support our campaigns. You'll gain hands-on experience in digital marketing and work with a dynamic team."
    ["Currently pursuing a degree in Marketing or related field"; "Strong communication and organizational skills";
     "Familiarity with social media platforms"; "Interest in music and entertainment industry"]
    "/placeholder.svg" false
].

(** The placeholder [nth] needs to index the fixture. *)
Definition noJob : Job := mkJob 0 "" "" "" "" "" "" "" "" [] "" false.

(** ** Handlers *)

Definition handleApply (jobId : nat) : list effect :=
  find_then jobsData jobId (fun job =>
    [Toast "Application Started"
       ("You're applying for " ++ title job ++ " at " ++ company job)]).

Definition handleBookmark (jobId : nat) (bookmarked : bool) : list effect :=
  find_then jobsData jobId (fun job =>
    [Toast (if bookmarked then "Job Bookmarked" else "Bookmark Removed")
       (if bookmarked
        then title job ++ " at " ++ company job ++ " has been saved to your bookmarks."
        else title job ++ " has been removed from your bookmarks.")]).

(** ** Derived lists and tabs *)

Definition job_matches (searchQuery : string) (job : Job) : bool :=
  includes (toLowerCase (title job)) (toLowerCase searchQuery) ||
  includes (toLowerCase (company job)) (toLowerCase searchQuery) ||
  includes (toLowerCase (description job)) (toLowerCase searchQuery) ||
  includes (toLowerCase (location job)) (toLowerCase searchQuery).

Definition filteredJobs (searchQuery : string) : list Job :=
  (jobsData ⟪filter⟫ job_matches searchQuery)%js.

Definition bookmarkedJobs (searchQuery : string) : list Job :=
  (filteredJobs searchQuery ⟪filter⟫ isBookmarked)%js.

Record JobsState : Type := { searchQuery : string }.

Definition initial : JobsState := {| searchQuery := "" |}.

Inductive JobsTab : Type := AllJobs | Bookmarked | Applied.

Definition render (st : JobsState) (tab : JobsTab) : tab_view :=
  match tab with
  | AllJobs => render_tab (filteredJobs (searchQuery st)) "No Jobs Found"
  | Bookmarked => render_tab (bookmarkedJobs (searchQuery st)) "No Bookmarked Jobs"
  | Applied => EmptyState "Applied Jobs"
  end.

(** ** User events *)

Inductive JobsEvent : Type :=
  | TypeQuery (value : string)           (* Input onChange: setSearchQuery *)
  | ClickApply (job : Job)               (* "Apply Now" on a card *)
  | ClickBookmark (job : Job).           (* the bookmark icon on a card *)

Definition step (st : JobsState) (ev : JobsEvent) : JobsState * list effect :=
  match ev with
  | TypeQuery v => ({| searchQuery := v |}, [])
  | ClickApply job => (st, handleApply (id job))
  | ClickBookmark job => (st, handleBookmark (id job) (negb (isBookmarked job)))
  end.

Definition run : JobsState -> list JobsEvent -> JobsState * list effect :=
  run_steps step.

#[export] Instance job_searchable : Searchable Job :=
  fun job => [title job; company job; description job; location job].

(** The header and the search bar (lines 239-268): "Post a Job" has no
    [onClick]. *)
Definition chrome (st : JobsState) : PageChrome := {|
  chrome_title := "Job Board";
  chrome_subtitle := "Discover career opportunities posted by alumni and companies";
  chrome_action := Some (mkButton "Post a Job" false);
  chrome_placeholder := "Search jobs, companies, or locations...";
  chrome_query := searchQuery st;
  chrome_filters := filters_button |}.

#[export] Instance listing : ListingPage JobsState JobsTab JobsEvent :=
  {| page_query := searchQuery; page_type := TypeQuery; page_step := step;
     page_chrome := chrome; page_render := render |}.

(** ** Properties *)

Lemma jobsData_ids_unique : ids_unique jobsData = true.
Proof. vm_compute. reflexivity. Qed.

Lemma job_matches_search_any q job : job_matches q job = search_any q (search_fields job).
Proof. unfold job_matches, search_any. simpl. by rewrite orb_false_r, !orb_assoc. Qed.

(** The Jobs page's hand-written predicate (title, company,
    description, location; case-insensitive substring) is the generic
    search over that whitelist, so every theorem of [Search] applies. *)
#[export] Instance filteredJobs_Proper : Proper (query_equiv ==> eq) filteredJobs.
Proof. apply filter_search_Proper, job_matches_search_any. Qed.

Lemma jobs_listing_controlled : search_controlled (S:=JobsState).
Proof.
  apply search_controlled_intro; [done..|]. intros [q] [q'] tab Hq. cbn in Hq.
  destruct tab; cbn [page_render listing render searchQuery]; unfold bookmarkedJobs; by rewrite ?Hq.
Qed.

(** The empty query shows all five jobs in fixture order, and the query
    "Google" keeps exactly the one job whose company is Google (spec 8). *)
Theorem filteredJobs_fixture_queries :
  filteredJobs "" = jobsData /\
  map company (filteredJobs "Google") = ["Google"] /\ map id (filteredJobs "Google") = [1].
Proof. vm_compute. repeat split; reflexivity. Qed.

(** "Apply Now" on any listed job shows the "Application Started" toast
    naming that job's title and company, and an unknown id shows nothing. *)
Theorem handleApply_spec job k :
  In job jobsData -> ~ In k (map id jobsData) ->
  handleApply (id job) =
    [Toast "Application Started" ("You're applying for " ++ title job ++ " at " ++ company job)]
  /\ handleApply k = [].
Proof.
  intros Hj Hk. unfold handleApply. split.
  - exact (find_then_listed jobsData job _ jobsData_ids_unique Hj).
  - by apply find_then_unknown.
Qed.

Lemma handleApply_spec_witness :
  handleApply 1 = [Toast "Application Started" "You're applying for Software Engineer at Google"] /\
  handleApply 9 = [].
Proof.
  destruct (handleApply_spec (nth 0 jobsData noJob) 9 (or_introl eq_refl)
              ltac:(vm_compute; intuition discriminate)) as [H1 H2].
  split; [exact H1|exact H2].
Defined.

End JobsPage.
