(* ===== verification/Connect.v ===== *)
(** * Connect: the people directory (src/src/pages/Connect.tsx)

    State: [searchQuery] only.  The records [peopleData] carry a nullable
    [company] (students have [company: null]), a [status] string
    ("alumni" or "student") and an [isConnected] flag from the seed data.
    The search tests name, role and, when the company is truthy, company;
    the Alumni and Students tabs filter the search result by status; the
    Connect button is rendered only for people not yet connected (the
    "Connected" button is [disabled]). *)

From S2P Require Import Prelude JsString Fixture Search.

Local Open Scope string_scope.

Module ConnectPage.

Record Person : Type := mkPerson {
  id : nat;
  name : string;
  role : string;
  company : option string;   (* string | null *)
  location : string;
  education : string;
  graduationYear : nat;
  avatar : string;
  status : string;
  connections : nat;
  isConnected : bool;
}.

#[export] Instance person_has_id : HasId Person := id.

Definition peopleData : list Person := [
  mkPerson 1 "Emma Thompson" "Software Engineer" (Some "Google") "San Francisco, CA"
    "Stanford University" 2019 "/placeholder.svg" "alumni" 145 false;
  mkPerson 2 "David Chen" "Product Manager" (Some "Meta") "New York, NY"
    "Stanford University" 2020 "/placeholder.svg" "alumni" 98 true;
  mkPerson 3 "Miguel Rodriguez" "UX Designer" (Some "Apple") "Cupertino, CA"
    "Stanford University" 2018 "/placeholder.svg" "alumni" 210 false;
  mkPerson 4 "Sarah Johnson" "Data Scientist" (Some "Amazon") "Seattle, WA"
    "Stanford University" 2017 "/placeholder.svg" "alumni" 175 true;
  mkPerson 5 "Alex Kim" "Computer Science" None "Palo Alto, CA"
    "Stanford University" 2023 "/placeholder.svg" "student" 42 false;
  mkPerson 6 "Priya Patel" "Business Administration" None "Stanford, CA"
    "Stanford University" 2024 "/placeholder.svg" "student" 37 false
].

Definition noPerson : Person := mkPerson 0 "" "" None "" "" 0 "" "" 0 false.

(** ** Handlers *)

Definition handleConnect (personId : nat) : list effect :=
  find_then peopleData personId (fun person =>
    [Toast "Connection Request Sent"
       ("Your connection request to " ++ name person ++ " has been sent.")]).

Definition handleMessage (personId : nat) : list effect :=
  find_then peopleData personId (fun _ =>
    [Toast "Message Feature Coming Soon" "Messaging functionality will be available soon!"]).

(** ** Search and tabs *)

(** [person.company && person.company.toLowerCase().includes(q)]: a null
    or empty company is falsy and short-circuits to a falsy value. *)
Definition company_matches (searchQuery : string) (c : option string) : bool :=
  match c with
  | Some s => negb (String.eqb s "") && includes (toLowerCase s) (toLowerCase searchQuery)
  | None => false
  end.

Definition person_matches (searchQuery : string) (person : Person) : bool :=
  includes (toLowerCase (name person)) (toLowerCase searchQuery) ||
  includes (toLowerCase (role person)) (toLowerCase searchQuery) ||
  company_matches searchQuery (company person).

Definition filteredPeople (searchQuery : string) : list Person :=
  (peopleData ⟪filter⟫ person_matches searchQuery)%js.

Definition alumni (searchQuery : string) : list Person :=
  (filteredPeople searchQuery ⟪filter⟫ (fun person => String.eqb (status person) "alumni"))%js.

Definition students (searchQuery : string) : list Person :=
  (filteredPeople searchQuery ⟪filter⟫ (fun person => String.eqb (status person) "student"))%js.

Record ConnectState : Type := { searchQuery : string }.

Inductive ConnectTab : Type := All | Alumni | Students | MyConnections.

Definition render (st : ConnectState) (tab : ConnectTab) : tab_view :=
  match tab with
  | All => render_tab (filteredPeople (searchQuery st)) "No Results Found"
  | Alumni => render_tab (alumni (searchQuery st)) "No Alumni Found"
  | Students => render_tab (students (searchQuery st)) "No Students Found"
  | MyConnections => EmptyState "My Connections"
  end.

(** ** User events *)

Inductive ConnectEvent : Type :=
  | TypeQuery (value : string)
  | ClickMessage (person : Person)
  | ClickConnect (person : Person).

(** The Connect button exists only when [!person.isConnected]; otherwise
    the card shows a disabled "Connected" button, and a click does
    nothing. *)
Definition step (st : ConnectState) (ev : ConnectEvent) : ConnectState * list effect :=
  match ev with
  | TypeQuery v => ({| searchQuery := v |}, [])
  | ClickMessage person => (st, handleMessage (id person))
  | ClickConnect person =>
      if isConnected person then (st, []) else (st, handleConnect (id person))
  end.

Definition run : ConnectState -> list ConnectEvent -> ConnectState * list effect :=
  run_steps step.

(** The searched fields: a truthy company is searched, a null or empty
    one is not. *)
#[export] Instance person_searchable : Searchable Person :=
  fun person =>
    ([name person; role person] ++
     match company person with
     | Some c => if String.eqb c "" then [] else [c]
     | None => []
     end)%list.

(** The header (no button) and the search bar. *)
Definition chrome (st : ConnectState) : PageChrome := {|
  chrome_title := "Connect";
  chrome_subtitle := "Build your network with alumni and students";
  chrome_action := None;
  chrome_placeholder := "Search by name, role, or company...";
  chrome_query := searchQuery st;
  chrome_filters := filters_button |}.

#[export] Instance listing : ListingPage ConnectState ConnectTab ConnectEvent :=
  {| page_query := searchQuery; page_type := TypeQuery; page_step := step;
     page_chrome := chrome; page_render := render |}.

(** ** Properties *)

Lemma peopleData_ids_unique : ids_unique peopleData = true.
Proof. vm_compute. reflexivity. Qed.

Lemma person_matches_search_any q person :
  person_matches q person = search_any q (search_fields person).
Proof.
  unfold person_matches, search_any, search_fields, person_searchable, company_matches.
  destruct (company person) as [c|]; simpl.
  - destruct (String.eqb c "") eqn:Ec; simpl.
    + by rewrite !orb_false_r.
    + by rewrite orb_false_r, !orb_assoc.
  - by rewrite !orb_false_r.
Qed.

#[export] Instance filteredPeople_Proper : Proper (query_equiv ==> eq) filteredPeople.
Proof. apply filter_search_Proper, person_matches_search_any. Qed.

Lemma connect_listing_controlled : search_controlled (S:=ConnectState).
Proof.
  apply search_controlled_intro; [done..|]. intros [q] [q'] tab Hq. cbn in Hq.
  destruct tab; cbn [page_render listing render searchQuery]; unfold alumni, students; by rewrite ?Hq.
Qed.

(** The Connect page's predicate (name, role, and a truthy company)
    is the generic case-insensitive search over those fields. *)
Theorem filteredPeople_search q : filteredPeople q = search q peopleData.
Proof.
  unfold filteredPeople, search. apply filter_ext_in.
  intros person _. apply person_matches_search_any.
Qed.

Lemma alumni_students_partitions q :
  (alumni q ++ students q)%list =
  List.concat (partitions status ["alumni"; "student"] (filteredPeople q)).
Proof.
  unfold alumni, students, partitions, partition_by. simpl. rewrite app_nil_r.
  f_equal; apply filter_ext_in; intros p _; apply string_eqb_decide.
Qed.

(** For every query, the Alumni and Students tabs together list each
    person of the All tab exactly once (spec 4.2), because every fixture
    status is "alumni" or "student". *)
Theorem connect_tabs_cover q :
  (alumni q ++ students q)%list ≡ₚ filteredPeople q.
Proof.
  rewrite alumni_students_partitions. apply partitions_cover.
  - apply (bool_decide_unpack _). vm_compute. reflexivity.
  - intros p Hp. apply filter_In in Hp as [Hp _].
    repeat (destruct Hp as [<-|Hp]; [by (left + (right; left))|]). done.
Qed.

(** C6: "Connect" on a person not yet connected sends exactly one
    "Connection Request Sent" toast naming them and leaves the page
    state unchanged; on a connected person the disabled button does
    nothing. *)
Theorem click_connect_spec st person :
  In person peopleData ->
  step st (ClickConnect person) =
    (st, if isConnected person then []
         else [Toast "Connection Request Sent"
                 ("Your connection request to " ++ name person ++ " has been sent.")]).
Proof.
  intros Hp. unfold step. destruct (isConnected person); [done|].
  unfold handleConnect. f_equal. exact (find_then_listed peopleData person _ peopleData_ids_unique Hp).
Qed.

Lemma click_connect_spec_witness :
  step {| searchQuery := "" |} (ClickConnect (nth 0 peopleData noPerson)) =
    ({| searchQuery := "" |},
     [Toast "Connection Request Sent" "Your connection request to Emma Thompson has been sent."]).
Proof. exact (click_connect_spec {| searchQuery := "" |} _ (or_introl eq_refl)). Defined.

End ConnectPage.
