(* ===== verification/Events.v ===== *)
(** * Events: the events page (src/src/pages/Events.tsx)

    State: [searchQuery].  The fixture [eventsData] holds five events dated
    with [new Date(2023, m, d)] (local time, see [JsDate]).  At each render
    the page reads the clock once ([const now = new Date()]) and splits the
    filtered events into Upcoming ([date >= now]) and Past ([date < now]);
    each [EventCard] then reads the clock again ([event.date < new Date()])
    to decide whether its RSVP button is disabled.  The model takes the
    zone offset [tz] as a section variable and the two clock readings as
    arguments: [tPage] for the page and [tCard] for the card, with
    [tPage <= tCard] since the cards render after the page. *)

From S2P Require Import Prelude JsString JsDate Fixture Search.

Local Open Scope string_scope.

Module EventsPage.

Record Event : Type := mkEvent {
  id : nat;
  title : string;
  description : string;
  date : Z;            (* a Date, by its time value *)
  time : string;
  location : string;
  type : string;
  category : string;
  attendees : nat;
  image : string;
}.

#[export] Instance event_has_id : HasId Event := id.

#[export] Instance event_searchable : Searchable Event :=
  fun e => [title e; description e].

Section WithZone.
Variable tz : Z.

Definition eventsData : list Event := [
  mkEvent 1 "Annual Alumni Gala"
    "Join us for an evening of networking, dinner, and inspiring talks from distinguished alumni."
    (new_Date tz 2023 5 20) "6:00 PM - 10:00 PM" "Grand Ballroom, University Center"
    "in-person" "networking" 155 "/placeholder.svg";
  mkEvent 2 "Career Development Workshop"
    "Learn how to build an effective resume and prepare for job interviews from industry experts."
    (new_Date tz 2023 5 25) "2:00 PM - 4:00 PM" "Virtual - Zoom"
    "virtual" "workshop" 87 "/placeholder.svg";
  mkEvent 3 "Tech Networking Meetup"
    "Network with alumni and students in tech fields and discover new career opportunities."
    (new_Date tz 2023 6 5) "5:30 PM - 7:30 PM" "Innovation Hub, Engineering Building"
    "in-person" "networking" 62 "/placeholder.svg";
  mkEvent 4 "Entrepreneurship Seminar"
    "Hear from successful alumni entrepreneurs about their journey from classroom to startup success."
    (new_Date tz 2023 6 12) "3:00 PM - 5:00 PM" "Business School Auditorium"
    "in-person" "seminar" 94 "/placeholder.svg";
  mkEvent 5 "Industry Panel: Future of AI"
    "Join a panel discussion with industry leaders discussing the future of AI and its impact on various fields."
    (new_Date tz 2023 6 18) "1:00 PM - 3:00 PM" "Virtual - Zoom"
    "virtual" "panel" 118 "/placeholder.svg"
].

Definition noEvent : Event := mkEvent 0 "" "" 0 "" "" "" "" 0 "".

(** ** Handlers *)

Definition handleRSVP (eventId : nat) : list effect :=
  find_then eventsData eventId (fun e =>
    [Toast "RSVP Confirmed!" ("You've successfully RSVP'd to " ++ title e)]).

Definition handleCreateEvent : list effect :=
  [Toast "Coming Soon" "Event creation functionality will be available soon!"].

(** ** Search, tabs and cards *)

Definition event_matches (searchQuery : string) (e : Event) : bool :=
  includes (toLowerCase (title e)) (toLowerCase searchQuery) ||
  includes (toLowerCase (description e)) (toLowerCase searchQuery).

Definition filteredEvents (searchQuery : string) : list Event :=
  (eventsData ⟪filter⟫ event_matches searchQuery)%js.

Definition upcomingEvents (now : Z) (searchQuery : string) : list Event :=
  (filteredEvents searchQuery ⟪filter⟫ (fun e => now <=? date e)%Z)%js.

Definition pastEvents (now : Z) (searchQuery : string) : list Event :=
  (filteredEvents searchQuery ⟪filter⟫ (fun e => date e <? now)%Z)%js.

(** [EventCard]: [const isPast = event.date < new Date()]. *)
Definition isPast (tCard : Z) (e : Event) : bool := (date e <? tCard)%Z.

(** [EventCard]'s date badge: [format(event.date, 'MMM d')]. *)
Definition card_label (e : Event) : string := format_MMM_d tz (date e).

Record EventsState : Type := { searchQuery : string }.

Inductive EventsTab : Type := Upcoming | Past | MyEvents.

Definition render (tPage : Z) (st : EventsState) (tab : EventsTab) : tab_view :=
  match tab with
  | Upcoming => render_tab (upcomingEvents tPage (searchQuery st)) "No Upcoming Events"
  | Past => render_tab (pastEvents tPage (searchQuery st)) "No Past Events"
  | MyEvents => EmptyState "No Events Yet"
  end.

(** ** User events *)

Inductive EventsEvent : Type :=
  | TypeQuery (value : string)
  | ClickCreateEvent
  | ClickRSVP (e : Event) (tCard : Z).   (* the card rendered at clock tCard *)

(** The RSVP button is [disabled={isPast}]: a click on a past event's card
    does nothing. *)
Definition step (st : EventsState) (ev : EventsEvent) : EventsState * list effect :=
  match ev with
  | TypeQuery v => ({| searchQuery := v |}, [])
  | ClickCreateEvent => (st, handleCreateEvent)
  | ClickRSVP e tCard => if isPast tCard e then (st, []) else (st, handleRSVP (id e))
  end.

(** The header and the search bar: "Create Event" calls
    [handleCreateEvent]. *)
Definition chrome (st : EventsState) : PageChrome := {|
  chrome_title := "Events";
  chrome_subtitle := "Discover and join events to connect with alumni and students";
  chrome_action := Some (mkButton "Create Event" true);
  chrome_placeholder := "Search events...";
  chrome_query := searchQuery st;
  chrome_filters := filters_button |}.

(** The page as its search bar sees it, rendered at the page clock. *)
#[export] Instance listing (tPage : Z) : ListingPage EventsState EventsTab EventsEvent :=
  {| page_query := searchQuery; page_type := TypeQuery; page_step := step;
     page_chrome := chrome; page_render := render tPage |}.

(** ** Properties *)

Lemma event_matches_search_any q e : event_matches q e = search_any q (search_fields e).
Proof. unfold event_matches, search_any. simpl. by rewrite orb_false_r. Qed.

#[export] Instance filteredEvents_Proper : Proper (query_equiv ==> eq) filteredEvents.
Proof. apply filter_search_Proper, event_matches_search_any. Qed.

#[export] Instance upcomingEvents_Proper now : Proper (query_equiv ==> eq) (upcomingEvents now).
Proof. intros q1 q2 Hq. unfold upcomingEvents. by rewrite Hq. Qed.

Lemma events_listing_controlled tPage : @search_controlled _ _ _ (listing tPage).
Proof.
  apply search_controlled_intro; [done..|]. intros [q] [q'] tab Hq. cbn in Hq.
  destruct tab; cbn [page_render listing render searchQuery]; unfold pastEvents; by rewrite ?Hq.
Qed.

Lemma filteredEvents_search q : filteredEvents q = search q eventsData.
Proof. unfold filteredEvents, search. apply filter_ext_in. intros e _. apply event_matches_search_any. Qed.

(** C4: at every clock reading [now] and for every query, Upcoming and
    Past together hold each filtered event exactly once and share none
    (spec 4.2 with the comparison [date < now] as discriminant). *)
Theorem events_tabs_cover now q :
  (upcomingEvents now q ++ pastEvents now q)%list ≡ₚ filteredEvents q /\
  forall e, In e (upcomingEvents now q) -> ~ In e (pastEvents now q).
Proof.
  split.
  - unfold upcomingEvents, pastEvents.
    rewrite (filter_ext_in (fun e => date e <? now)%Z (fun e => negb (now <=? date e))%Z)
      by (intros e _; apply Z.ltb_antisym).
    apply filter_split_perm.
  - intros e Hu Hp. apply filter_In in Hu as [_ Hu], Hp as [_ Hp]. bool_lia.
Qed.

Lemma eventsData_before_last :
  Forall (fun e => (date e <= new_Date tz 2023 6 18)%Z) eventsData.
Proof.
  unfold new_Date, MakeDate.
  repeat constructor; simpl; apply Z.sub_le_mono_r; vm_compute; discriminate.
Qed.

(** Once the clock is past the last fixture event (18 July 2023, local
    time), the Upcoming tab is the "No Upcoming Events" empty state for
    every query, and every matching event is listed under Past. *)
Theorem events_all_past now q :
  (new_Date tz 2023 6 18 < now)%Z ->
  render now {| searchQuery := q |} Upcoming = EmptyState "No Upcoming Events" /\
  pastEvents now q = filteredEvents q.
Proof.
  intros Hnow. pose proof eventsData_before_last as Hall.
  assert (Hf : forall e, In e (filteredEvents q) -> (date e < now)%Z).
  { intros e He. apply filter_In in He as [He _].
    rewrite Forall_forall in Hall. specialize (Hall e He). lia. }
  split.
  - simpl. apply render_tab_empty. apply filter_none. intros e He.
    specialize (Hf e He). apply Z.leb_gt. lia.
  - apply filter_all. intros e He. specialize (Hf e He). by apply Z.ltb_lt.
Qed.

(** C21: the card reads the clock after the page.  An event the page lists
    as upcoming at [tPage] shows a disabled "Event Ended" button exactly
    when it starts inside the window [tPage <= date < tCard]; when both
    reads return the same instant, no upcoming card is disabled. *)
Theorem upcoming_card_disabled tPage tCard q e :
  (tPage <= tCard)%Z -> In e (upcomingEvents tPage q) ->
  (isPast tCard e = true <-> (tPage <= date e < tCard)%Z) /\
  (tCard = tPage -> isPast tCard e = false).
Proof.
  intros Hle He. apply filter_In in He as [_ He%Z.leb_le]. unfold isPast. split.
  - rewrite Z.ltb_lt. lia.
  - intros ->. apply Z.ltb_ge. lia.
Qed.

(** The Events cards print the fixture's calendar days in every time
    zone: the dates are built in local time and printed in local time, so
    the labels are "Jun 20", "Jun 25", "Jul 5", "Jul 12" and "Jul 18"
    whatever the zone. *)
Theorem events_labels_all_zones :
  map card_label eventsData = ["Jun 20"; "Jun 25"; "Jul 5"; "Jul 12"; "Jul 18"].
Proof.
  unfold card_label, format_MMM_d. cbn [map eventsData date].
  rewrite !local_ymd_new_Date. vm_compute. reflexivity.
Qed.

End WithZone.

(** The page in UTC with the clock on 9 November 2026. *)
Lemma events_all_past_witness :
  (new_Date 0 2023 6 18 < new_Date 0 2026 10 9)%Z /\
  render 0 (new_Date 0 2026 10 9) {| searchQuery := "" |} Upcoming = EmptyState "No Upcoming Events".
Proof.
  assert (H : (new_Date 0 2023 6 18 < new_Date 0 2026 10 9)%Z) by (vm_compute; reflexivity).
  split; [exact H|]. exact (proj1 (events_all_past 0 _ "" H)).
Defined.

(** The page renders on 21 June 2023 (UTC), the card one week later: the
    Career Development Workshop of 25 June is listed as upcoming and its
    card is disabled. *)
Lemma upcoming_card_disabled_witness :
  In (nth 1 (eventsData 0) noEvent) (upcomingEvents 0 (new_Date 0 2023 5 21) "") /\
  isPast (new_Date 0 2023 5 28) (nth 1 (eventsData 0) noEvent) = true.
Proof.
  assert (Hin : In (nth 1 (eventsData 0) noEvent) (upcomingEvents 0 (new_Date 0 2023 5 21) "")).
  { vm_compute. left. reflexivity. }
  split; [exact Hin|].
  apply (proj2 (proj1 (upcoming_card_disabled 0 (new_Date 0 2023 5 21) (new_Date 0 2023 5 28) ""
                         _ ltac:(vm_compute; discriminate) Hin))).
  vm_compute. split; [discriminate|reflexivity].
Defined.

End EventsPage.
