(* ===== verification/Resources.v ===== *)
(** * Resources: the resource library (src/src/pages/Resources.tsx)

    State: [searchQuery].  Each card has a View button, a bookmark icon
    and a primary button that is "Download" ([onDownload]) when the
    resource is [downloadable] and "Access Now" ([onView]) otherwise.  The
    search covers title, description, category and author; the Bookmarked
    tab keeps the results whose fixture flag [isBookmarked] is set; the
    Career and Tech tabs are fixed placeholders. *)

From S2P Require Import Prelude JsString Fixture Search.

Local Open Scope string_scope.

Module ResourcesPage.

Record Resource : Type := mkResource {
  id : nat;
  title : string;
  description : string;
  type : string;
  category : string;
  author : string;
  publishedDate : string;
  readTime : string;
  views : nat;
  likes : nat;
  image : string;
  isBookmarked : bool;
  downloadable : bool;
}.

#[export] Instance resource_has_id : HasId Resource := id.

Definition resourcesData : list Resource := [
  mkResource 1 "Ultimate Resume Guide for New Graduates"
    "Learn how to create a standout resume that will get you noticed by recruiters and hiring managers."
    "Guide" "Career Development" "Career Services Team" "May 15, 2023" "10 min read"
    1245 182 "/placeholder.svg" false true;
  mkResource 2 "Mastering the Technical Interview"
    "Prepare for technical interviews with this comprehensive guide covering common questions and best practices."
    "E-Book" "Career Development" "Engineering Alumni Association" "June 3, 2023" "25 min read"
    876 134 "/placeholder.svg" true true;
  mkResource 3 "Networking Strategies for Introverts"
    "Effective networking approaches for introverts to build meaningful professional relationships."
    "Article" "Networking" "Dr. Sarah Chen" "April 22, 2023" "8 min read"
    932 156 "/placeholder.svg" false false;
  mkResource 4 "Entrepreneurship 101: From Idea to Launch"
    "A step-by-step guide to starting your own venture, from ideation to product launch."
    "Course" "Entrepreneurship" "Business School" "March 10, 2023" "5 hours total"
    543 98 "/placeholder.svg" false false;
  mkResource 5 "AI and Machine Learning: Career Paths"
    "Explore different career paths in the field of artificial intelligence and machine learning."
    "Webinar Recording" "Tech Careers" "Dr. James Wilson" "May 28, 2023" "45 min watch"
    721 112 "/placeholder.svg" false true
].

Definition noResource : Resource := mkResource 0 "" "" "" "" "" "" "" 0 0 "" false false.

(** ** Handlers *)

Definition handleBookmark (resourceId : nat) (bookmarked : bool) : list effect :=
  find_then resourcesData resourceId (fun r =>
    [Toast (if bookmarked then "Resource Bookmarked" else "Bookmark Removed")
       (if bookmarked then title r ++ " has been saved to your bookmarks."
        else title r ++ " has been removed from your bookmarks.")]).

Definition handleDownload (resourceId : nat) : list effect :=
  find_then resourcesData resourceId (fun r =>
    [Toast "Download Started" (title r ++ " is being downloaded.")]).

Definition handleView (resourceId : nat) : list effect :=
  find_then resourcesData resourceId (fun r =>
    [Toast "Opening Resource" ("Opening " ++ title r)]).

(** ** Search and tabs *)

Definition resource_matches (searchQuery : string) (r : Resource) : bool :=
  includes (toLowerCase (title r)) (toLowerCase searchQuery) ||
  includes (toLowerCase (description r)) (toLowerCase searchQuery) ||
  includes (toLowerCase (category r)) (toLowerCase searchQuery) ||
  includes (toLowerCase (author r)) (toLowerCase searchQuery).

Definition filteredResources (searchQuery : string) : list Resource :=
  (resourcesData ⟪filter⟫ resource_matches searchQuery)%js.

Definition bookmarkedResources (searchQuery : string) : list Resource :=
  (filteredResources searchQuery ⟪filter⟫ isBookmarked)%js.

Record ResourcesState : Type := { searchQuery : string }.

Inductive ResourcesTab : Type := AllResources | Career | Tech | Bookmarked.

Definition render (st : ResourcesState) (tab : ResourcesTab) : tab_view :=
  match tab with
  | AllResources => render_tab (filteredResources (searchQuery st)) "No Resources Found"
  | Career => EmptyState "Career Development"
  | Tech => EmptyState "Tech Skills"
  | Bookmarked => render_tab (bookmarkedResources (searchQuery st)) "No Bookmarked Resources"
  end.

(** ** User events *)

Inductive ResourcesEvent : Type :=
  | TypeQuery (value : string)
  | ClickView (r : Resource)
  | ClickBookmark (r : Resource)
  | ClickPrimary (r : Resource).   (* "Download" or "Access Now" *)

Definition step (st : ResourcesState) (ev : ResourcesEvent) : ResourcesState * list effect :=
  match ev with
  | TypeQuery v => ({| searchQuery := v |}, [])
  | ClickView r => (st, handleView (id r))
  | ClickBookmark r => (st, handleBookmark (id r) (negb (isBookmarked r)))
  | ClickPrimary r =>
      if downloadable r then (st, handleDownload (id r)) else (st, handleView (id r))
  end.

#[export] Instance resource_searchable : Searchable Resource :=
  fun r => [title r; description r; category r; author r].

(** The header and the search bar: "Submit Resource" has no [onClick]. *)
Definition chrome (st : ResourcesState) : PageChrome := {|
  chrome_title := "Resources";
  chrome_subtitle := "Access valuable resources to support your career journey";
  chrome_action := Some (mkButton "Submit Resource" false);
  chrome_placeholder := "Search resources...";
  chrome_query := searchQuery st;
  chrome_filters := filters_button |}.

#[export] Instance listing : ListingPage ResourcesState ResourcesTab ResourcesEvent :=
  {| page_query := searchQuery; page_type := TypeQuery; page_step := step;
     page_chrome := chrome; page_render := render |}.

(** ** Properties *)

Lemma resourcesData_ids_unique : ids_unique resourcesData = true.
Proof. vm_compute. reflexivity. Qed.

Lemma resource_matches_search_any q r : resource_matches q r = search_any q (search_fields r).
Proof. unfold resource_matches, search_any. simpl. by rewrite orb_false_r, !orb_assoc. Qed.

Lemma filteredResources_search q : filteredResources q = search q resourcesData.
Proof. unfold filteredResources, search. apply filter_ext_in. intros r _. apply resource_matches_search_any. Qed.

#[export] Instance filteredResources_Proper : Proper (query_equiv ==> eq) filteredResources.
Proof. apply filter_search_Proper, resource_matches_search_any. Qed.

#[export] Instance bookmarkedResources_Proper : Proper (query_equiv ==> eq) bookmarkedResources.
Proof. intros q1 q2 Hq. unfold bookmarkedResources. by rewrite Hq. Qed.

Lemma resources_listing_controlled : search_controlled (S:=ResourcesState).
Proof.
  apply search_controlled_intro; [done..|]. intros [q] [q'] tab Hq. cbn in Hq.
  destruct tab; cbn [page_render listing render searchQuery]; unfold bookmarkedResources; by rewrite ?Hq.
Qed.

(** C7: The card's primary button downloads a downloadable resource
    ("Download Started") and opens any other one ("Opening Resource"),
    naming the resource, without changing the page state. *)
Theorem click_primary_spec st r :
  In r resourcesData ->
  step st (ClickPrimary r) =
    (st, if downloadable r then [Toast "Download Started" (title r ++ " is being downloaded.")]
         else [Toast "Opening Resource" ("Opening " ++ title r)]).
Proof.
  intros Hr. unfold step. pose proof resourcesData_ids_unique as Hu.
  destruct (downloadable r); f_equal;
    [unfold handleDownload | unfold handleView]; exact (find_then_listed resourcesData r _ Hu Hr).
Qed.

Lemma click_primary_spec_witness :
  step {| searchQuery := "" |} (ClickPrimary (nth 2 resourcesData noResource)) =
    ({| searchQuery := "" |},
     [Toast "Opening Resource" "Opening Networking Strategies for Introverts"]).
Proof. exact (click_primary_spec _ _ ltac:(right; right; left; reflexivity)). Defined.

End ResourcesPage.
