(* ===== verification/Dashboard.v ===== *)
(** * Dashboard: the member dashboard (src/src/pages/Dashboard.tsx)

    The page shows three constant arrays: [notifications] (each rendered
    by a [NotificationItem] that fades in once a [setTimeout] of
    [index * 150] ms has fired), [upcomingEvents] and [recentConnections].
    Its state is the active tab ([activeTab], set by the tab triggers);
    the RSVP buttons call [handleRSVP], which shows a toast.

    Unlike the Events page, whose dates are built with
    [new Date(y, m, d)], the dashboard's event dates are the strings
    "2023-06-15" and "2023-06-20", rendered with
    [new Date(event.date).toLocaleDateString('en-US', { month: 'short',
    day: 'numeric' })].  A date-only string is read as UTC midnight and
    printed in local time, which [JsDate] models with the zone offset
    [tz].

    Each notification is a [NotificationItem] whose effect sets a timer
    and whose cleanup clears it ([item_step]).  [panels] are the four
    [TabsContent] elements with their values, and [tab_content] is the one
    Radix renders for the active tab. *)

From S2P Require Import Prelude JsString JsDate.

Local Open Scope string_scope.

Module DashboardPage.

Record Notification : Type := mkNotification { nid : nat; ntype : string; message : string; time : string }.

Definition notifications : list Notification := [
  mkNotification 1 "connection" "John Doe accepted your connection request" "2 hours ago";
  mkNotification 2 "event" "New event: Tech Talk on AI and Ethics" "1 day ago";
  mkNotification 3 "message" "You have a new message from Sarah Johnson" "2 days ago"
].

Record UpcomingEvent : Type := mkUpcoming {
  id : nat; title : string; date : string; etime : string; location : string; attendees : nat }.

Definition upcomingEvents : list UpcomingEvent := [
  mkUpcoming 1 "Alumni Networking Mixer" "2023-06-15" "6:00 PM - 8:00 PM" "Student Union Building" 56;
  mkUpcoming 2 "Career Workshop: Resume Building" "2023-06-20" "3:00 PM - 5:00 PM" "Virtual - Zoom" 112
].

Record Connection : Type := mkConnection { cid : nat; name : string; role : string; avatar : string }.

Definition recentConnections : list Connection := [
  mkConnection 1 "Alex Chen" "Software Engineer at Google" "/placeholder.svg";
  mkConnection 2 "Maria Rodriguez" "Product Manager at Meta" "/placeholder.svg";
  mkConnection 3 "David Kim" "Data Scientist at Amazon" "/placeholder.svg"
].

(** [NotificationItem]'s [delay = index * 150]: the item is visible once
    [elapsed] ms after mounting its timer has fired. *)
Definition notification_delay (index : nat) : nat := (index * 150)%nat.

Definition isVisible (elapsed index : nat) : bool := (notification_delay index <=? elapsed)%nat.

Definition handleRSVP (eventId : nat) (eventTitle : string) : list effect :=
  [Toast "RSVP Confirmed" ("You've successfully RSVP'd to " ++ eventTitle)].

(** The date badge of an event card; an unparsable date prints
    "Invalid Date". *)
Definition badge (tz : Z) (e : UpcomingEvent) : string :=
  match parse_iso_date (date e) with
  | Some t => format_MMM_d tz t
  | None => "Invalid Date"
  end.

Inductive DashboardTab : Type := Overview | EventsTab | Connections | Messages.

Record DashboardState : Type := { activeTab : DashboardTab }.

Definition initial : DashboardState := {| activeTab := Overview |}.

Inductive DashboardEvent : Type :=
  | SelectTab (t : DashboardTab)
  | ClickRSVP (e : UpcomingEvent).

Definition step (st : DashboardState) (ev : DashboardEvent) : DashboardState * list effect :=
  match ev with
  | SelectTab t => ({| activeTab := t |}, [])
  | ClickRSVP e => (st, handleRSVP (id e) (title e))
  end.

(** ** [NotificationItem]

    Each notification is a component whose effect schedules
    [setTimeout(() => setIsVisible(true), delay)] and whose cleanup calls
    [clearTimeout(timer)].  The item is a step relation over its phase,
    the pending timer and [isVisible]; the firing of the timer is an
    event, as in [Landing.HomeFeatureCard]. *)

Inductive ItemPhase : Type := ItemRendered | ItemMounted | ItemUnmounted.

Record ItemState : Type := mkItem { iphase : ItemPhase; itimer : bool; ivisible : bool }.

Definition item_initial : ItemState := mkItem ItemRendered false false.

Inductive ItemEvent : Type := ItemMount | ItemTimerFire | ItemUnmount.

Definition item_step (s : ItemState) (ev : ItemEvent) : option ItemState :=
  match ev, iphase s with
  | ItemMount, ItemRendered => Some (mkItem ItemMounted true (ivisible s))
  | ItemTimerFire, _ => if itimer s then Some (mkItem (iphase s) false true) else None
  | ItemUnmount, ItemMounted => Some (mkItem ItemUnmounted false (ivisible s))
  | _, _ => None
  end.

Inductive item_reach : ItemState -> Prop :=
  | item_reach_init : item_reach item_initial
  | item_reach_step s ev s' : item_reach s -> item_step s ev = Some s' -> item_reach s'.

Inductive NotifIcon : Type := UsersIcon | CalendarIcon | MessageCircleIcon.

(** The icon circle: [type === 'connection' && ...], ['event'],
    ['message']; any other type renders no icon. *)
Definition notification_icon (type : string) : option NotifIcon :=
  if String.eqb type "connection" then Some UsersIcon
  else if String.eqb type "event" then Some CalendarIcon
  else if String.eqb type "message" then Some MessageCircleIcon
  else None.

Definition item_class (visible : bool) : string :=
  if visible then "opacity-100 translate-y-0" else "opacity-0 translate-y-4".

(** ** What each tab shows *)

Record EventCard : Type := mkEventCard {
  card_title : string; card_badge : string; card_time : string; card_location : string;
  card_attending : string }.

Definition event_card (tz : Z) (e : UpcomingEvent) : EventCard :=
  mkEventCard (title e) (badge tz e) (etime e) (location e) (number_toString (attendees e) ++ " attending").

Inductive TabContent : Type :=
  | OverviewContent (items : list (option NotifIcon * string * string * nat)) (stats : list (string * string))
      (events : list EventCard) (connections : list (string * string))
  | ComingSoon (cardTitle : string) (text : string).

(** The overview's four cards: the notification rows with their icon and
    fade-in delay, the three network statistics, the event cards and the
    connection cards (name and role; their "Message" button has no
    [onClick]). *)
Definition notification_rows : list (option NotifIcon * string * string * nat) :=
  mapi (fun index n => (notification_icon (ntype n), message n, time n, notification_delay index))
    notifications.

Definition network_stats : list (string * string) :=
  [("Connections", "145"); ("Events Attended", "12"); ("Profile Views", "78")].

Definition event_cards (tz : Z) : list EventCard := map (event_card tz) upcomingEvents.

Definition connection_cards : list (string * string) :=
  map (fun c => (name c, role c)) recentConnections.

#[export] Instance DashboardTab_eq_dec : EqDecision DashboardTab.
Proof. solve_decision. Defined.

(** The four [TabsContent] elements in source order, each with its
    [value]; the three last are placeholders. *)
Definition panels (tz : Z) : list (DashboardTab * TabContent) :=
  [(Overview, OverviewContent notification_rows network_stats (event_cards tz) connection_cards);
   (EventsTab, ComingSoon "Upcoming Events" "Events content coming soon");
   (Connections, ComingSoon "Your Connections" "Connections content coming soon");
   (Messages, ComingSoon "Messages" "Messages content coming soon")].

(** Radix renders the [TabsContent] whose value is [activeTab]. *)
Definition tab_content (tz : Z) (st : DashboardState) : option TabContent :=
  snd <$> List.find (fun p => bool_decide (fst p = activeTab st)) (panels tz).

(** ** Properties *)

(** Whatever the active tab, exactly one panel has its value, and it is
    the one rendered. *)
Lemma tab_content_single tz st : exists c,
  tab_content tz st = Some c /\
  List.filter (fun p => bool_decide (fst p = activeTab st)) (panels tz) = [(activeTab st, c)].
Proof. destruct st as [[]]; eexists; split; reflexivity. Qed.

(** C20: a dashboard notification cleans up after itself.  In every
    reachable state of a [NotificationItem], before its effect runs it is
    untouched; while mounted it is waiting on exactly its one timer or
    shown, never both and never neither; and once unmounted no timer is
    pending, since the cleanup calls [clearTimeout]. *)
Theorem notification_item_lifecycle s :
  item_reach s ->
  (iphase s = ItemRendered -> s = item_initial) /\
  (iphase s = ItemMounted -> itimer s = negb (ivisible s)) /\
  (iphase s = ItemUnmounted -> itimer s = false).
Proof.
  induction 1 as [|s ev s' Hr IH Hs]; [done|].
  destruct s as [[] t v]; destruct IH as (H1 & H2 & H3); cbn [iphase] in *;
    [specialize (H1 eq_refl); injection H1 as -> -> | specialize (H2 eq_refl) | specialize (H3 eq_refl)];
    destruct ev; cbn in Hs; try discriminate;
    repeat match goal with H : (if ?b then _ else _) = Some _ |- _ => destruct b end;
    try discriminate; injection Hs as <-; cbn; repeat split; intros; subst; try discriminate; done.
Qed.

(** Mounted, fired, then unmounted: shown, and nothing left pending. *)
Lemma notification_item_lifecycle_witness :
  let s := mkItem ItemUnmounted false true in
  (iphase s = ItemRendered -> s = item_initial) /\
  (iphase s = ItemMounted -> itimer s = negb (ivisible s)) /\
  (iphase s = ItemUnmounted -> itimer s = false).
Proof.
  apply notification_item_lifecycle.
  apply (item_reach_step (mkItem ItemMounted false true) ItemUnmount); [|reflexivity].
  apply (item_reach_step (mkItem ItemMounted true false) ItemTimerFire); [|reflexivity].
  apply (item_reach_step item_initial ItemMount); [constructor|reflexivity].
Defined.

(** C9: the dashboard's date badges are a day early west of UTC.  The
    strings "2023-06-15" and "2023-06-20" are read as UTC midnight and
    printed in local time: in every zone behind UTC (the Americas) the
    cards show "Jun 14" and "Jun 19", and only in zones at or ahead of
    UTC do they show the intended "Jun 15" and "Jun 20". *)
Theorem dashboard_badges_shift tz :
  (- msPerDay <= tz < msPerDay)%Z ->
  map (badge tz) upcomingEvents =
    if (tz <? 0)%Z then ["Jun 14"; "Jun 19"] else ["Jun 15"; "Jun 20"].
Proof.
  intros H. unfold badge. cbn [map upcomingEvents date].
  change (parse_iso_date "2023-06-15") with (Some (MakeDate (MakeDay 2023 5 15) 0)).
  change (parse_iso_date "2023-06-20") with (Some (MakeDate (MakeDay 2023 5 20) 0)).
  unfold format_MMM_d. rewrite !local_ymd_utc_midnight by done.
  destruct (tz <? 0)%Z; vm_compute; reflexivity.
Qed.

(** New York (UTC-5). *)
Lemma dashboard_badges_shift_witness :
  map (badge (-18000000)) upcomingEvents = ["Jun 14"; "Jun 19"].
Proof. exact (dashboard_badges_shift (-18000000) ltac:(unfold msPerDay; lia)). Defined.

End DashboardPage.
