(* ===== verification/HallOfFame.v ===== *)
(** * HallOfFame: the leaderboards (src/src/pages/HallOfFame.tsx)

    The page renders three tabs from src/src/data/hall-of-fame-data.ts:
    the contributors' leaderboard ([TopContributorsTab]), the recent
    achievements ([RecentAchievementsTab], built by
    [createRecentAchievements]) and the innovators' leaderboard
    ([TopInnovatorsTab]).  A leaderboard row shows [index + 1] as the
    rank, the avatar on a medal colour (gold for index 0, silver for
    index 1, bronze otherwise: only in the contributors' board), the
    points as "[points] pts" and the badge; an achievement row shows the
    icon, name, date and text.  The rank is the array
    position: neither component sorts by points. *)

From S2P Require Import Prelude JsString.

Local Open Scope string_scope.
#[local] Set Warnings "-abstract-large-number".

Module HallOfFamePage.

Record Contributor : Type := mkContributor {
  cid : nat; cname : string; role : string; contributions : string;
  cavatar : string; cbadge : string; cpoints : nat }.

Definition topContributors : list Contributor := [
  mkContributor 1 "Sarah Johnson" "Class of 2018" "Donated $50,000 to Scholarship Fund" "SJ"
    "Platinum Donor" 5280;
  mkContributor 2 "Michael Chen" "Class of 2010" "Mentored 32 students, Organized 8 events" "MC"
    "Master Mentor" 4875;
  mkContributor 3 "Priya Patel" "Class of 2015" "Created the Alumni Tech Workshop Series" "PP"
    "Innovation Champion" 4690
].

Inductive Icon : Type := Users | Gift | Heart | ThumbsUp | Lightbulb | Calendar.

Record Achievement : Type := mkAchievement {
  aid : nat; aname : string; achievement : string; adate : string; icon : Icon }.

Definition createRecentAchievements : list Achievement := [
  mkAchievement 1 "David Lee" "Launched career mentorship platform" "Last week" Users;
  mkAchievement 2 "Emma Wilson" "Funded 5 student scholarships" "2 weeks ago" Gift;
  mkAchievement 3 "James Garcia" "Organized virtual alumni reunion" "Last month" Heart;
  mkAchievement 4 "Olivia Taylor" "Created student internship program" "Last month" ThumbsUp
].

Record Innovator : Type := mkInnovator {
  iid : nat; iname : string; innovation : string; impact : string;
  ibadge : string; iavatar : string; ipoints : nat }.

Definition topInnovators : list Innovator := [
  mkInnovator 1 "Robert Zhang" "AI Mentorship Matching Algorithm" "Increased successful mentorships by 65%"
    "Tech Innovator" "RZ" 4320;
  mkInnovator 2 "Aisha Karim" "Alumni Networking Mobile App" "Connected over 5,000 alumni and students"
    "Digital Pioneer" "AK" 3950;
  mkInnovator 3 "Carlos Mendez" "Virtual Career Fair Platform" "Facilitated 1,200+ job placements"
    "Career Catalyst" "CM" 3780
].

Inductive Medal : Type := Gold | Silver | Bronze.

(** [index === 0 ? 'bg-amber-500' : index === 1 ? 'bg-gray-300' : 'bg-amber-700'] *)
Definition medal (index : nat) : Medal :=
  match index with 0 => Gold | 1 => Silver | _ => Bronze end.

Record ContributorRow : Type := mkContributorRow {
  rank : nat; row_medal : Medal; row_avatar : string; row_name : string; row_role : string;
  row_points : string; row_contributions : string; row_badge : string }.

(** One row of [TopContributorsTab]. *)
Definition contributor_row (index : nat) (c : Contributor) : ContributorRow :=
  mkContributorRow (index + 1) (medal index) (cavatar c) (cname c) (role c)
    (number_toString (cpoints c) ++ " pts") (contributions c) (cbadge c).

Definition leaderboard (cs : list Contributor) : list ContributorRow := mapi contributor_row cs.

Record InnovatorRow : Type := mkInnovatorRow {
  irank : nat; irow_avatar : string; irow_name : string; irow_points : string; irow_innovation : string;
  irow_impact : string; irow_badge : string }.

Definition innovator_row (index : nat) (i : Innovator) : InnovatorRow :=
  mkInnovatorRow (index + 1) (iavatar i) (iname i) (number_toString (ipoints i) ++ " pts") (innovation i)
    (impact i) (ibadge i).

Definition innovators_board (xs : list Innovator) : list InnovatorRow := mapi innovator_row xs.

(** The "Gamification Elements" strip under the contributors. *)
Inductive GameIcon : Type := MedalIcon | TrophyIcon | StarIcon | GiftIcon.

Definition gamificationElements : list (GameIcon * string) :=
  [(MedalIcon, "Earn Badges"); (TrophyIcon, "Climb Leaderboards"); (StarIcon, "Complete Missions");
   (GiftIcon, "Unlock Rewards")].

Inductive HallTab : Type := Leaderboard | Achievements | Innovators.

(** One row of [RecentAchievementsTab]: the achievement's icon, name,
    date and text. *)
Record AchievementRow : Type := mkAchievementRow {
  arow_icon : Icon; arow_name : string; arow_date : string; arow_text : string }.

Definition achievement_row (a : Achievement) : AchievementRow :=
  mkAchievementRow (icon a) (aname a) (adate a) (achievement a).

Definition achievements_list (xs : list Achievement) : list AchievementRow := map achievement_row xs.

(** The constant "Recognition Categories" card. *)
Definition recognitionCategories : list (Icon * string * string) := [
  (Users, "Mentorship Excellence", "Recognized for exceptional guidance and support to students");
  (Gift, "Philanthropic Impact", "Honored for significant donations and financial support");
  (Lightbulb, "Innovation & Ideas", "Celebrated for creative solutions and innovative thinking");
  (Calendar, "Event Organization", "Recognized for coordinating impactful community events")
].

Inductive HallView : Type :=
  | ContributorsView (rows : list ContributorRow) (elements : list (GameIcon * string))
  | AchievementsView (rows : list AchievementRow) (categories : list (Icon * string * string))
  | InnovatorsView (rows : list InnovatorRow).

(** The page: an uncontrolled Radix [Tabs] with [defaultValue]
    "leaderboard", whose content for the selected tab is rendered. *)
Definition hall_initial : HallTab := Leaderboard.

Definition hall_view (t : HallTab) : HallView :=
  match t with
  | Leaderboard => ContributorsView (leaderboard topContributors) gamificationElements
  | Achievements => AchievementsView (achievements_list createRecentAchievements) recognitionCategories
  | Innovators => InnovatorsView (innovators_board topInnovators)
  end.

(** Points strictly decreasing along the array. *)
Fixpoint sorted_desc (ps : list nat) : bool :=
  match ps with
  | x :: ((y :: _) as rest) => (y <? x)%nat && sorted_desc rest
  | _ => true
  end.

(** The rank by points: one more than the number of entries with more
    points. *)
Definition points_rank (ps : list nat) (p : nat) : nat :=
  S (List.length (List.filter (fun q => (p <? q)%nat) ps)).

(** ** Properties *)

Lemma sorted_desc_tail x ps : sorted_desc (x :: ps) = true -> sorted_desc ps = true.
Proof. destruct ps as [|y ps]; [done|]. simpl. by intros [_ ?]%andb_prop. Qed.

Lemma sorted_desc_head x ps : sorted_desc (x :: ps) = true -> forall y, In y ps -> (y < x)%nat.
Proof.
  revert x. induction ps as [|y ps IH]; intros x Hs z Hz; [done|].
  simpl in Hs. apply andb_prop in Hs as [Hyx Hs]. apply Nat.ltb_lt in Hyx.
  destruct Hz as [<-|Hz]; [done|]. specialize (IH y Hs z Hz). lia.
Qed.

(** In a strictly decreasing array the position is the rank by points. *)
Lemma position_is_points_rank ps i p :
  sorted_desc ps = true -> nth_error ps i = Some p -> S i = points_rank ps p.
Proof.
  unfold points_rank. revert i. induction ps as [|x ps IH]; intros [|i] Hs Hi; try done.
  - injection Hi as <-. simpl. rewrite Nat.ltb_irrefl.
    rewrite (filter_none _ ps); [done|].
    intros q Hq. apply Nat.ltb_ge. pose proof (sorted_desc_head _ _ Hs q Hq). lia.
  - simpl in Hi. pose proof (nth_error_In _ _ Hi) as Hin.
    rewrite (IH i (sorted_desc_tail _ _ Hs) Hi). simpl.
    rewrite (proj2 (Nat.ltb_lt p x)) by (by apply (sorted_desc_head _ _ Hs)). done.
Qed.

(** C22: the contributors' leaderboard ranks by points.  On an array whose
    points strictly decrease (as the fixture's do), the rank a row shows is
    one more than the number of contributors with more points, and the
    gold medal goes to exactly the row whose contributor has the most
    points. *)
Theorem leaderboard_ranks_by_points cs i r :
  sorted_desc (map cpoints cs) = true -> nth_error (leaderboard cs) i = Some r ->
  exists c, nth_error cs i = Some c /\
    rank r = points_rank (map cpoints cs) (cpoints c) /\
    (row_medal r = Gold <-> forall c', In c' cs -> (cpoints c' <= cpoints c)%nat).
Proof.
  intros Hs Hr. unfold leaderboard in Hr. rewrite nth_error_mapi in Hr.
  destruct (nth_error cs i) as [c|] eqn:Hc; [|done]. injection Hr as <-.
  exists c. split; [done|]. cbn [rank row_medal contributor_row].
  assert (Hp : nth_error (map cpoints cs) i = Some (cpoints c)) by (by rewrite nth_error_map, Hc).
  pose proof (position_is_points_rank _ _ _ Hs Hp) as Hrank.
  split; [lia|]. unfold points_rank in Hrank. split.
  - intros Hg c' Hc'. destruct i as [|[|i]]; try discriminate Hg.
    apply Nat.le_ngt. intros Hlt. simpl in Hrank. injection Hrank as Hrank.
    apply eq_sym, length_zero_iff_nil in Hrank.
    assert (In (cpoints c') (List.filter (fun q => (cpoints c <? q)%nat) (map cpoints cs))) as Hin
      by (apply filter_In; split; [by apply in_map|by apply Nat.ltb_lt]).
    by rewrite Hrank in Hin.
  - intros Hmax. destruct i as [|i]; [done|exfalso].
    destruct (List.filter (fun q => (cpoints c <? q)%nat) (map cpoints cs)) as [|q qs] eqn:Ef;
      [simpl in Hrank; lia|].
    assert (Hq : In q (List.filter (fun q => (cpoints c <? q)%nat) (map cpoints cs))) by (rewrite Ef; left; done).
    apply filter_In in Hq as [(c' & <- & Hc')%in_map_iff Hlt%Nat.ltb_lt].
    specialize (Hmax c' Hc'). lia.
Qed.

(** Michael Chen, second in the fixture, is shown second, with silver. *)
Lemma leaderboard_ranks_by_points_witness :
  exists c, nth_error topContributors 1 = Some c /\
    rank (contributor_row 1 c) = points_rank (map cpoints topContributors) (cpoints c) /\
    (row_medal (contributor_row 1 c) = Gold <->
     forall c', In c' topContributors -> (cpoints c' <= cpoints c)%nat).
Proof.
  exact (leaderboard_ranks_by_points topContributors 1 (contributor_row 1 (nth 1 topContributors
           (mkContributor 0 "" "" "" "" "" 0))) eq_refl eq_refl).
Defined.

End HallOfFamePage.
