(* ===== verification/Navbar.v ===== *)
(** * Navbar: the top bar of the standalone layout (src/src/components/layout/Navbar.tsx)

    The bar keeps three [useState] values ([isScrolled], [isMenuOpen],
    [isDarkMode]) and writes a fourth, shared piece of state: the [dark]
    class of [document.documentElement], which every component of the page
    reads and which other code (the theme provider wrapping the app) may
    already have set before the bar mounts.  The model keeps that class as
    [dom_dark], next to the bar's own state.

    - On mount, the theme effect reads [prefers-color-scheme: dark]
      (the section variable [prefersDark]), sets [isDarkMode] to it and
      adds the class when it is true; it never removes the class.
    - [toggleTheme] negates [isDarkMode] and toggles the class.
    - The scroll listener sets [isScrolled] to [window.scrollY > 10].
    - The menu button negates [isMenuOpen]; a mobile link closes the menu
      and navigates; the route effect closes the menu whenever the path
      changes.

    [view] is the header the bar renders for a state: its classes, the
    highlighted navigation items, the icons and the links.

    Events other than the mount cannot happen before it (effects run
    right after the first render), and the mount happens once. *)

From S2P Require Import Prelude JsString.

Local Open Scope string_scope.

Module NavbarComponent.

Record NavState : Type := mkNavState {
  isScrolled : bool;
  isMenuOpen : bool;
  isDarkMode : bool;
  pathname : string;
  dom_dark : bool;      (* document.documentElement.classList.contains('dark') *)
  mounted : bool;
}.

Inductive NavEvent : Type :=
  | Mount
  | Scroll (scrollY : Z)
  | ToggleTheme
  | ToggleMenu
  | ClickMobileLink (path : string)
  | RouteChange (path : string).

Section Bar.
Variable prefersDark : bool.

Definition initial (path : string) (dom0 : bool) : NavState := mkNavState false false false path dom0 false.

(** The route effect: [setIsMenuOpen(false)] when [location.pathname]
    changed. *)
Definition route_to (s : NavState) (path : string) : NavState :=
  mkNavState (isScrolled s) (if String.eqb path (pathname s) then isMenuOpen s else false)
    (isDarkMode s) path (dom_dark s) (mounted s).

Definition step (s : NavState) (ev : NavEvent) : option NavState :=
  match ev, mounted s with
  | Mount, false =>
      Some (mkNavState (isScrolled s) (isMenuOpen s) prefersDark (pathname s)
              (dom_dark s || prefersDark) true)
  | Mount, true => None
  | _, false => None
  | Scroll y, true =>
      Some (mkNavState (10 <? y)%Z (isMenuOpen s) (isDarkMode s) (pathname s) (dom_dark s) true)
  | ToggleTheme, true =>
      Some (mkNavState (isScrolled s) (isMenuOpen s) (negb (isDarkMode s)) (pathname s)
              (negb (dom_dark s)) true)
  | ToggleMenu, true =>
      Some (mkNavState (isScrolled s) (negb (isMenuOpen s)) (isDarkMode s) (pathname s) (dom_dark s) true)
  | ClickMobileLink p, true =>
      Some (route_to (mkNavState (isScrolled s) false (isDarkMode s) (pathname s) (dom_dark s) true) p)
  | RouteChange p, true => Some (route_to s p)
  end.

Inductive reach (path0 : string) (dom0 : bool) : NavState -> Prop :=
  | reach_init : reach path0 dom0 (initial path0 dom0)
  | reach_step s ev s' : reach path0 dom0 s -> step s ev = Some s' -> reach path0 dom0 s'.

(** The theme icon agrees with the page: the Sun icon shows exactly
    while the page is dark. *)
Definition icon_matches_theme (s : NavState) : bool := Bool.eqb (isDarkMode s) (dom_dark s).

End Bar.

(** ** What the bar renders *)

Record NavItem : Type := mkNavItem { item_name : string; item_path : string }.

Definition navigationItems : list NavItem := [
  mkNavItem "Home" "/"; mkNavItem "Dashboard" "/dashboard"; mkNavItem "Events" "/events";
  mkNavItem "Connect" "/connect"; mkNavItem "Job Board" "/jobs"; mkNavItem "Resources" "/resources";
  mkNavItem "Hall of Fame" "/hall-of-fame"; mkNavItem "Admin" "/admin"
].

Inductive ThemeIcon : Type := Sun | Moon.
Inductive MenuIcon : Type := CloseIcon | MenuBars.

Record NavView : Type := mkNavView {
  header_class : string;
  desktop_links : list (string * string * bool);   (* name, path, highlighted *)
  theme_icon : ThemeIcon;                          (* both theme buttons *)
  menu_label : string;
  menu_icon : MenuIcon;
  mobile_menu_class : string;
  mobile_links : list (string * string * bool);
  auth_links : list string;
}.

(** [location.pathname === item.path] *)
Definition item_highlighted (s : NavState) (item : NavItem) : bool := String.eqb (pathname s) (item_path item).

Definition view (s : NavState) : NavView :=
  let links := map (fun item => (item_name item, item_path item, item_highlighted s item)) navigationItems in
  mkNavView
    (if isScrolled s then "py-2 bg-cube/80 backdrop-blur-lg shadow-md animate-slide-down"
     else "py-4 bg-transparent")
    links
    (if isDarkMode s then Sun else Moon)
    (if isMenuOpen s then "Close menu" else "Open menu")
    (if isMenuOpen s then CloseIcon else MenuBars)
    (if isMenuOpen s then "max-h-[500px] border-opacity-100 animate-slide-down"
     else "max-h-0 border-opacity-0 animate-slide-up")
    links
    ["/auth/login"; "/auth/signup"].

(** Every link the bar renders: the logo, the items (desktop and mobile)
    and the sign-in buttons (desktop and mobile). *)
Definition nav_links : list string :=
  ("/" :: map item_path navigationItems ++ ["/auth/login"; "/auth/signup"] ++
   map item_path navigationItems ++ ["/auth/login"; "/auth/signup"])%list.

(** ** Properties *)

Lemma eqb_negb a b : Bool.eqb (negb a) (negb b) = Bool.eqb a b.
Proof. by destruct a, b. Qed.

Lemma nav_reach_inv pd p0 d0 s :
  reach pd p0 d0 s ->
  (mounted s = false /\ s = initial p0 d0) \/
  (mounted s = true /\ icon_matches_theme s = pd || negb d0).
Proof.
  induction 1 as [|s ev s' Hr IH Hs]; [by left|right].
  destruct IH as [[Hm ->]|[Hm Hi]].
  - destruct ev; simpl in Hs; try discriminate. injection Hs as <-.
    split; [done|]. by destruct pd, d0.
  - unfold step in Hs. rewrite Hm in Hs.
    destruct ev; try discriminate; injection Hs as <-; split; try done;
      unfold icon_matches_theme in *; simpl in *; rewrite ?eqb_negb; done.
Qed.

(** C18: the theme toggle never repairs a disagreement.  Once the bar has
    mounted, its icon agrees with the page's [dark] class in every
    reachable state exactly when the system prefers dark or the class was
    not already set before the bar mounted: a page made dark by other code
    under a light system preference shows the Moon icon ("switch to
    dark"), and every toggle flips both, so icon and page stay opposite
    for good. *)
Theorem theme_icon_agreement pd p0 d0 s :
  reach pd p0 d0 s -> mounted s = true ->
  icon_matches_theme s = pd || negb d0.
Proof.
  intros Hr Hm. destruct (nav_reach_inv _ _ _ _ Hr) as [[Hm' _]|[_ H]]; [congruence|done].
Qed.

(** A dark page under a light system preference, after mounting and one
    toggle: icon and page disagree. *)
Lemma theme_icon_agreement_witness :
  icon_matches_theme (mkNavState false false true "/" false true) = false.
Proof.
  refine (theme_icon_agreement false "/" true (mkNavState false false true "/" false true) _ eq_refl).
  apply (reach_step _ _ _ (mkNavState false false false "/" true true) ToggleTheme);
    [|reflexivity].
  apply (reach_step _ _ _ (initial "/" true) Mount); [constructor|reflexivity].
Defined.

End NavbarComponent.
