(* ===== verification/Landing.v ===== *)
(** * Landing: the interactive parts of the landing pages

    - [FeaturesSection] models src/src/components/home/Features.tsx: the
      constant [featuresList], the [activeTab] state (initially
      ['connect']) and a Radix [Tabs] whose triggers call
      [onValueChange(feature.id)] and whose [TabsContent] for a feature
      renders only while its value is the active one (the library's
      documented behaviour, modelled at the call site).
    - [HomeFeatureCard] models [FeatureCard] of src/src/pages/Home.tsx: on
      mount its effect creates an [IntersectionObserver]; the first entry
      that intersects schedules [setTimeout(() => setIsVisible(true),
      delay)] and disconnects the observer; the cleanup disconnects the
      observer and does not clear the timer.  The card is a step relation
      over its phase (rendered, mounted, unmounted), the observer, the
      pending timers and [isVisible]; [delay] only says when the timer
      fires, which the [TimerFire] event abstracts ([Home] passes constant
      delays, so the effect never re-runs).
    - [HomePage] models the rest of Home's logic: [isLoaded], set on
      mount, and the entrance classes it drives, and the four feature
      cards with their delays; [HeroSection] Hero's [FeatureCard] with its
      props and the four cards, their [`${delay}s`] animation delays
      printed from one-decimal literals (Hero's parallax listener is in
      [Listeners]).
    - [AnimatedCardComponent] models src/src/components/ui/AnimatedCard.tsx
      (which no component uses): its props and defaults, the [isHovered]
      state set by the hover callbacks, the two framer-motion variants and
      the variant it animates to, and the tilt rotation ([5 * depth]).
      Numbers are rationals.
    - [IndexPage] models the [handleScrollTo] click handler of
      src/src/pages/Index.tsx as the DOM calls it makes (its registration
      is in [Listeners]). *)

From S2P Require Import Prelude JsString.
From Stdlib Require Import QArith.

Local Open Scope string_scope.

Module FeaturesSection.

Inductive Icon : Type := Users | Calendar | Briefcase | Award | BookOpen | BrainCircuit | MessageCircle
  | HandCoins.

Record Feature : Type := mkFeature {
  id : string; title : string; description : string; icon : Icon; details : list string }.

Definition featuresList : list Feature := [
  mkFeature "connect" "AI-Powered Connections"
    "Connect with alumni and students based on shared interests, skills, and career goals." Users
    ["Intelligent matching algorithms connect you with relevant professionals";
     "Filter connections by industry, graduation year, or interests";
     "Build your professional network through personalized recommendations";
     "Stay connected with your alma mater and fellow graduates"];
  mkFeature "events" "Personalized Events"
    "Discover and participate in events tailored to your interests and career stage." Calendar
    ["Receive notifications for events relevant to your field";
     "Seamless RSVP process with calendar synchronization";
     "Virtual and in-person networking opportunities";
     "Track participation and stay engaged with your community"];
  mkFeature "jobs" "NLP-Powered Job Matching"
    "Find the perfect career opportunities through our advanced job matching system." Briefcase
    ["AI analysis of your skills and experience for precise job matching";
     "Personalized job recommendations based on your career goals";
     "Direct connections with alumni hiring at top companies";
     "Career advancement opportunities specifically for alumni"];
  mkFeature "mentoring" "Mentorship Programs"
    "Give back to your community by mentoring students or find a mentor to guide your career." Award
    ["Connect with experienced professionals in your field";
     "Structured mentorship programs with clear objectives";
     "Track your mentorship journey and celebrate milestones";
     "Build meaningful relationships that advance your career"];
  mkFeature "resources" "Exclusive Resources"
    "Access a wealth of resources including workshops, articles, and learning opportunities." BookOpen
    ["Curated content specific to your industry and interests";
     "Workshops and webinars led by industry experts";
     "Continuous learning opportunities to advance your skills";
     "Exclusive alumni resources and benefits"];
  mkFeature "ai" "AI Recommendations"
    "Receive personalized recommendations for events, connections, and opportunities." BrainCircuit
    ["Smart content curation based on your profile and activity";
     "Discover relevant opportunities you might have missed";
     "Continuously improving recommendations based on your feedback";
     "Stay updated with the most relevant information for your career"];
  mkFeature "community" "Community Engagement"
    "Participate in discussions, forums, and collaborative initiatives with your community." MessageCircle
    ["Engage in topic-specific discussion groups";
     "Share insights and experiences with peers";
     "Collaborate on initiatives that benefit your alma mater";
     "Build a supportive community of like-minded professionals"];
  mkFeature "donations" "Transparent Donations"
    "Contribute to your institution with full transparency and track the impact of your donations."
    HandCoins
    ["Blockchain-based donation tracking for complete transparency";
     "Choose specific initiatives and projects to support";
     "See the real-time impact of your contributions";
     "Connect with others who share your philanthropic interests"]
].

Record FeaturesState : Type := { activeTab : string }.

(** [useState('connect')] *)
Definition initial : FeaturesState := {| activeTab := "connect" |}.

(** [featuresList.map(feature => <TabsTrigger value={feature.id}>)] *)
Definition triggers : list string := map id featuresList.

(** [onValueChange={setActiveTab}] *)
Definition onValueChange (st : FeaturesState) (value : string) : FeaturesState := {| activeTab := value |}.

(** A trigger shows [data-state=active] when its value is the Tabs
    value. *)
Definition active_triggers (st : FeaturesState) : list string :=
  List.filter (fun v => String.eqb v (activeTab st)) triggers.

(** [featuresList.map(feature => <TabsContent value={feature.id}>)]: the
    panels Radix mounts. *)
Definition rendered (st : FeaturesState) : list Feature :=
  List.filter (fun f => String.eqb (id f) (activeTab st)) featuresList.

(** The only way to change the tab is to click one of the triggers. *)
Inductive reach : FeaturesState -> Prop :=
  | reach_init : reach initial
  | reach_click s v : reach s -> In v triggers -> reach (onValueChange s v).

End FeaturesSection.

Module HomeFeatureCard.

Inductive Phase : Type := Rendered | Mounted | Unmounted.

Record CardState : Type := mkCard {
  phase : Phase;
  observing : bool;   (* the IntersectionObserver is connected *)
  pending : nat;      (* setTimeout(() => setIsVisible(true), delay) not yet fired *)
  isVisible : bool;
}.

Definition initial : CardState := mkCard Rendered false 0 false.

Inductive CardEvent : Type :=
  | Mount                          (* the effect runs: observer.observe(ref.current) *)
  | Entry (isIntersecting : bool)  (* the observer's callback *)
  | TimerFire                      (* the delay has elapsed *)
  | Unmount.                       (* the cleanup: observer.disconnect() *)

Definition is_mounted (p : Phase) : bool := match p with Mounted => true | _ => false end.

Definition step (s : CardState) (ev : CardEvent) : option CardState :=
  match ev with
  | Mount =>
      match phase s with
      | Rendered => Some (mkCard Mounted true (pending s) (isVisible s))
      | _ => None
      end
  | Entry b =>
      if observing s then
        Some (if b then mkCard (phase s) false (S (pending s)) (isVisible s) else s)
      else None
  | TimerFire =>
      match pending s with
      | O => None
      | S n => Some (mkCard (phase s) (observing s) n (isVisible s || is_mounted (phase s)))
      end
  | Unmount =>
      match phase s with
      | Mounted => Some (mkCard Unmounted false (pending s) (isVisible s))
      | _ => None
      end
  end.

Fixpoint run (s : CardState) (evs : list CardEvent) : option CardState :=
  match evs with
  | [] => Some s
  | ev :: evs' => match step s ev with Some s' => run s' evs' | None => None end
  end.

Inductive reach : CardState -> Prop :=
  | reach_init : reach initial
  | reach_step s ev s' : reach s -> step s ev = Some s' -> reach s'.

(** The stage of the fade-in: the observer waiting, the timer waiting, the
    card shown; [stages] counts those in progress or done. *)
Definition stages (s : CardState) : nat :=
  (Nat.b2n (observing s) + pending s + Nat.b2n (isVisible s))%nat.

End HomeFeatureCard.

Module HomePage.

(** [useState(false)], set to [true] by the mount effect. *)
Record HomeState : Type := { isLoaded : bool }.

Definition initial : HomeState := {| isLoaded := false |}.

Definition mount (st : HomeState) : HomeState := {| isLoaded := true |}.

(** The entrance classes of the hero badge, heading, paragraph and
    buttons: [isLoaded ? <shown> : "opacity-0 translate-y-5"]. *)
Definition entrance_classes (st : HomeState) : list string :=
  map (fun shown => if isLoaded st then shown else "opacity-0 translate-y-5")
    ["opacity-100"; "opacity-100"; "opacity-100 delay-100"; "opacity-100 delay-200"].

Inductive CardIcon : Type := Users | BookOpen | Briefcase | Gift.

(** The four [FeatureCard]s of "Why Choose LinkCube", each a
    [HomeFeatureCard] with its [delay] in ms. *)
Definition featureCards : list (CardIcon * string * string * nat) := [
  (Users, "Connect", "Network with alumni and students in your field of interest", 100%nat);
  (BookOpen, "Learn", "Access exclusive resources and mentorship opportunities", 200%nat);
  (Briefcase, "Grow", "Discover job opportunities through AI-powered recommendations", 300%nat);
  (Gift, "Give Back", "Contribute to your institution's growth and legacy", 400%nat)
].

(** [FeatureCard]'s classes: [isVisible ? "opacity-100 transform
    translate-y-0" : "opacity-0 transform translate-y-10"]. *)
Definition card_class (visible : bool) : string :=
  if visible then "opacity-100 transform translate-y-0" else "opacity-0 transform translate-y-10".

End HomePage.

Module HeroSection.

Inductive CardIcon : Type := Users | BookOpen | Briefcase | GraduationCap.

(** [FeatureCardProps]; the [delay] literals ([0.1] to [0.4]) have one
    decimal and are kept in tenths of a second. *)
Record FeatureCardProps : Type := mkFeatureCardProps {
  icon : CardIcon; title : string; description : string; color : string; delay : nat }.

(** [`${delay}s`]: a one-decimal literal prints as its integer part,
    then a point and the tenths digit unless that digit is 0. *)
Definition seconds_toString (tenths : nat) : string :=
  number_toString (tenths / 10) ++
  (if (tenths mod 10 =? 0)%nat then "" else String "." (String (digit_char (tenths mod 10)) "")).

(** [FeatureCard]: the icon, the title, the description, the icon
    circle's gradient class and the [animationDelay] style. *)
Definition FeatureCard (p : FeatureCardProps) : CardIcon * string * string * string * string :=
  (icon p, title p, description p,
   "rounded-full p-3 w-fit bg-gradient-to-br " ++ color p ++ " mb-4", seconds_toString (delay p) ++ "s").

Definition heroCardProps : list FeatureCardProps := [
  mkFeatureCardProps Users "Connect" "Network with alumni and students in your field of interest"
    "from-cube-blue/20 to-cube-blue/10" 1;
  mkFeatureCardProps BookOpen "Learn" "Access exclusive resources and mentorship opportunities"
    "from-cube-indigo/20 to-cube-indigo/10" 2;
  mkFeatureCardProps Briefcase "Grow" "Discover job opportunities through AI-powered recommendations"
    "from-cube-purple/20 to-cube-purple/10" 3;
  mkFeatureCardProps GraduationCap "Give Back" "Contribute to your institution's growth and legacy"
    "from-cube-pink/20 to-cube-pink/10" 4
].

(** Hero's four cards as rendered. *)
Definition heroCards : list (CardIcon * string * string * string * string) :=
  map FeatureCard heroCardProps.

End HeroSection.

Module AnimatedCardComponent.

Inductive HoverEffect : Type := Lift | Tilt | Glow | NoEffect.

(** The props with their defaults: [depth = 0.5], [hoverEffect = 'tilt'],
    [borderGlow = false]. *)
Record CardProps : Type := mkCardProps { depth : Q; hoverEffect : HoverEffect; borderGlow : bool }.

Definition default_props : CardProps := mkCardProps (1 # 2) Tilt false.

Record Variant : Type := mkVariant { scale : Q; boxShadow : string; duration : option Q }.

Definition shadow_initial : string :=
  "0 4px 6px -1px rgba(0, 0, 0, 0.1), 0 2px 4px -1px rgba(0, 0, 0, 0.06)".
Definition shadow_glow : string :=
  "0 0 15px rgba(59, 130, 246, 0.5), 0 0 30px rgba(59, 130, 246, 0.3)".
Definition shadow_hover : string :=
  "0 10px 25px -5px rgba(0, 0, 0, 0.1), 0 8px 10px -6px rgba(0, 0, 0, 0.1)".

(** [cardVariants.initial] and [cardVariants.hover]. *)
Definition variant_initial : Variant := mkVariant 1 shadow_initial None.

Definition variant_hover (p : CardProps) : Variant :=
  mkVariant (match hoverEffect p with Lift => 102 # 100 | _ => 1 end)
    (if borderGlow p then shadow_glow else shadow_hover) (Some (2 # 10)).

(** [useState(false)], set by [onHoverStart] and cleared by
    [onHoverEnd]. *)
Record HoverState : Type := { isHovered : bool }.

Inductive HoverEvent : Type := HoverStart | HoverEnd.

Definition step (st : HoverState) (ev : HoverEvent) : HoverState :=
  {| isHovered := match ev with HoverStart => true | HoverEnd => false end |}.

(** [animate={isHovered ? 'hover' : 'initial'}] *)
Definition animate (p : CardProps) (st : HoverState) : Variant :=
  if isHovered st then variant_hover p else variant_initial.

(** The inner [motion.div] of the tilt effect, [whileHover] rotating by
    [5 * depth] degrees about both axes; other effects render the
    children directly. *)
Definition tilt_rotation (p : CardProps) : option (Q * Q) :=
  match hoverEffect p with Tilt => Some (5 * depth p, 5 * depth p) | _ => None end.

End AnimatedCardComponent.

Module IndexPage.

(** The DOM calls the listener makes. *)
Inductive dom_call : Type :=
  | PreventDefault
  | ScrollTo (top : Z) (smooth : bool).

(** [handleScrollTo]: [attr] is [target.getAttribute('data-scroll-to')]
    ([null] is [None]; the empty string is falsy), [getElementById] the
    document's elements by id with their [offsetTop]. *)
Definition handleScrollTo (attr : option string) (getElementById : string -> option Z) : list dom_call :=
  match attr with
  | Some a =>
      if String.eqb a "" then []
      else PreventDefault ::
             match getElementById a with
             | Some offsetTop => [ScrollTo (offsetTop - 80) true]
             | None => []
             end
  | None => []
  end.

End IndexPage.

(** ** Properties *)

Section UniqueKey.
Context {A : Type} (key : A -> string).

(** Filtering by a key that occurs exactly once keeps exactly the one
    record with that key. *)
Lemma filter_key_unique (xs : list A) (k : string) :
  NoDup (map key xs) -> In k (map key xs) ->
  exists x, In x xs /\ key x = k /\ List.filter (fun y => String.eqb (key y) k) xs = [x].
Proof.
  induction xs as [|x xs IH]; simpl; [done|]. intros Hnd Hk. inversion Hnd as [|? ? Hx Hnd']; subst.
  destruct (String.eqb_spec (key x) k) as [<-|Hne].
  - exists x. split; [by left|]. split; [done|]. f_equal.
    apply filter_none. intros y Hy. apply String.eqb_neq. intros Hyx. apply Hx, list_elem_of_In.
    rewrite <- Hyx. by apply in_map.
  - destruct Hk as [Hk|Hk]; [done|]. destruct (IH Hnd' Hk) as (y & Hy & Hky & Hf).
    exists y. split; [by right|]. done.
Qed.

End UniqueKey.

Module FeaturesProps.
Import FeaturesSection.

Lemma triggers_NoDup : NoDup triggers.
Proof. apply (bool_decide_unpack _). vm_compute. reflexivity. Qed.

Lemma reach_active_trigger s : reach s -> In (activeTab s) triggers.
Proof. induction 1; [by vm_compute; left | done]. Qed.

(** C26: the Features tabs always show one panel.  In every state the
    section can reach (from ['connect'], by clicking triggers), exactly
    one trigger is highlighted and exactly one panel is mounted, and they
    are the same feature: the one whose id is [activeTab]. *)
Theorem features_single_panel s :
  reach s ->
  exists f, In f featuresList /\ id f = activeTab s /\ rendered s = [f] /\ active_triggers s = [id f].
Proof.
  intros Hr. pose proof (reach_active_trigger s Hr) as Hin.
  destruct (filter_key_unique id featuresList (activeTab s) triggers_NoDup Hin) as (f & Hf & Hid & Hr').
  exists f. do 3 (split; [done|]).
  destruct (filter_key_unique (fun v => v) triggers (activeTab s)) as (v & Hv & Hkv & Ht);
    [by rewrite map_id; apply triggers_NoDup | by rewrite map_id |].
  unfold active_triggers. rewrite Ht, Hkv. by rewrite Hid.
Qed.

(** Clicking "Transparent Donations" after "AI Recommendations". *)
Lemma features_single_panel_witness :
  exists f, In f featuresList /\ id f = "donations" /\
    rendered {| activeTab := "donations" |} = [f] /\ active_triggers {| activeTab := "donations" |} = [id f].
Proof.
  apply (features_single_panel {| activeTab := "donations" |}).
  apply (reach_click (onValueChange initial "ai")); [|vm_compute; tauto].
  apply reach_click; [constructor | vm_compute; tauto].
Defined.

End FeaturesProps.

Module CardProps.
Import HomeFeatureCard.

(** The stages of the fade-in through the card's life: none before the
    effect runs, exactly one while mounted, at most one after the cleanup
    (which disconnects the observer but leaves a scheduled timer). *)
Lemma card_reach_inv s :
  reach s ->
  (phase s = Rendered -> s = initial) /\
  (phase s = Mounted -> stages s = 1%nat) /\
  (phase s = Unmounted -> observing s = false /\ (stages s <= 1)%nat).
Proof.
  induction 1 as [|s ev s' Hr IH Hs]; [done|].
  destruct s as [ph o p v]; destruct IH as (H1 & H2 & H3); cbn [phase] in H1, H2, H3.
  destruct ph;
    [specialize (H1 eq_refl); injection H1 as -> -> -> | specialize (H2 eq_refl) | specialize (H3 eq_refl)];
    destruct ev as [| [] | |]; cbn in Hs; try discriminate;
    repeat match goal with
    | H : (if ?b then _ else _) = Some _ |- _ => destruct b
    | H : match ?p with O => _ | S _ => _ end = Some _ |- _ => destruct p
    end; try discriminate; injection Hs as <-;
    unfold stages in *; cbn [phase observing pending isVisible is_mounted] in *;
    repeat split; intros; try discriminate; destruct_and?;
    repeat match goal with b : bool |- _ => destruct b end; cbn in *; lia.
Qed.

(** C27: the fade-in of a Home feature card is scheduled at most once.  In
    every reachable state the observer, the timer and the shown card
    account for at most one stage together (so no second timer is ever
    set, and a shown card has no timer left), and a mounted card is always
    in exactly one of them.  After unmount the observer is disconnected,
    but the cleanup does not clear the timer: an unmounted card may still
    hold one pending [setIsVisible(true)]. *)
Theorem feature_card_stages s :
  reach s ->
  (stages s <= 1)%nat /\ (is_mounted (phase s) = true -> stages s = 1%nat) /\
  (phase s = Unmounted -> observing s = false).
Proof.
  intros Hr. destruct (card_reach_inv s Hr) as (H1 & H2 & H3).
  destruct (phase s) eqn:Hp; cbn [is_mounted].
  - rewrite (H1 eq_refl). split; [|split]; intros; done || (cbn; lia).
  - rewrite (H2 eq_refl). split; [lia|done].
  - destruct (H3 eq_refl). split; [done|]. split; [done|]. by intros _.
Qed.

(** Scrolled into view and unmounted before the delay elapsed: the timer
    is still pending after the cleanup. *)
Lemma feature_card_stages_witness :
  let s := mkCard Unmounted false 1 false in
  (stages s <= 1)%nat /\ (is_mounted (phase s) = true -> stages s = 1%nat) /\
  (phase s = Unmounted -> observing s = false).
Proof.
  apply feature_card_stages.
  apply (reach_step (mkCard Mounted false 1 false) Unmount); [|reflexivity].
  apply (reach_step (mkCard Mounted true 0 false) (Entry true)); [|reflexivity].
  apply (reach_step initial Mount); [constructor|reflexivity].
Defined.

(** C28: a mounted feature card always fades in.  From every reachable
    state of a mounted card, the observer reporting the card in view and
    the timer firing (no unmount in between, at most two events) make it
    visible. *)
Theorem feature_card_reveal s :
  reach s -> phase s = Mounted ->
  exists evs s', (List.length evs <= 2)%nat /\ ~ In Unmount evs /\ run s evs = Some s' /\
    isVisible s' = true.
Proof.
  intros Hr Hp. destruct (card_reach_inv s Hr) as (_ & H2 & _). specialize (H2 Hp).
  destruct s as [ph o p v]; cbn in Hp; subst ph. unfold stages in H2; cbn in H2.
  destruct o, v, p as [|[|p]]; cbn in H2; try lia.
  - exists [Entry true; TimerFire], (mkCard Mounted false 0 true).
    split; [cbn; lia|]. split; [|done]. intros [H|[H|[]]]; discriminate.
  - exists [], (mkCard Mounted false 0 true). split; [cbn; lia|]. split; [intros []|done].
  - exists [TimerFire], (mkCard Mounted false 0 true).
    split; [cbn; lia|]. split; [|done]. intros [H|[]]; discriminate.
Qed.

(** The card just mounted, before it has been scrolled into view. *)
Lemma feature_card_reveal_witness :
  exists evs s', (List.length evs <= 2)%nat /\ ~ In Unmount evs /\
    run (mkCard Mounted true 0 false) evs = Some s' /\ isVisible s' = true.
Proof.
  apply feature_card_reveal; [|reflexivity].
  apply (reach_step initial Mount); [constructor|reflexivity].
Defined.

End CardProps.
