(* ===== verification/Listeners.v ===== *)
(** * Listeners: DOM listeners registered by a component's effect

    Hero (src/src/components/home/Hero.tsx, lines 8-21) and Index
    (src/src/pages/Index.tsx, lines 10-29) each register one listener in a
    [useEffect] with no dependencies (['scroll'] on [window], ['click'] on
    [document]) and return a cleanup that removes the same function.
    [ListenerEffect] is that pattern for any handler.  The component goes
    through React 18's order:

    - render;
    - the commit, which attaches the component's ref;
    - the passive effect, which adds the listener;
    - the unmount's commit, which detaches the ref (it becomes [null]);
    - the passive cleanup, which removes the listener.

    The target holds some number of copies of the listener, and a
    dispatched event runs each copy once.  A copy that throws (Hero
    writing [heroRef.current.style] through a [null] ref) is counted in
    [errors]: the browser reports the error and goes on.

    [HeroParallax] and [IndexClick] instantiate the pattern with the two
    handlers. *)

From S2P Require Import Prelude JsString Landing.
From Stdlib Require Import QArith.

Local Open Scope string_scope.

Module ListenerEffect.

Inductive Phase : Type := Rendered | Attached | Listening | Detached | Unmounted.

(** The phases in which the listener's effect has run and its cleanup has
    not, and those in which the ref is attached. *)
Definition registered_phase (p : Phase) : bool :=
  match p with Listening | Detached => true | _ => false end.

Definition ref_phase (p : Phase) : bool :=
  match p with Attached | Listening => true | _ => false end.

Inductive LEvent (Ev : Type) : Type :=
  | Commit | RunEffect | Dispatch (e : Ev) | CommitUnmount | RunCleanup.
Arguments Commit {Ev}. Arguments RunEffect {Ev}. Arguments Dispatch {Ev} e.
Arguments CommitUnmount {Ev}. Arguments RunCleanup {Ev}.

Section Effect.
Context {St Ev Out : Type}.

(** The listener: from the ref's current value (attached or [null]), the
    component's state and the event, [None] when it throws, or the new
    state and the DOM calls it makes. *)
Variable handler : bool -> St -> Ev -> option (St * list Out).

Record LState : Type := mkL {
  phase : Phase;
  listeners : nat;     (* copies of the listener the target holds *)
  ref : bool;          (* ref.current !== null *)
  inner : St;
  out : list Out;      (* the DOM calls made so far *)
  errors : nat }.      (* the listener runs that threw *)

Definition initial (i0 : St) : LState := mkL Rendered 0 false i0 [] 0.

(** One copy of the listener run on [e]. *)
Definition run_listener (e : Ev) (s : LState) : LState :=
  match handler (ref s) (inner s) e with
  | Some (i, o) => mkL (phase s) (listeners s) (ref s) i (out s ++ o) (errors s)
  | None => mkL (phase s) (listeners s) (ref s) (inner s) (out s) (errors s + 1)
  end.

(** [addEventListener] in the effect, [removeEventListener] of the same
    function in its cleanup; a dispatch runs every registered copy. *)
Definition step (s : LState) (ev : LEvent Ev) : option LState :=
  match ev, phase s with
  | Commit, Rendered => Some (mkL Attached (listeners s) true (inner s) (out s) (errors s))
  | RunEffect, Attached => Some (mkL Listening (listeners s + 1) (ref s) (inner s) (out s) (errors s))
  | Dispatch e, _ => Some (Nat.iter (listeners s) (run_listener e) s)
  | CommitUnmount, Listening => Some (mkL Detached (listeners s) false (inner s) (out s) (errors s))
  | RunCleanup, Detached => Some (mkL Unmounted (listeners s - 1) (ref s) (inner s) (out s) (errors s))
  | _, _ => None
  end.

Inductive reach (i0 : St) : LState -> Prop :=
  | reach_init : reach i0 (initial i0)
  | reach_step s ev s' : reach i0 s -> step s ev = Some s' -> reach i0 s'.

End Effect.

End ListenerEffect.

(** ** Hero's parallax *)

Module HeroParallax.
Import ListenerEffect.

(** [translateY(${scrollY * 0.3}px)]: the offset, as the rational
    [scrollY * 3/10] (the double product and its printing are not
    modelled). *)
Definition parallax_offset (scrollY : Z) : Q := inject_Z scrollY * (3 # 10).

(** [handleScroll]: the listener writes the background's inline transform
    (its state, [None] before the first write) when [heroRef.current] is
    set, and makes no other DOM call. *)
Definition handleScroll (heroRef : bool) (transform : option Q) (scrollY : Z)
    : option (option Q * list Empty_set) :=
  if heroRef then Some (Some (parallax_offset scrollY), []) else Some (transform, []).

Definition step : LState -> LEvent Z -> option LState := ListenerEffect.step handleScroll.

Definition reach : LState -> Prop := ListenerEffect.reach handleScroll None.

End HeroParallax.

(** ** Index's smooth-scroll click listener *)

Module IndexClick.
Import ListenerEffect.

Section Document.
(** The document's elements by id, with their [offsetTop]. *)
Variable getElementById : string -> option Z.

(** The listener ignores the ref; the event is the clicked element's
    [data-scroll-to] attribute. *)
Definition handler (_ : bool) (_ : unit) (attr : option string)
    : option (unit * list IndexPage.dom_call) :=
  Some (tt, IndexPage.handleScrollTo attr getElementById).

Definition step : LState -> LEvent (option string) -> option LState :=
  ListenerEffect.step handler.

Definition reach : LState -> Prop := ListenerEffect.reach handler tt.

End Document.

End IndexClick.

(** ** Properties *)

Module ListenerProps.
Import ListenerEffect.

Section Generic.
Context {St Ev Out : Type} (handler : bool -> St -> Ev -> option (St * list Out)).

Lemma run_listener_frame e s :
  let s' := run_listener handler e s in
  phase s' = phase s /\ listeners s' = listeners s /\ ref s' = ref s.
Proof. unfold run_listener. by destruct (handler _ _ _) as [[]|]. Qed.

Lemma iter_run_listener_frame n e s :
  let s' := Nat.iter n (run_listener handler e) s in
  phase s' = phase s /\ listeners s' = listeners s /\ ref s' = ref s.
Proof.
  induction n as [|n IH]; [done|]. rewrite Nat.iter_succ. cbv zeta in *.
  destruct (run_listener_frame e (Nat.iter n (run_listener handler e) s)) as (E1 & E2 & E3).
  by rewrite E1, E2, E3.
Qed.

(** The listener is registered exactly once between the effect and its
    cleanup and never otherwise, and the ref is set exactly from the
    commit to the unmount's commit. *)
Lemma reach_registered i0 s :
  reach handler i0 s ->
  listeners s = (if registered_phase (phase s) then 1 else 0)%nat /\ ref s = ref_phase (phase s).
Proof.
  induction 1 as [|s ev s' _ [Hl Hr] Hs]; [done|].
  destruct ev as [| |e| |]; cbn in Hs.
  3: { injection Hs as <-. destruct (iter_run_listener_frame (listeners s) e s) as (E1 & E2 & E3).
       cbv zeta in *. by rewrite E1, E2, E3. }
  all: destruct (phase s); try discriminate; injection Hs as <-; cbn; by rewrite ?Hl, ?Hr.
Qed.

(** A dispatched event runs the listener once while it is registered and
    not at all otherwise. *)
Lemma reach_dispatch i0 s e :
  reach handler i0 s ->
  step handler s (Dispatch e) = Some (if registered_phase (phase s) then run_listener handler e s else s).
Proof.
  intros Hr. destruct (reach_registered i0 s Hr) as [Hl _]. cbn. rewrite Hl.
  by destruct (registered_phase (phase s)).
Qed.

(** A listener that never throws leaves no error behind. *)
Lemma reach_no_errors i0 s :
  (forall r i e, handler r i e <> None) -> reach handler i0 s -> errors s = 0%nat.
Proof.
  intros Hsafe. induction 1 as [|s ev s' Hr IH Hs]; [done|].
  destruct ev as [| |e| |].
  3: { rewrite (reach_dispatch _ _ _ Hr) in Hs. injection Hs as <-.
       destruct (registered_phase _); [|done]. unfold run_listener.
       destruct (handler _ _ _) as [[]|] eqn:E; [by cbn|by destruct (Hsafe _ _ _ E)]. }
  all: cbn in Hs; destruct (phase s); try discriminate; by injection Hs as <-.
Qed.

End Generic.

Import HeroParallax IndexClick.

Lemma hero_dispatch s y s' :
  HeroParallax.reach s -> HeroParallax.step s (Dispatch y) = Some s' ->
  inner s' = (if registered_phase (phase s) && ref_phase (phase s) then Some (parallax_offset y)
              else inner s).
Proof.
  intros Hr Hs. unfold HeroParallax.step in Hs. rewrite (reach_dispatch _ _ _ _ Hr) in Hs.
  injection Hs as <-. destruct (reach_registered _ _ _ Hr) as [_ Href].
  destruct (registered_phase _); [|done]. unfold run_listener, handleScroll. rewrite Href.
  by destruct (ref_phase _).
Qed.

(** C15: the two listener effects are balanced and Hero's guard is
    needed.  In every state Hero's parallax can reach, its scroll
    listener is registered exactly from its effect to its cleanup, and no
    run of it throws, even a scroll between the unmount's commit (which
    detaches [heroRef]) and the cleanup.  A scroll writes the transform
    [translateY(scrollY * 0.3px)] exactly while the listener is registered
    and the ref attached, and changes nothing otherwise.  Index's click
    listener is also registered exactly from its effect to its cleanup.
    A click makes [handleScrollTo]'s DOM calls once while the listener is
    registered, and none before the effect or after the cleanup. *)
Theorem listeners_balanced :
  (forall s, HeroParallax.reach s ->
     errors s = 0%nat /\ listeners s = (if registered_phase (phase s) then 1 else 0)%nat /\
     forall y s', HeroParallax.step s (Dispatch y) = Some s' ->
       inner s' = (if registered_phase (phase s) && ref_phase (phase s) then Some (parallax_offset y)
                   else inner s)) /\
  (forall getElementById s, IndexClick.reach getElementById s ->
     listeners s = (if registered_phase (phase s) then 1 else 0)%nat /\
     forall attr s', IndexClick.step getElementById s (Dispatch attr) = Some s' ->
       out s' = (out s ++ if registered_phase (phase s)
                          then IndexPage.handleScrollTo attr getElementById else [])%list).
Proof.
  split.
  - intros s Hr. split; [|split; [apply (reach_registered _ _ _ Hr)|intros; by eapply hero_dispatch]].
    apply (reach_no_errors handleScroll None); [|done]. intros [] ? ? ?; discriminate.
  - intros g s Hr. split; [apply (reach_registered _ _ _ Hr)|]. intros attr s' Hs.
    unfold IndexClick.step in Hs. rewrite (reach_dispatch _ _ _ _ Hr) in Hs. injection Hs as <-.
    destruct (registered_phase _); [done|by rewrite app_nil_r].
Qed.

(** Hero committed, its effect run, then unmounted but not yet cleaned
    up: the listener is still registered, the ref is [null], and a
    scroll neither throws nor writes. *)
Lemma listeners_balanced_witness :
  let s := mkL Detached 1 false (None : option Q) ([] : list Empty_set) 0 in
  errors s = 0%nat /\ listeners s = 1%nat /\
  forall y s', HeroParallax.step s (Dispatch y) = Some s' -> inner s' = None.
Proof.
  apply (proj1 listeners_balanced).
  apply (ListenerEffect.reach_step _ _ (mkL Listening 1 true None [] 0) CommitUnmount); [|reflexivity].
  apply (ListenerEffect.reach_step _ _ (mkL Attached 0 true None [] 0) RunEffect); [|reflexivity].
  apply (ListenerEffect.reach_step _ _ (ListenerEffect.initial None) Commit); [constructor|reflexivity].
Defined.

End ListenerProps.
