(* ===== verification/Forms.v ===== *)
(** * Forms: Login, Register and AdminRegister

    The three pages (src/src/pages/Login.tsx, Register.tsx and
    admin/Register.tsx) declare a zod schema, validate it on submit with
    [handleSubmit(onSubmit)], show the first issue of each field under it,
    and run [onSubmit] only on valid data.  Text inputs are registered with
    [register(...)], so they always hold a string; the three selects of the
    registration form are only ever written by [setValue] in
    [onValueChange], so until the user picks an option their value is
    [undefined] ([None]).  [view] is what each form shows after a
    submit: every field with the message rendered under it, which is the
    first issue zod reports for that field.

    None of the three forms has [noValidate], so a click on the submit
    button first runs the browser's validation of the native inputs
    ([Html.form_submit]).  A non-empty [type="email"] input must hold an
    HTML e-mail address and a [type="url"] input a parseable URL, or the
    submit is blocked and [handleSubmit] never runs.  [attempt] is that
    click.

    - Login: [onSubmit] navigates to "/admin" when the e-mail contains
      "admin" (case-sensitive [includes]) and to "/dashboard" otherwise.
    - Register: [onSubmit] classifies the user as "Alumni" when
      [parseInt(batchYear) <= currentYear] and "Student" otherwise, shows
      "Registration successful!" and navigates to "/login".  The batch
      year options are [currentYear - 5 + i] for [i] in 0..9, offered as
      [year.toString()].
    - AdminRegister: [onSubmit] shows "Admin registration successful!" and
      navigates to "/admin"; the admin code is only required to have six
      characters. *)

From S2P Require Import Prelude JsString Url Zod Html.

Local Open Scope string_scope.

Import Zod Html.

(** The message [react-hook-form] renders under field [f]:
    [errors.f && errors.f.message]. *)
Definition error_message (errs : list (string * string)) (f : string) : option string :=
  option_map snd (List.find (fun e => String.eqb (fst e) f) errs).

(** A field as a page renders it: its id, label and input type, and the
    message shown under it. *)
Record FieldView : Type := mkFieldView {
  fv_id : string; fv_label : string; fv_type : string; fv_error : option string }.

Definition field_views (fields : list (string * string * string)) (errs : list (string * string))
    : list FieldView :=
  map (fun '(i, l, t) => mkFieldView i l t (error_message errs i)) fields.

(** The [errors] object after a submit: the resolver's errors, or none
    when the handler ran. *)
Definition errors_after (r : list (string * string) + list effect) : list (string * string) :=
  match r with inl errs => errs | inr _ => [] end.

Module LoginPage.

Record LoginForm : Type := { email : string; password : string }.

Definition loginSchema (f : LoginForm) : list (string * list string) :=
  [("email", z_string [Email "Invalid email address"] (Some (email f)));
   ("password", z_string [Min 6 "Password must be at least 6 characters"] (Some (password f)))].

Definition onSubmit (data : LoginForm) : list effect :=
  if includes (email data) "admin" then [Navigate "/admin" false] else [Navigate "/dashboard" false].

Definition submit (f : LoginForm) : list (string * string) + list effect :=
  handleSubmit (loginSchema f) (onSubmit f).

Definition fields : list (string * string * string) :=
  [("email", "Email", "email"); ("password", "Password", "password")].

(** The form after a submit that reached the handler. *)
Definition view (f : LoginForm) : list FieldView := field_views fields (errors_after (submit f)).

(** The inputs in tree order, with their types and values. *)
Definition inputs (f : LoginForm) : list (string * string * string) :=
  [("email", "email", email f); ("password", "password", password f)].

(** Clicking "Sign In": the browser checks the inputs, then
    [handleSubmit(onSubmit)] runs. *)
Definition attempt (f : LoginForm) : Outcome (list (string * string) + list effect) :=
  form_submit (inputs f) (submit f).

End LoginPage.

Module RegisterPage.

Record RegistrationForm : Type := {
  fullName : string;
  email : string;
  password : string;
  degree : option string;
  batchYear : option string;
  collegeName : option string;
  phoneNumber : string;
  linkedinProfile : string;
}.

Definition has_upper (s : string) : bool := existsb is_upper (chars s).   (* /[A-Z]/ *)
Definition has_lower (s : string) : bool := existsb is_lower (chars s).   (* /[a-z]/ *)
Definition has_digit (s : string) : bool := existsb is_digit (chars s).   (* /[0-9]/ *)

(** /^[0-9]{10}$/ *)
Definition ten_digits (s : string) : bool :=
  (String.length s =? 10)%nat && forallb is_digit (chars s).

Definition passwordChecks : list check :=
  [Min 8 "Password must be at least 8 characters";
   Regex has_upper "Password must contain at least one uppercase letter";
   Regex has_lower "Password must contain at least one lowercase letter";
   Regex has_digit "Password must contain at least one number"].

Definition registrationSchema (f : RegistrationForm) : list (string * list string) :=
  [("fullName", z_string [Min 2 "Name must be at least 2 characters"] (Some (fullName f)));
   ("email", z_string [Email "Invalid email address"] (Some (email f)));
   ("password", z_string passwordChecks (Some (password f)));
   ("degree", z_string [Min 1 "Please select a degree"] (degree f));
   ("batchYear", z_string [Min 1 "Please select a batch year"] (batchYear f));
   ("collegeName", z_string [Min 1 "Please select a college"] (collegeName f));
   ("phoneNumber", z_string [Regex ten_digits "Phone number must be 10 digits"] (Some (phoneNumber f)));
   ("linkedinProfile", z_optional_or_empty [Url "Invalid LinkedIn URL"] (Some (linkedinProfile f)))].

(** [Array.from({ length: 10 }, (_, i) => currentYear - 5 + i)] *)
Definition years (currentYear : nat) : list nat := map (fun i => currentYear - 5 + i) (seq 0 10).

Inductive Role : Type := Alumni | Student.

(** [parseInt(data.batchYear) <= currentYear ? 'Alumni' : 'Student'];
    a [NaN] compares false. *)
Definition role_of (currentYear : nat) (batchYear : string) : Role :=
  match parseInt batchYear with
  | Some y => if (y <=? Z.of_nat currentYear)%Z then Alumni else Student
  | None => Student
  end.

Definition onSubmit (data : RegistrationForm) : list effect :=
  [ToastSuccess "Registration successful!"; Navigate "/login" false].

Definition submit (f : RegistrationForm) : list (string * string) + list effect :=
  handleSubmit (registrationSchema f) (onSubmit f).

Definition fields : list (string * string * string) :=
  [("fullName", "Full Name", "text"); ("email", "Email", "email"); ("password", "Password", "password");
   ("degree", "Degree (Course)", "select"); ("batchYear", "Batch Year", "select");
   ("collegeName", "College Name", "select"); ("phoneNumber", "Phone Number", "tel");
   ("linkedinProfile", "LinkedIn Profile (Optional)", "url")].

Definition view (f : RegistrationForm) : list FieldView := field_views fields (errors_after (submit f)).

(** The native inputs in tree order (the three Radix selects render no
    constrained input). *)
Definition inputs (f : RegistrationForm) : list (string * string * string) :=
  [("fullName", "text", fullName f); ("email", "email", email f); ("password", "password", password f);
   ("phoneNumber", "tel", phoneNumber f); ("linkedinProfile", "url", linkedinProfile f)].

Definition attempt (f : RegistrationForm) : Outcome (list (string * string) + list effect) :=
  form_submit (inputs f) (submit f).

(** The options of the three selects: value and label. *)
Definition degreeOptions : list (string * string) :=
  [("btech", "B.Tech"); ("mtech", "M.Tech"); ("bca", "BCA"); ("mca", "MCA"); ("bba", "BBA"); ("mba", "MBA")].

Definition yearOptions (currentYear : nat) : list (string * string) :=
  map (fun y => (number_toString y, number_toString y)) (years currentYear).

Definition collegeOptions : list (string * string) :=
  [("iit", "IIT"); ("nit", "NIT"); ("bits", "BITS"); ("vit", "VIT"); ("manipal", "Manipal")].

(** [onValueChange={(value) => setValue(field, value)}] *)
Definition selectDegree (f : RegistrationForm) (v : string) : RegistrationForm :=
  Build_RegistrationForm (fullName f) (email f) (password f) (Some v) (batchYear f) (collegeName f)
    (phoneNumber f) (linkedinProfile f).
Definition selectBatchYear (f : RegistrationForm) (v : string) : RegistrationForm :=
  Build_RegistrationForm (fullName f) (email f) (password f) (degree f) (Some v) (collegeName f)
    (phoneNumber f) (linkedinProfile f).
Definition selectCollege (f : RegistrationForm) (v : string) : RegistrationForm :=
  Build_RegistrationForm (fullName f) (email f) (password f) (degree f) (batchYear f) (Some v)
    (phoneNumber f) (linkedinProfile f).

End RegisterPage.

Module AdminRegisterPage.

Record AdminRegistrationForm : Type := {
  fullName : string;
  email : string;
  password : string;
  adminCode : string;
}.

Definition adminRegistrationSchema (f : AdminRegistrationForm) : list (string * list string) :=
  [("fullName", z_string [Min 2 "Name must be at least 2 characters"] (Some (fullName f)));
   ("email", z_string [Email "Invalid email address"] (Some (email f)));
   ("password", z_string RegisterPage.passwordChecks (Some (password f)));
   ("adminCode", z_string [Min 6 "Admin code must be at least 6 characters"] (Some (adminCode f)))].

Definition onSubmit (data : AdminRegistrationForm) : list effect :=
  [ToastSuccess "Admin registration successful!"; Navigate "/admin" false].

Definition submit (f : AdminRegistrationForm) : list (string * string) + list effect :=
  handleSubmit (adminRegistrationSchema f) (onSubmit f).

Definition fields : list (string * string * string) :=
  [("fullName", "Full Name", "text"); ("email", "Email", "email"); ("password", "Password", "password");
   ("adminCode", "Admin Code", "password")].

Definition view (f : AdminRegistrationForm) : list FieldView := field_views fields (errors_after (submit f)).

Definition inputs (f : AdminRegistrationForm) : list (string * string * string) :=
  [("fullName", "text", fullName f); ("email", "email", email f); ("password", "password", password f);
   ("adminCode", "password", adminCode f)].

Definition attempt (f : AdminRegistrationForm) : Outcome (list (string * string) + list effect) :=
  form_submit (inputs f) (submit f).

End AdminRegisterPage.

(** ** Properties *)

Lemma error_message_resolve_skip g ms rest f :
  g <> f -> error_message (resolve ((g, ms) :: rest)) f = error_message (resolve rest) f.
Proof.
  intros Hne. destruct ms as [|m ms]; [done|]. unfold error_message. simpl.
  by rewrite (proj2 (String.eqb_neq g f) Hne).
Qed.

Lemma error_message_resolve_hit f m ms rest :
  error_message (resolve ((f, m :: ms) :: rest)) f = Some m.
Proof. unfold error_message. simpl. by rewrite String.eqb_refl. Qed.

Lemma handleSubmit_inr_iff issues e :
  handleSubmit issues e = inr e <-> Forall (fun fi => snd fi = []) issues.
Proof.
  rewrite <- resolve_nil_iff. unfold handleSubmit.
  destruct (resolve issues); split; congruence.
Qed.

Lemma z_single_ok c s : z_string [c] (Some s) = [] <-> check_passes c s = true.
Proof. rewrite z_string_ok, Forall_cons_iff. split; [by intros []|]. intros H. by split. Qed.

Lemma z_min_ok n m v :
  z_string [Min n m] v = [] <-> exists s, v = Some s /\ (n <= String.length s)%nat.
Proof.
  destruct v as [s|]; [|split; [done|by intros (? & ? & _)]].
  rewrite z_single_ok. simpl. rewrite Nat.leb_le. split; [eauto|by intros (? & [= <-] & ?)].
Qed.

Lemma nonempty_length s : (1 <= String.length s)%nat <-> s <> "".
Proof. destruct s; simpl; split; try done; lia. Qed.

(** ** What the forms show after a submit *)

Lemma errors_after_handleSubmit issues e : errors_after (handleSubmit issues e) = resolve issues.
Proof. unfold handleSubmit. by destruct (resolve issues) eqn:E. Qed.

Lemma error_message_absent issues f :
  ~ In f (map fst issues) -> error_message (resolve issues) f = None.
Proof.
  induction issues as [|[g ms] rest IH]; intros Hf; [done|]. cbn [map fst] in Hf.
  rewrite error_message_resolve_skip by (intros ->; apply Hf; by left).
  apply IH. intros H. apply Hf. by right.
Qed.

(** With distinct field names, the message under a field is the first
    issue zod reports for it, and nothing when it has none. *)
Lemma error_message_first issues fi :
  NoDup (map fst issues) -> In fi issues -> error_message (resolve issues) (fst fi) = head (snd fi).
Proof.
  induction issues as [|[g ms] rest IH]; [done|]. intros Hnd Hin. cbn [map fst] in Hnd.
  inversion Hnd as [|? ? Hg Hnd']; subst. rewrite list_elem_of_In in Hg.
  destruct Hin as [<-|Hin]; cbn [fst snd].
  - destruct ms as [|m ms]; [cbn [resolve head]; by apply error_message_absent|apply error_message_resolve_hit].
  - rewrite error_message_resolve_skip; [by apply IH|]. intros Hgf. apply Hg. rewrite Hgf. by apply in_map.
Qed.

Lemma field_views_errors (fields : list (string * string * string)) issues :
  map (fun '(i, _, _) => i) fields = map fst issues -> NoDup (map fst issues) ->
  map fv_error (field_views fields (resolve issues)) = map (fun fi => head (snd fi)) issues.
Proof.
  intros Hk Hnd. unfold field_views. rewrite map_map.
  transitivity (map (fun i => error_message (resolve issues) i) (map (fun '(i, _, _) => i) fields)).
  { rewrite map_map. apply map_ext. by intros [[i l] t]. }
  rewrite Hk, map_map. apply map_ext_in. intros fi Hfi. by apply error_message_first.
Qed.

(** After a submit, each of the three forms shows under every field the
    first issue its schema reports for that field, and nothing under a
    valid field. *)
Lemma forms_show_first_issue fl fr fa :
  map fv_error (LoginPage.view fl) = map (fun fi => head (snd fi)) (LoginPage.loginSchema fl) /\
  map fv_error (RegisterPage.view fr) = map (fun fi => head (snd fi)) (RegisterPage.registrationSchema fr) /\
  map fv_error (AdminRegisterPage.view fa) =
    map (fun fi => head (snd fi)) (AdminRegisterPage.adminRegistrationSchema fa).
Proof.
  unfold LoginPage.view, RegisterPage.view, AdminRegisterPage.view,
    LoginPage.submit, RegisterPage.submit, AdminRegisterPage.submit.
  rewrite !errors_after_handleSubmit.
  split; [|split]; apply field_views_errors; cbn [map fst LoginPage.loginSchema RegisterPage.registrationSchema
    AdminRegisterPage.adminRegistrationSchema]; try reflexivity;
    apply (bool_decide_unpack _); vm_compute; reflexivity.
Qed.

(** [handleSubmit(onSubmit)] on the login form runs [onSubmit] exactly
    when the e-mail matches zod's pattern and the password has six
    characters; otherwise it only records the field errors. *)
Lemma login_handleSubmit_spec f :
  LoginPage.submit f =
    if email_ok (LoginPage.email f) && (6 <=? String.length (LoginPage.password f))%nat
    then inr [Navigate (if includes (LoginPage.email f) "admin" then "/admin" else "/dashboard") false]
    else inl (resolve (LoginPage.loginSchema f)).
Proof.
  unfold LoginPage.submit, LoginPage.onSubmit, handleSubmit, LoginPage.loginSchema,
    z_string, check_passes.
  cbn [List.filter].
  destruct (email_ok (LoginPage.email f)), (6 <=? String.length (LoginPage.password f))%nat,
    (includes (LoginPage.email f) "admin"); reflexivity.
Qed.

(** C10: what clicking "Sign In" does.  When the e-mail field is
    non-empty and not a valid e-mail address for the browser, the browser
    blocks the submit at that field and nothing runs.  Otherwise
    [handleSubmit] validates with zod: when the e-mail matches zod's
    pattern and the password has six characters, it navigates to "/admin"
    if the e-mail contains "admin" and to "/dashboard" otherwise.  In
    every other case it only records the field errors. *)
Theorem login_attempt_spec f :
  LoginPage.attempt f =
    if String.eqb (LoginPage.email f) "" || html_email_ok (LoginPage.email f) then
      Submitted
        (if email_ok (LoginPage.email f) && (6 <=? String.length (LoginPage.password f))%nat
         then inr [Navigate (if includes (LoginPage.email f) "admin" then "/admin" else "/dashboard") false]
         else inl (resolve (LoginPage.loginSchema f)))
    else Blocked "email".
Proof.
  rewrite <- login_handleSubmit_spec. unfold LoginPage.attempt, form_submit, LoginPage.inputs, input_valid.
  cbn [List.find]. destruct (String.eqb (LoginPage.email f) "" || _); cbn; [|done].
  by destruct (String.eqb (LoginPage.password f) "").
Qed.

(** The browser and zod disagree on e-mail addresses: "abc" and
    "x@a-.com" are blocked before zod runs (the second is valid for zod),
    while "a@b" reaches zod, which reports its message. *)
Lemma login_attempt_examples :
  LoginPage.attempt (LoginPage.Build_LoginForm "abc" "123456") = Blocked "email" /\
  LoginPage.attempt (LoginPage.Build_LoginForm "x@a-.com" "123456") = Blocked "email" /\
  email_ok "x@a-.com" = true /\
  LoginPage.attempt (LoginPage.Build_LoginForm "a@b" "123456") =
    Submitted (inl [("email", "Invalid email address")]).
Proof. vm_compute. repeat split. Qed.

Import RegisterPage.

Lemma role_of_number cy y : role_of cy (number_toString y) = if (y <=? cy)%nat then Alumni else Student.
Proof.
  unfold role_of. rewrite parseInt_number_toString.
  destruct (y <=? cy)%nat eqn:E; reflect_arith.
  - by rewrite (proj2 (Z.leb_le _ _)) by lia.
  - by rewrite (proj2 (Z.leb_gt _ _)) by lia.
Qed.

(** C25: For every batch-year option the form offers
    ([currentYear - 5 .. currentYear + 4], as [year.toString()]), the role
    computed on submit is "Alumni" exactly when the year is at most the
    current year, so six of the ten options classify as Alumni (spec 8). *)
Theorem register_role_options cy :
  (5 <= cy)%nat ->
  (forall y, In y (years cy) ->
     role_of cy (number_toString y) = if (y <=? cy)%nat then Alumni else Student) /\
  List.length (List.filter (fun y => match role_of cy (number_toString y) with
                                     | Alumni => true | Student => false end) (years cy)) = 6%nat.
Proof.
  intros Hcy. split; [intros y _; apply role_of_number|].
  rewrite (filter_ext_in _ (fun y => (y <=? cy)%nat))
    by (intros y _; rewrite role_of_number; by destruct (y <=? cy)%nat).
  unfold years. cbn [seq map List.filter].
  repeat (rewrite (proj2 (Nat.leb_le _ cy)) by lia).
  repeat (rewrite (proj2 (Nat.leb_gt _ cy)) by lia).
  reflexivity.
Qed.

Lemma register_role_options_witness :
  role_of 2026 (number_toString 2026) = Alumni /\ role_of 2026 (number_toString 2027) = Student.
Proof.
  destruct (register_role_options 2026 ltac:(lia)) as [H _].
  split; [exact (H 2026 ltac:(vm_compute; tauto)) | exact (H 2027 ltac:(vm_compute; tauto))].
Defined.

(** C23: while the degree select has not been used its value is
    [undefined], so the message shown under it is zod's "Required", not
    the schema's "Please select a degree" (which only an empty string could
    trigger, and no option is empty). *)
Theorem register_unselected_degree_required f :
  degree f = None ->
  error_message (resolve (registrationSchema f)) "degree" = Some "Required".
Proof.
  intros Hd. unfold registrationSchema.
  rewrite !error_message_resolve_skip by discriminate.
  rewrite Hd. apply error_message_resolve_hit.
Qed.

(** A form filled in except for the degree select. *)
Lemma register_unselected_degree_required_witness :
  error_message (resolve (registrationSchema
    (Build_RegistrationForm "Ada Lovelace" "ada@linkcube.edu" "Secret123" None
       (Some "2020") (Some "Engineering College") "5551234567" ""))) "degree" = Some "Required".
Proof. exact (register_unselected_degree_required (Build_RegistrationForm "Ada Lovelace" "ada@linkcube.edu" "Secret123" None
    (Some "2020") (Some "Engineering College") "5551234567" "") eq_refl). Defined.

Lemma password_ok p :
  z_string passwordChecks (Some p) = [] <->
  (8 <= String.length p)%nat /\ has_upper p = true /\ has_lower p = true /\ has_digit p = true.
Proof.
  rewrite z_string_ok. unfold passwordChecks.
  rewrite !Forall_cons_iff. cbn [check_passes]. rewrite Nat.leb_le.
  split; [intros (? & ? & ? & ? & _); done|].
  intros (? & ? & ? & ?). repeat split; try done.
Qed.

Lemma selected_ok m v : z_string [Min 1 m] v = [] <-> exists s, v = Some s /\ s <> "".
Proof.
  rewrite z_min_ok. split; intros (s & -> & Hs); exists s; split; try done; by apply nonempty_length.
Qed.

Lemma linkedin_ok s :
  z_optional_or_empty [Url "Invalid LinkedIn URL"] (Some s) = [] <-> s = "" \/ url_ok s = true.
Proof.
  simpl. destruct (String.eqb s "") eqn:E.
  - apply String.eqb_eq in E. split; [by left|done].
  - apply String.eqb_neq in E. rewrite <- (z_single_ok (Url "Invalid LinkedIn URL")).
    simpl. split; [by right|]. by intros [?|?].
Qed.

(** [handleSubmit(onSubmit)] on the registration form runs [onSubmit]
    exactly when every field passes its schema. *)
Lemma register_handleSubmit_iff f :
  RegisterPage.submit f = inr [ToastSuccess "Registration successful!"; Navigate "/login" false] <->
  (2 <= String.length (fullName f))%nat /\ email_ok (email f) = true /\
  ((8 <= String.length (password f))%nat /\ has_upper (password f) = true /\
   has_lower (password f) = true /\ has_digit (password f) = true) /\
  (exists d, degree f = Some d /\ d <> "") /\
  (exists y, batchYear f = Some y /\ y <> "") /\
  (exists c, collegeName f = Some c /\ c <> "") /\
  ten_digits (phoneNumber f) = true /\
  (linkedinProfile f = "" \/ url_ok (linkedinProfile f) = true).
Proof.
  unfold RegisterPage.submit. rewrite handleSubmit_inr_iff. unfold registrationSchema.
  rewrite !Forall_cons_iff. cbn [snd].
  rewrite z_min_ok, (z_single_ok (Email _)), password_ok, !selected_ok,
    (z_single_ok (Regex _ _)), linkedin_ok. simpl.
  split.
  - intros ((s & [= <-] & Hs) & He & Hp & Hd & Hy & Hc & Hph & Hl & _). done.
  - intros (Hn & He & (Hp1 & Hp2 & Hp3 & Hp4) & Hd & Hy & Hc & Hph & Hl).
    repeat split; try done. by exists (fullName f).
Qed.

(** C24: the admin code is checked only for length.  Two admin
    registrations that differ only in their codes, both of at least six
    characters, have the same outcome: when the other fields are valid,
    both show "Admin registration successful!" and navigate to "/admin". *)
Theorem admin_code_unchecked name mail pw c1 c2 :
  (6 <= String.length c1)%nat -> (6 <= String.length c2)%nat ->
  AdminRegisterPage.submit (AdminRegisterPage.Build_AdminRegistrationForm name mail pw c1) =
  AdminRegisterPage.submit (AdminRegisterPage.Build_AdminRegistrationForm name mail pw c2).
Proof.
  intros H1 H2. unfold AdminRegisterPage.submit, AdminRegisterPage.adminRegistrationSchema.
  cbn [AdminRegisterPage.adminCode AdminRegisterPage.fullName AdminRegisterPage.email
       AdminRegisterPage.password].
  rewrite (proj2 (z_min_ok 6 _ (Some c1))) by eauto.
  rewrite (proj2 (z_min_ok 6 _ (Some c2))) by eauto.
  reflexivity.
Qed.

Lemma admin_code_unchecked_witness :
  AdminRegisterPage.submit
    (AdminRegisterPage.Build_AdminRegistrationForm "Ada Admin" "ada@linkcube.edu" "Secret123" "000000") =
  AdminRegisterPage.submit
    (AdminRegisterPage.Build_AdminRegistrationForm "Ada Admin" "ada@linkcube.edu" "Secret123" "letmein").
Proof.
  exact (admin_code_unchecked "Ada Admin" "ada@linkcube.edu" "Secret123" "000000" "letmein"
           ltac:(vm_compute; lia) ltac:(vm_compute; lia)).
Defined.

Lemma input_valid_email v : input_valid "email" v = String.eqb v "" || html_email_ok v.
Proof. reflexivity. Qed.

Lemma input_valid_url v : input_valid "url" v = String.eqb v "" || WhatwgUrl.parses v.
Proof. reflexivity. Qed.

(** Text, password and telephone inputs carry no type constraint. *)
Lemma input_valid_plain t v :
  t <> "email" -> t <> "url" -> input_valid t v = true.
Proof.
  intros He Hu. unfold input_valid. rewrite (proj2 (String.eqb_neq t "email") He).
  rewrite (proj2 (String.eqb_neq t "url") Hu). apply orb_true_r.
Qed.

(** C3: clicking "Register" shows "Registration successful!" and
    navigates to "/login" exactly when the browser lets the form through
    and every field passes its zod schema: a name of two characters, an
    e-mail that both the browser's pattern and zod's accept, a password
    of eight characters with an upper-case letter, a lower-case letter and
    a digit, a non-empty choice in each of the three selects, ten digits
    of phone number, and an empty LinkedIn field or one that [new URL]
    parses. *)
Theorem register_attempt_iff f :
  RegisterPage.attempt f = Submitted (inr [ToastSuccess "Registration successful!"; Navigate "/login" false]) <->
  (2 <= String.length (fullName f))%nat /\ email_ok (email f) = true /\ html_email_ok (email f) = true /\
  ((8 <= String.length (password f))%nat /\ has_upper (password f) = true /\
   has_lower (password f) = true /\ has_digit (password f) = true) /\
  (exists d, degree f = Some d /\ d <> "") /\
  (exists y, batchYear f = Some y /\ y <> "") /\
  (exists c, collegeName f = Some c /\ c <> "") /\
  ten_digits (phoneNumber f) = true /\
  (linkedinProfile f = "" \/ WhatwgUrl.parses (linkedinProfile f) = true).
Proof.
  unfold RegisterPage.attempt. rewrite form_submit_Submitted, register_handleSubmit_iff.
  unfold RegisterPage.inputs. rewrite !Forall_cons_iff.
  rewrite (input_valid_plain "text"), (input_valid_plain "password"), (input_valid_plain "tel") by done.
  rewrite input_valid_email, input_valid_url, !orb_true_iff, !String.eqb_eq.
  split.
  - intros ((_ & [Hem|Hem] & _ & _ & _ & _) & Hn & Hz & Hp & Hd & Hy & Hc & Hph & Hli);
      [by rewrite Hem in Hz|tauto].
  - intros (Hn & Hz & Hh & Hp & Hd & Hy & Hc & Hph & Hli). repeat split; tauto || constructor.
Qed.
