(* ===== verification/AuthForm.v ===== *)
(** * AuthForm: the authentication form's submit state machine

    src/src/components/auth/AuthForms.tsx keeps six [useState] values
    (password visibility, e-mail, password, name, remember-me, loading).
    [handleSubmit] sets [loading], waits on a 1500 ms timer standing in for
    the network, then shows a success toast and navigates ("/dashboard"
    with [replace] for a login form, "/login" for a sign-up form), and
    finally clears [loading].  The submit button is [disabled={loading}],
    and the browser's constraint validation of the [required] inputs runs
    before the handler.

    The model counts the calls of [handleSubmit] waiting on their timer
    ([pending]) and splits the asynchronous handler into its two halves:
    [Submit] (up to the [await]) and [TimerElapsed] (the rest: the [try]
    block's toast and navigation, or the [catch] block's error toast when
    the awaited promise rejects, then [finally]).  The awaited promise is
    [new Promise(resolve => setTimeout(resolve, 1500))], whose executor
    only resolves ([sleep_settlement]).  [Unmount] removes the component:
    its inputs and button are gone, a state update on it is dropped, and
    a pending timer still fires.  [auth_step] is the step relation, one
    rule per handler, and [reach] is the set of reachable states together
    with the effects emitted on the way.  The browser's validation is the
    section variable [constraints_ok].

    [view] is what the form renders for a type and a state, and
    [required_ok] the browser's validation of the [required] inputs it
    renders, one instance of [constraints_ok].

    [AuthPage] models src/src/pages/Auth.tsx, which picks the form's
    props from the route and redirects unknown auth types. *)

From S2P Require Import Prelude JsString Html.

Local Open Scope string_scope.

Module AuthFormComponent.

Inductive AuthType : Type := Login | Signup.

Record AuthState : Type := mkAuthState {
  passwordVisible : bool;
  email : string;
  password : string;
  name : string;
  rememberMe : bool;
  loading : bool;
  pending : nat;         (* calls of handleSubmit waiting on their 1500 ms timer *)
  mounted : bool;        (* the component is still mounted *)
}.

Definition initial : AuthState := mkAuthState false "" "" "" false false 0 true.

Inductive AuthEvent : Type :=
  | TogglePassword
  | TypeEmail (v : string)
  | TypePassword (v : string)
  | TypeName (v : string)
  | CheckRemember (b : bool)
  | Submit
  | TimerElapsed
  | Unmount.

#[export] Instance auth_event_eq_dec : EqDecision AuthEvent.
Proof. solve_decision. Defined.

Definition title (type : AuthType) (adminAuth : bool) : string :=
  if adminAuth then match type with Login => "Admin Login" | Signup => "Admin Signup" end
  else match type with Login => "Log in to LinkCube" | Signup => "Create your account" end.

Definition subtitle (type : AuthType) (adminAuth : bool) : string :=
  if adminAuth then "Access the admin dashboard"
  else match type with
       | Login => "Welcome back! Enter your details to continue."
       | Signup => "Join the LinkCube community and connect with alumni and students."
       end.

(** What the [try] block does once the awaited promise has fulfilled. *)
Definition resolved_effects (type : AuthType) : list effect :=
  match type with
  | Login => [ToastSuccess "Login successful!"; Navigate "/dashboard" true]
  | Signup => [ToastSuccess "Account created successfully!"; Navigate "/login" true]
  end.

(** How a promise settles. *)
Inductive Settlement : Type := Fulfilled | Rejected.

(** [new Promise(resolve => setTimeout(resolve, 1500))]: the executor only
    ever calls [resolve], so the awaited promise fulfills. *)
Definition sleep_settlement : Settlement := Fulfilled.

(** The [try]/[catch] around the [await]: the success branch on
    fulfilment, the error toast of the [catch] on rejection. *)
Definition try_effects (type : AuthType) (st : Settlement) : list effect :=
  match st with
  | Fulfilled => resolved_effects type
  | Rejected => [ToastError "Authentication failed. Please try again."]
  end.

(** [setLoading(b)]: a state update on an unmounted component is
    dropped. *)
Definition set_loading (s : AuthState) (b : bool) : AuthState :=
  if mounted s then
    mkAuthState (passwordVisible s) (email s) (password s) (name s) (rememberMe s) b (pending s) true
  else s.

Definition set_pending (s : AuthState) (n : nat) : AuthState :=
  mkAuthState (passwordVisible s) (email s) (password s) (name s) (rememberMe s) (loading s) n (mounted s).

Section Machine.
Variable type : AuthType.
Variable constraints_ok : AuthState -> bool.

(** The component as a function: [None] when the event cannot happen (the
    component is gone, the button is disabled, the browser blocks the
    submit, no timer is pending). *)
Definition step_fn (s : AuthState) (ev : AuthEvent) : option (AuthState * list effect) :=
  match ev with
  | TimerElapsed =>
      match pending s with
      | O => None
      | S n => Some (set_loading (set_pending s n) false, try_effects type sleep_settlement)
      end
  | _ =>
    if negb (mounted s) then None else
    match ev with
    | TogglePassword =>
        Some (mkAuthState (negb (passwordVisible s)) (email s) (password s) (name s)
                (rememberMe s) (loading s) (pending s) true, [])
    | TypeEmail v =>
        Some (mkAuthState (passwordVisible s) v (password s) (name s) (rememberMe s) (loading s) (pending s) true, [])
    | TypePassword v =>
        Some (mkAuthState (passwordVisible s) (email s) v (name s) (rememberMe s) (loading s) (pending s) true, [])
    | TypeName v =>
        Some (mkAuthState (passwordVisible s) (email s) (password s) v (rememberMe s) (loading s) (pending s) true, [])
    | CheckRemember b =>
        Some (mkAuthState (passwordVisible s) (email s) (password s) (name s) b (loading s) (pending s) true, [])
    | Submit =>
        if loading s || negb (constraints_ok s) then None
        else Some (set_loading (set_pending s (S (pending s))) true, [])
    | Unmount =>
        Some (mkAuthState (passwordVisible s) (email s) (password s) (name s) (rememberMe s)
                (loading s) (pending s) false, [])
    | TimerElapsed => None
    end
  end.

(** The input handlers: they change neither [loading] nor the pending
    timers. *)
Definition is_input (ev : AuthEvent) : bool :=
  match ev with Submit | TimerElapsed | Unmount => false | _ => true end.

(** The same component as a step relation, one rule per handler. *)
Inductive auth_step : AuthState -> list effect -> AuthState -> Prop :=
  | AS_input s ev s' :
      is_input ev = true -> step_fn s ev = Some (s', []) -> auth_step s [] s'
  | AS_submit s :
      mounted s = true -> loading s = false -> constraints_ok s = true ->
      auth_step s [] (set_loading (set_pending s (S (pending s))) true)
  | AS_resolve s n :
      pending s = S n ->
      auth_step s (try_effects type sleep_settlement) (set_loading (set_pending s n) false)
  | AS_unmount s :
      mounted s = true ->
      auth_step s [] (mkAuthState (passwordVisible s) (email s) (password s) (name s) (rememberMe s)
                        (loading s) (pending s) false).

Inductive reach : AuthState -> list effect -> Prop :=
  | reach_init : reach initial []
  | reach_step s effs e s' : reach s effs -> auth_step s e s' -> reach s' (effs ++ e).

End Machine.

(** ** What the form renders *)

Inductive PasswordIcon : Type := EyeOff | Eye.

Record AuthView : Type := mkAuthView {
  v_title : string;
  v_subtitle : string;
  show_name : bool;             (* the Full Name field *)
  show_forgot : bool;           (* the Forgot password? link *)
  password_type : string;       (* the password input's type *)
  toggle_label : string;        (* aria-label of the eye button *)
  toggle_icon : PasswordIcon;
  show_remember : bool;         (* the Remember me checkbox *)
  submit_disabled : bool;
  submit_label : string;
  footer_prompt : string;
  footer_link : string;
}.

Definition view (type : AuthType) (adminAuth : bool) (s : AuthState) : AuthView :=
  mkAuthView (title type adminAuth) (subtitle type adminAuth)
    (match type with Signup => true | Login => false end)
    (match type with Login => true | Signup => false end)
    (if passwordVisible s then "text" else "password")
    (if passwordVisible s then "Hide password" else "Show password")
    (if passwordVisible s then EyeOff else Eye)
    (match type with Login => true | Signup => false end)
    (loading s)
    (if loading s then "Loading..." else match type with Login => "Log in" | Signup => "Sign up" end)
    (match type with Login => "Don't have an account?" | Signup => "Already have an account?" end)
    (match type with Login => "/register" | Signup => "/login" end).

(** The links the form renders: back to home, the reset link of the login
    form, and the footer link. *)
Definition form_links (type : AuthType) : list string :=
  ("/" :: match type with Login => ["/auth/reset-password"; "/register"] | Signup => ["/login"] end)%list.

(** The browser's constraint validation of the [required] inputs the form
    renders: the name (sign-up only), the e-mail and the password must be
    filled in, and the e-mail must be valid.  It is one instance of the
    machine's [constraints_ok]. *)
Definition required_ok (type : AuthType) (s : AuthState) : bool :=
  match type with Signup => negb (String.eqb (name s) "") | Login => true end &&
  negb (String.eqb (email s) "") && Html.html_email_ok (email s) && negb (String.eqb (password s) "").

End AuthFormComponent.

Module AuthPage.

Import AuthFormComponent.

(** [isLoginPage = location.pathname === '/login'] *)
Definition isLoginPage (pathname : string) : bool := String.eqb pathname "/login".

(** The effect of Auth's [useEffect] for a pathname and the [:authType]
    route parameter ([None] when absent). *)
Definition redirect (pathname : string) (authType : option string) : list effect :=
  if String.eqb pathname "/auth/signup" then [Navigate "/register" true]
  else match authType with
       | Some t =>
           if negb (isLoginPage pathname) && negb (String.eqb t "") &&
              negb (existsb (String.eqb t) ["login"; "admin-login"; "admin-signup"])
           then [Navigate "/login" true] else []
       | None => []
       end.

(** The props Auth passes to [AuthForm]: [formType] is the constant
    'login', [adminAuth] is set for the two admin types. *)
Definition form_props (authType : option string) : AuthType * bool :=
  (Login, match authType with
          | Some t => String.eqb t "admin-login" || String.eqb t "admin-signup"
          | None => false
          end).

(** What the page renders: the brand panel's and the mobile header's
    links home, then the form with Auth's props. *)
Definition page_links : list string := ["/"; "/"].

Definition render (authType : option string) (s : AuthState) : AuthView :=
  let '(type, adminAuth) := form_props authType in view type adminAuth s.

End AuthPage.

(** ** Properties *)

Import AuthFormComponent.

Lemma set_loading_pending s b : pending (set_loading s b) = pending s.
Proof. unfold set_loading. by destruct (mounted s). Qed.

Lemma set_loading_mounted s b : mounted (set_loading s b) = mounted s.
Proof. unfold set_loading. by destruct (mounted s) eqn:E. Qed.

Lemma set_loading_loading s b : mounted s = true -> loading (set_loading s b) = b.
Proof. unfold set_loading. by intros ->. Qed.

#[export] Hint Rewrite set_loading_pending set_loading_mounted : linkcube_rw.

Section MachineProps.
Variable type : AuthType.
Variable constraints_ok : AuthState -> bool.

(** The relation and the function describe the same machine. *)
Lemma auth_step_fn s e s' :
  auth_step type constraints_ok s e s' <-> exists ev, step_fn type constraints_ok s ev = Some (s', e).
Proof.
  split.
  - intros [s0 ev s1 _ H | s0 Hm Hl Hc | s0 n Hp | s0 Hm].
    + by exists ev.
    + exists Submit. cbn. by rewrite Hm, Hl, Hc.
    + exists TimerElapsed. cbn. by rewrite Hp.
    + exists Unmount. cbn. by rewrite Hm.
  - intros [ev H]. destruct (is_input ev) eqn:Hi.
    + assert (e = []) as ->.
      { destruct ev; try discriminate Hi; cbn in H; destruct (mounted s); cbn in H; congruence. }
      by apply (AS_input _ _ s ev).
    + destruct ev; try discriminate Hi; cbn in H.
      * destruct (mounted s) eqn:Hm, (loading s) eqn:Hl, (constraints_ok s) eqn:Hc; cbn in H;
          try discriminate. injection H as <- <-. by apply AS_submit.
      * destruct (pending s) as [|n] eqn:Hp; [discriminate|]. injection H as <- <-. by apply AS_resolve.
      * destruct (mounted s) eqn:Hm; cbn in H; [|discriminate]. injection H as <- <-. by apply AS_unmount.
Qed.

(** The input handlers change neither the spinner, nor the pending
    timers, nor whether the form is mounted. *)
Lemma input_frame s ev s' :
  is_input ev = true -> step_fn type constraints_ok s ev = Some (s', []) ->
  loading s' = loading s /\ pending s' = pending s /\ mounted s' = mounted s.
Proof.
  intros Hi H. destruct ev; try discriminate Hi; cbn in H;
    destruct (mounted s) eqn:Hm; cbn in H; try discriminate; by injection H as <-.
Qed.

(** C1: one request at a time.  In every reachable state at most one
    call of [handleSubmit] is waiting on its timer, and while the form is
    mounted the spinner ([loading], which also disables the submit
    button) is shown exactly while one is: [disabled={loading}] keeps a
    second submit out until the first one's [finally] has run. *)
Theorem auth_single_request s effs :
  reach type constraints_ok s effs ->
  (pending s <= 1)%nat /\ (mounted s = true -> loading s = negb (pending s =? 0)%nat).
Proof.
  induction 1 as [|s effs e s' Hr [IHp IHl] Hs]; [split; [cbn; lia|intros; reflexivity]|].
  destruct Hs as [s0 ev s1 Hi H | s0 Hm Hl _ | s0 n Hp | s0 Hm].
  - by destruct (input_frame _ _ _ Hi H) as (-> & -> & ->).
  - specialize (IHl Hm). rewrite Hl in IHl. destruct (pending s0) eqn:E; [|discriminate].
    autorewrite with linkcube_rw. cbn [pending set_pending mounted].
    split; [lia|intros _; by rewrite set_loading_loading].
  - rewrite Hp in IHp. assert (n = 0%nat) as -> by lia.
    autorewrite with linkcube_rw. cbn [pending set_pending mounted]. split; [lia|intros Hm].
    by rewrite set_loading_loading.
  - cbn. split; [done|discriminate].
Qed.

Lemma concat_repeat_snoc {A} (x : list A) n :
  (List.concat (repeat x n) ++ x)%list = List.concat (repeat x (S n)).
Proof.
  induction n as [|n IH]; simpl; [by rewrite app_nil_r|].
  by rewrite <- app_assoc, IH.
Qed.

(** C11: what the form does, as seen from outside.  Every reachable trace
    is a sequence of complete resolutions, each the success toast
    followed by the navigation the code names: for a login
    "Login successful!" then "/dashboard", for a sign-up
    "Account created successfully!" then "/login", both with [replace].
    The [catch] branch's "Authentication failed" toast never appears,
    since the awaited timer promise cannot reject.  A request pending when
    the form unmounts still resolves: its toast and navigation are part of
    the trace. *)
Theorem auth_effects_exact s effs :
  reach type constraints_ok s effs ->
  exists n, effs = List.concat (repeat
    (match type with
     | Login => [ToastSuccess "Login successful!"; Navigate "/dashboard" true]
     | Signup => [ToastSuccess "Account created successfully!"; Navigate "/login" true]
     end) n).
Proof.
  induction 1 as [|s effs e s' Hr [n ->] Hs]; [by exists 0%nat|].
  destruct Hs as [s0 ev s1 _ _ | s0 _ _ _ | s0 m _ | s0 _].
  1,2,4: exists n; by rewrite app_nil_r.
  exists (S n). rewrite <- concat_repeat_snoc. by destruct type.
Qed.

End MachineProps.

(** Submitted, then unmounted (the user navigated away), then the timer:
    the login still navigates to the dashboard. *)
Lemma navigate_after_unmount :
  let s1 := mkAuthState false "" "" "" false true 1 false in
  reach Login (fun _ => true) (set_pending s1 0)
    ((([] ++ []) ++ []) ++ [ToastSuccess "Login successful!"; Navigate "/dashboard" true]).
Proof.
  cbv zeta. eapply reach_step; [eapply reach_step; [eapply reach_step; [apply reach_init|]|]|].
  - apply auth_step_fn. exists Submit. reflexivity.
  - apply auth_step_fn. exists Unmount. reflexivity.
  - apply auth_step_fn. exists TimerElapsed. reflexivity.
Qed.

(** While the first login is pending the form shows its spinner. *)
Lemma auth_single_request_witness :
  let s := set_loading (set_pending initial 1) true in
  (pending s <= 1)%nat /\ (mounted s = true -> loading s = negb (pending s =? 0)%nat).
Proof.
  apply (auth_single_request Login (fun _ => true) _ ([] ++ [])).
  eapply reach_step; [apply reach_init|]. by apply AS_submit.
Defined.

(** The login round after an unmount emits the toast and the
    navigation once. *)
Lemma auth_effects_exact_witness :
  exists n, ((([] ++ []) ++ []) ++ [ToastSuccess "Login successful!"; Navigate "/dashboard" true])%list =
    List.concat (repeat [ToastSuccess "Login successful!"; Navigate "/dashboard" true] n).
Proof. exact (auth_effects_exact Login (fun _ => true) _ _ navigate_after_unmount). Defined.
