(* ===== verification/ChatBot.v ===== *)
(** * ChatBot: the assistant widget (src/src/components/ui/ChatBot.tsx)

    State: [isOpen], the input [message], the list [messages] (seeded with
    the greeting) and, made explicit, the number of reply timers that
    [handleSendMessage] has scheduled and that have not fired yet.  The
    handler ignores a message whose [trim()] is empty; otherwise it appends
    the user's message as typed, clears the input and schedules, 1000 ms
    later, a reply picked as [responses[Math.floor(Math.random() * 5)]].

    The random number is the argument of the [TimerFires] event, a rational
    in [0, 1) as [Math.random] promises.  All timers have the same delay,
    so they fire in the order they were scheduled; the reply they append
    does not depend on which one fires, so a count suffices.  The open
    button exists only while the card is closed, the close button and the
    form only while it is open; [step] returns [None] for an event whose
    control is not rendered, and for a timer when none is pending.  The
    component stays mounted while closed, so closing neither clears the
    conversation nor cancels the pending replies.  Each event is handled
    after the render of the previous one, so the [messages] the handler's
    closure reads is the current state. *)

From S2P Require Import Prelude JsString.
From Stdlib Require Import QArith Qround.

Local Open Scope string_scope.

Module ChatBotWidget.

Inductive Sender : Type := User | Bot.

#[export] Instance sender_eq_dec : EqDecision Sender.
Proof. solve_decision. Defined.

Record Message : Type := mkMessage { type : Sender; content : string }.

Definition greeting : string :=
  "Hi there! 👋 I'm your LinkCube assistant. How can I help you today?".

Definition responses : list string := [
  "Thanks for your message! Our team will get back to you soon.";
  "That's a great question about LinkCube. We connect students and alumni through events and networking.";
  "You can find more resources in our Resources section.";
  "The best way to connect with alumni is through our Connect page.";
  "Thanks for your interest in LinkCube!"
].

Record ChatState : Type := mkChatState {
  isOpen : bool;
  message : string;
  messages : list Message;
  pending : nat;            (* scheduled reply timers that have not fired *)
}.

Definition initial : ChatState := mkChatState false "" [mkMessage Bot greeting] 0.

(** [Math.floor(Math.random() * responses.length)] for [Math.random() = r]. *)
Definition random_index (r : Q) : Z :=
  Qfloor (r * inject_Z (Z.of_nat (List.length responses))).

(** [responses[i]]: [undefined] ([None]) out of range. *)
Definition randomResponse (r : Q) : option string :=
  let i := random_index r in
  if (0 <=? i)%Z then nth_error responses (Z.to_nat i) else None.

(** The contract of [Math.random()]: a number in [0, 1). *)
Definition math_random_ok (r : Q) : bool := Qle_bool 0 r && negb (Qle_bool 1 r).

Inductive ChatEvent : Type :=
  | ClickOpen
  | ClickClose
  | TypeMessage (v : string)
  | SendMessage
  | TimerFires (r : Q).

(** [handleSendMessage] *)
Definition handleSendMessage (s : ChatState) : ChatState :=
  if String.eqb (trim (message s)) "" then s
  else mkChatState (isOpen s) "" (messages s ++ [mkMessage User (message s)])%list (S (pending s)).

(** The body of the [setTimeout] callback ([undefined] content renders as
    nothing, written [""]). *)
Definition reply_content (r : Q) : string :=
  match randomResponse r with Some c => c | None => "" end.

Definition reply (r : Q) (s : ChatState) : ChatState :=
  mkChatState (isOpen s) (message s) (messages s ++ [mkMessage Bot (reply_content r)])%list
    (pred (pending s)).

Definition step (s : ChatState) (ev : ChatEvent) : option ChatState :=
  match ev with
  | ClickOpen => if isOpen s then None else Some (mkChatState true (message s) (messages s) (pending s))
  | ClickClose => if isOpen s then Some (mkChatState false (message s) (messages s) (pending s)) else None
  | TypeMessage v => if isOpen s then Some (mkChatState true v (messages s) (pending s)) else None
  | SendMessage => if isOpen s then Some (handleSendMessage s) else None
  | TimerFires r =>
      match pending s with
      | O => None
      | S _ => if math_random_ok r then Some (reply r s) else None
      end
  end.

(** Run a sequence of events; [None] if one of them cannot happen. *)
Fixpoint run (s : ChatState) (evs : list ChatEvent) : option ChatState :=
  match evs with
  | [] => Some s
  | ev :: evs' => match step s ev with Some s' => run s' evs' | None => None end
  end.

Inductive reach : ChatState -> Prop :=
  | reach_init : reach initial
  | reach_step s ev s' : reach s -> step s ev = Some s' -> reach s'.

(** Number of messages from one sender. *)
Definition count (who : Sender) (ms : list Message) : nat :=
  List.length (List.filter (fun m => bool_decide (type m = who)) ms).

(** The conversation invariant: it starts with the greeting; every user
    message is non-blank; every bot message is the greeting or one of the
    responses; and each user message is answered or has a pending timer. *)
Definition chat_inv (s : ChatState) : Prop :=
  head (messages s) = Some (mkMessage Bot greeting) /\
  Forall (fun m => type m = User -> trim (content m) <> "") (messages s) /\
  Forall (fun m => type m = Bot -> content m = greeting \/ In (content m) responses) (messages s) /\
  (count Bot (messages s) + pending s = count User (messages s) + 1)%nat.

(** ** Properties *)

Lemma count_app who xs ys : count who (xs ++ ys) = (count who xs + count who ys)%nat.
Proof. unfold count. by rewrite filter_app, length_app. Qed.

Lemma count_one who t c : count who [mkMessage t c] = if bool_decide (t = who) then 1%nat else 0%nat.
Proof. unfold count. simpl. by case_bool_decide. Qed.

Lemma head_app_some {A} (xs ys : list A) x : head xs = Some x -> head (xs ++ ys) = Some x.
Proof. by destruct xs. Qed.

(** [Math.random] in [0, 1) gives an index of [responses]. *)
Lemma random_index_range r :
  math_random_ok r = true -> (0 <= random_index r < Z.of_nat (List.length responses))%Z.
Proof.
  unfold math_random_ok, random_index. intros H. bool_simpl.
  apply Qle_bool_iff in H. apply not_true_iff_false, (not_iff_compat (Qle_bool_iff _ _)) in H0.
  apply Qnot_le_lt in H0. cbn [List.length responses]. split.
  - change 0%Z with (Qfloor 0). apply Qfloor_resp_le.
    apply Qmult_le_0_compat; [done|]. by vm_compute.
  - assert (Hx : r * inject_Z 5 < inject_Z 5).
    { rewrite <- (Qmult_1_l (inject_Z 5)) at 2. apply Qmult_lt_r; [reflexivity|done]. }
    rewrite Zlt_Qlt. eapply Qle_lt_trans; [apply Qfloor_le|exact Hx].
Qed.

Lemma randomResponse_in r :
  math_random_ok r = true -> exists c, randomResponse r = Some c /\ In c responses.
Proof.
  intros H. destruct (random_index_range r H) as [H0 H5]. unfold randomResponse.
  rewrite (proj2 (Z.leb_le _ _) H0).
  destruct (nth_error responses (Z.to_nat (random_index r))) as [c|] eqn:E.
  - exists c. split; [done|]. by eapply nth_error_In.
  - apply nth_error_None in E. lia.
Qed.

Lemma handleSendMessage_inv s : chat_inv s -> chat_inv (handleSendMessage s).
Proof.
  unfold handleSendMessage. destruct (String.eqb (trim (message s)) "") eqn:E; [done|].
  intros (Hh & Hu & Hb & Hc). apply String.eqb_neq in E. unfold chat_inv; cbn [messages pending]. repeat split.
  - by apply head_app_some.
  - apply Forall_app. split; [done|]. by constructor.
  - apply Forall_app. split; [done|]. constructor; [discriminate|constructor].
  - rewrite !count_app, !count_one. repeat case_bool_decide; simplify_eq; lia.
Qed.

Lemma reply_inv r s :
  math_random_ok r = true -> pending s <> 0%nat -> chat_inv s -> chat_inv (reply r s).
Proof.
  intros Hr Hp (Hh & Hu & Hb & Hc). destruct (randomResponse_in r Hr) as (c & Ec & Hin).
  unfold reply, reply_content. rewrite Ec. unfold chat_inv; cbn [messages pending]. repeat split.
  - by apply head_app_some.
  - apply Forall_app. split; [done|]. constructor; [discriminate|constructor].
  - apply Forall_app. split; [done|]. constructor; [by right|constructor].
  - rewrite !count_app, !count_one. repeat case_bool_decide; simplify_eq; lia.
Qed.

Lemma step_inv s ev s' : chat_inv s -> step s ev = Some s' -> chat_inv s'.
Proof.
  intros Hi Hs. destruct ev as [| |v| |r]; simpl in Hs.
  1-3: destruct (isOpen s); simplify_eq; exact Hi.
  - destruct (isOpen s); simplify_eq. by apply handleSendMessage_inv.
  - destruct (pending s) eqn:Ep; [discriminate|].
    destruct (math_random_ok r) eqn:Er; [|discriminate]. injection Hs as <-.
    apply reply_inv; [done|lia|done].
Qed.

Lemma run_app s evs1 evs2 :
  run s (evs1 ++ evs2) = match run s evs1 with Some s' => run s' evs2 | None => None end.
Proof.
  revert s. induction evs1 as [|ev evs IH]; intros s; [done|]. simpl.
  destruct (step s ev); [apply IH|done].
Qed.

Lemma run_reach s evs s' : reach s -> run s evs = Some s' -> reach s'.
Proof.
  revert s. induction evs as [|ev evs IH]; intros s Hr; simpl; [by intros [= <-]|].
  destruct (step s ev) as [s1|] eqn:E; [|done]. apply IH. by eapply reach_step.
Qed.

Lemma reach_inv s : reach s -> chat_inv s.
Proof.
  induction 1 as [|s ev s' _ IH Hs]; [|by eapply step_inv].
  repeat split; [constructor; [discriminate|constructor]|constructor; [by left|constructor]].
Qed.

(** The pending timers fire one after the other, whether the card is open
    or not, each appending its reply. *)
Lemma run_timers s rs :
  Forall (fun r => math_random_ok r = true) rs -> (List.length rs <= pending s)%nat ->
  run s (map TimerFires rs) =
    Some (mkChatState (isOpen s) (message s)
            (messages s ++ map (fun r => mkMessage Bot (reply_content r)) rs)%list
            (pending s - List.length rs)).
Proof.
  revert s. induction rs as [|r rs IH]; intros s Hok Hlen; simpl.
  - rewrite app_nil_r, Nat.sub_0_r. by destruct s.
  - apply Forall_cons_iff in Hok as [Hr Hok]. simpl in Hlen.
    destruct (pending s) as [|p] eqn:Ep; [lia|]. rewrite Hr, IH by (done || (simpl; lia)).
    unfold reply. cbn [isOpen message messages pending]. rewrite <- app_assoc, Ep. done.
Qed.

(** [Qfloor] pins its argument between two consecutive integers. *)
Lemma Qfloor_bounds x : inject_Z (Qfloor x) <= x < inject_Z (Qfloor x + 1).
Proof. split; [apply Qfloor_le|apply Qlt_floor]. Qed.

Lemma reply_content_in r : math_random_ok r = true -> In (reply_content r) responses.
Proof. intros Hr. destruct (randomResponse_in r Hr) as (c & Ec & Hin). unfold reply_content. by rewrite Ec. Qed.

(** C8: in every reachable state of the widget the conversation opens
    with the greeting, no user message is blank after [trim()], every bot
    message is the greeting or one of the five responses, and the bot
    messages plus the pending replies outnumber the user messages by
    exactly one (every message sent is answered once). *)
Theorem chat_reach_inv s :
  reach s ->
  head (messages s) = Some (mkMessage Bot greeting) /\
  (forall m, In m (messages s) -> type m = User -> trim (content m) <> "") /\
  (forall m, In m (messages s) -> type m = Bot -> content m = greeting \/ In (content m) responses) /\
  (count Bot (messages s) + pending s = S (count User (messages s)))%nat.
Proof.
  intros Hr. destruct (reach_inv s Hr) as (Hh & Hu & Hb & Hc).
  rewrite Forall_forall in Hu, Hb. repeat split; try done. lia.
Qed.

(** C17: for every value [Math.random()] may return, the reply index
    is within [responses] (never [undefined]), and response [i] is chosen
    exactly when the random value lies in [[i/5, (i+1)/5)]: each of the
    five replies is picked on a fifth of the range. *)
Theorem random_reply_uniform r :
  math_random_ok r = true ->
  exists i, (i < List.length responses)%nat /\ randomResponse r = nth_error responses i /\
    inject_Z (Z.of_nat i) / inject_Z 5 <= r < inject_Z (Z.of_nat i + 1) / inject_Z 5.
Proof.
  intros Hr. destruct (random_index_range r Hr) as [H0 H5].
  exists (Z.to_nat (random_index r)). split; [cbn in H5 |- *; lia|]. split.
  - unfold randomResponse. by rewrite (proj2 (Z.leb_le _ _) H0).
  - rewrite Z2Nat.id by done. destruct (Qfloor_bounds (r * inject_Z 5)) as [Hl Hu].
    split; [apply Qle_shift_div_r; [reflexivity|exact Hl]|apply Qlt_shift_div_l; [reflexivity|exact Hu]].
Qed.

(** C13: every question is answered.  From any reachable state, once
    its pending timers have fired (with any values of [Math.random()]),
    nothing is pending and there is one bot message more than user
    messages; the card's visibility and the input are untouched. *)
Theorem chat_replies_delivered s rs :
  reach s -> Forall (fun r => math_random_ok r = true) rs -> List.length rs = pending s ->
  exists s', run s (map TimerFires rs) = Some s' /\ pending s' = 0%nat /\
    count Bot (messages s') = S (count User (messages s')) /\
    isOpen s' = isOpen s /\ message s' = message s.
Proof.
  intros Hr Hok Hlen. pose proof (run_timers s rs Hok ltac:(lia)) as Hrun.
  eexists; split; [exact Hrun|]. cbn [pending isOpen message messages]. split; [lia|]. split; [|done].
  destruct (reach_inv _ (run_reach s _ _ Hr Hrun)) as (_ & _ & _ & Hc).
  cbn [pending messages] in Hc. lia.
Qed.

(** Closing the card does not cancel a reply.  A non-blank
    message sent just before the card is closed is answered while it is
    closed, and reopening shows the question followed by the answer, with
    the input cleared. *)
Theorem reply_lands_while_closed s r :
  isOpen s = true -> trim (message s) <> "" -> math_random_ok r = true ->
  run s [SendMessage; ClickClose; TimerFires r; ClickOpen] =
    Some (mkChatState true ""
            (messages s ++ [mkMessage User (message s); mkMessage Bot (reply_content r)])%list
            (pending s)) /\
  In (reply_content r) responses.
Proof.
  intros Ho Hm Hr. split; [|by apply reply_content_in].
  simpl. rewrite Ho. unfold handleSendMessage.
  rewrite (proj2 (String.eqb_neq _ _) Hm). simpl. rewrite Ho. simpl. rewrite Hr. simpl.
  unfold reply. simpl. by rewrite <- app_assoc.
Qed.

(** The widget after opening it and sending "Hello". *)
Lemma hello_reach :
  reach (mkChatState true "" [mkMessage Bot greeting; mkMessage User "Hello"] 1).
Proof. apply (run_reach initial [ClickOpen; TypeMessage "Hello"; SendMessage]); [constructor|reflexivity]. Qed.

Lemma chat_reach_inv_witness :
  (count Bot [mkMessage Bot greeting; mkMessage User "Hello"] + 1 =
   S (count User [mkMessage Bot greeting; mkMessage User "Hello"]))%nat.
Proof. exact (proj2 (proj2 (proj2 (chat_reach_inv _ hello_reach)))). Defined.

(** [Math.random()] returns 0.5: the third response. *)
Lemma random_reply_uniform_witness :
  exists i, (i < List.length responses)%nat /\ randomResponse (1 # 2) = nth_error responses i /\
    inject_Z (Z.of_nat i) / inject_Z 5 <= 1 # 2 < inject_Z (Z.of_nat i + 1) / inject_Z 5.
Proof. exact (random_reply_uniform (1 # 2) eq_refl). Defined.

(** The reply to "Hello" arrives. *)
Lemma chat_replies_delivered_witness :
  exists s', run (mkChatState true "" [mkMessage Bot greeting; mkMessage User "Hello"] 1)
               (map TimerFires [0 # 1]) = Some s' /\ pending s' = 0%nat /\
    count Bot (messages s') = S (count User (messages s')) /\ isOpen s' = true /\ message s' = "".
Proof.
  exact (chat_replies_delivered _ [0 # 1] hello_reach
           ltac:(constructor; [vm_compute; reflexivity|constructor]) eq_refl).
Defined.

Lemma reply_lands_while_closed_witness :
  run (mkChatState true "Hi" [mkMessage Bot greeting] 0%nat)
      [SendMessage; ClickClose; TimerFires (1 # 2); ClickOpen] =
    Some (mkChatState true ""
            ([mkMessage Bot greeting] ++ [mkMessage User "Hi"; mkMessage Bot (reply_content (1 # 2))])%list
            0%nat) /\
  In (reply_content (1 # 2)) responses.
Proof.
  exact (reply_lands_while_closed (mkChatState true "Hi" [mkMessage Bot greeting] 0%nat) (1 # 2)
           eq_refl ltac:(vm_compute; discriminate) eq_refl).
Defined.

End ChatBotWidget.
