(* ===== verification/Layout.v ===== *)
(** * Layout: the standalone layout, a composition of two components

    src/src/components/layout/Layout.tsx renders [<Navbar />], the routed
    page ([<Outlet />]) and [<ChatBot />] side by side.  The two
    components share no state: the Navbar reads the location and the
    document's [dark] class, the ChatBot keeps its own conversation.  The
    layout is the product of the two machines ([NavbarComponent.step] and
    [ChatBotWidget.step]): each event goes to the component whose control
    it is, and a navigation (a route change of the [Outlet]) is an event
    of the Navbar only.  The layout stays mounted while the [Outlet]
    changes, so the ChatBot is not re-created by a navigation.  Since the
    two machines share nothing, the file states no theorem of its own. *)

From S2P Require Import Prelude JsString Navbar ChatBot.

Local Open Scope string_scope.

Module StandaloneLayout.

Import NavbarComponent ChatBotWidget.

Record LayoutState : Type := mkLayout { nav : NavState; chat : ChatState }.

Inductive LayoutEvent : Type :=
  | NavEv (e : NavEvent)
  | ChatEv (e : ChatEvent).

Section Product.
Variable prefersDark : bool.

Definition initial (path : string) (dom0 : bool) : LayoutState :=
  mkLayout (NavbarComponent.initial path dom0) ChatBotWidget.initial.

Definition step (s : LayoutState) (ev : LayoutEvent) : option LayoutState :=
  match ev with
  | NavEv e => option_map (fun n => mkLayout n (chat s)) (NavbarComponent.step prefersDark (nav s) e)
  | ChatEv e => option_map (fun c => mkLayout (nav s) c) (ChatBotWidget.step (chat s) e)
  end.

Inductive reach (path0 : string) (dom0 : bool) : LayoutState -> Prop :=
  | reach_init : reach path0 dom0 (initial path0 dom0)
  | reach_step s ev s' : reach path0 dom0 s -> step s ev = Some s' -> reach path0 dom0 s'.

End Product.

End StandaloneLayout.
