(* ===== verification/Routes.v ===== *)
(** * Routes: the route table of App.tsx and the links that lead into it

    src/src/App.tsx declares the application's routes with react-router's
    [<Routes>]: three top-level pages, two redirects ([<Navigate replace>])
    from the legacy [/auth/...] paths, the [/admin] layout with an index
    and four placeholder children, the [/] layout with an index and seven
    pages, and a catch-all [*] (the 404 page).

    The router is a library (react-router 6, not part of the repository);
    this file models, from its documented algorithm, the three steps it
    takes on a pathname:
    - [flattenRoutes]: every route with a path or an index becomes a
      branch whose path is the parent's joined with its own
      ([joinPaths] collapses repeated slashes), children before parents;
    - [rankRouteBranches]: a stable sort by [computeScore] (segments
      count, +10 per static segment, +1 per empty one, +2 for an index,
      -2 for a splat), ties broken by sibling order, written as the
      insertion sort [insert_branch];
    - [matchRoutes]: the first ranked branch whose path matches.  A static
      path [P] matches [^P\/*$] case-insensitively (trailing slashes are
      ignored); the splat ["/*"] matches every pathname starting with [/].
      The table has no dynamic segment, and for static segments matching
      the nested branch segment by segment is matching its joined path.

    The links the rendered components offer ([<Link to>] and the one plain
    [<a href>]) are listed per component, so that the theorems can say
    which of them reach a page and which reach the 404 page. *)

From S2P Require Import Prelude JsString Zod Forms AuthForm.

Local Open Scope string_scope.

Module Router.

Import Zod.

(** The elements of the route table. *)
Inductive Element : Type :=
  | LoginPage | RegisterPage | AdminRegisterPage
  | Redirect (to : string)                  (* <Navigate to=... replace /> *)
  | AdminLayout | AdminDashboard | Placeholder (text : string)
  | MainLayout | IndexPage | HomePage | DashboardPage | EventsPage | ConnectPage
  | JobsPage | ResourcesPage | HallOfFamePage
  | NotFound.

#[export] Instance element_eq_dec : EqDecision Element.
Proof. solve_decision. Defined.

#[local] Set Warnings "-register-all".

(** [<Route path index element>children</Route>]; [path] is [None] for an
    index route. *)
Inductive route : Type :=
  | Route (path : option string) (index : bool) (element : Element) (children : list route).

Definition appRoutes : list route := [
  Route (Some "/login") false LoginPage [];
  Route (Some "/register") false RegisterPage [];
  Route (Some "/admin/register") false AdminRegisterPage [];
  Route (Some "/auth/login") false (Redirect "/login") [];
  Route (Some "/auth/signup") false (Redirect "/register") [];
  Route (Some "/admin") false AdminLayout [
    Route None true AdminDashboard [];
    Route (Some "users") false (Placeholder "Users Management") [];
    Route (Some "events") false (Placeholder "Events Management") [];
    Route (Some "jobs") false (Placeholder "Jobs Management") [];
    Route (Some "resources") false (Placeholder "Resources Management") []];
  Route (Some "/") false MainLayout [
    Route None true IndexPage [];
    Route (Some "home") false HomePage [];
    Route (Some "dashboard") false DashboardPage [];
    Route (Some "events") false EventsPage [];
    Route (Some "connect") false ConnectPage [];
    Route (Some "jobs") false JobsPage [];
    Route (Some "resources") false ResourcesPage [];
    Route (Some "hall-of-fame") false HallOfFamePage []];
  Route (Some "*") false NotFound []
].

(** ** Paths *)

(** [paths.join("/").replace(/\/\/+/g, "/")] *)
Fixpoint collapse_slashes (prev_slash : bool) (s : string) : string :=
  match s with
  | EmptyString => EmptyString
  | String c r =>
      if Ascii.eqb c "/" then
        if prev_slash then collapse_slashes true r else String c (collapse_slashes true r)
      else String c (collapse_slashes false r)
  end.

Definition joinPaths (parent child : string) : string :=
  collapse_slashes false (parent ++ "/" ++ child).

(** [s.slice(n)] *)
Definition slice_from (n : nat) (s : string) : string := substring n (String.length s - n) s.

Definition is_splat (seg : string) : bool := String.eqb seg "*".

Definition is_word_char (c : ascii) : bool := is_alnum c || Ascii.eqb c "_" || Ascii.eqb c "-".

(** [/^:[\w-]+$/] *)
Definition is_param (seg : string) : bool :=
  match seg with
  | String ":" (String c r) => forallb is_word_char (chars (String c r))
  | _ => false
  end.

Definition computeScore (path : string) (index : bool) : Z :=
  let segments := split_on "/" path in
  let initial := (Z.of_nat (List.length segments)
                  + (if existsb is_splat segments then -2 else 0)
                  + (if index then 2 else 0))%Z in
  fold_left (fun score seg =>
               (score + if is_param seg then 3 else if String.eqb seg "" then 1 else 10)%Z)
            (List.filter (fun s => negb (is_splat s)) segments) initial.

(** ** Branches *)

Record Branch : Type := mkBranch {
  bpath : string;
  bscore : Z;
  bmeta : list (nat * Element);   (* childrenIndex and element, outermost first *)
}.

Fixpoint flattenRoute (parentPath : string) (parents : list (nat * Element)) (idx : nat)
    (r : route) {struct r} : list Branch :=
  match r with
  | Route p ix el ch =>
      let rel0 := match p with Some s => s | None => "" end in
      let rel := if startsWith rel0 "/" then slice_from (String.length parentPath) rel0 else rel0 in
      let path := joinPaths parentPath rel in
      let meta := (parents ++ [(idx, el)])%list in
      let fix go (i : nat) (cs : list route) : list Branch :=
        match cs with
        | [] => []
        | c :: cs' => (flattenRoute path meta i c ++ go (S i) cs')%list
        end in
      (go 0%nat ch ++
       (match p, ix with None, false => [] | _, _ => [mkBranch path (computeScore path ix) meta] end))%list
  end.

Fixpoint flattenRoutes_from (i : nat) (rs : list route) : list Branch :=
  match rs with
  | [] => []
  | r :: rs' => (flattenRoute "" [] i r ++ flattenRoutes_from (S i) rs')%list
  end.

Definition flattenRoutes (rs : list route) : list Branch := flattenRoutes_from 0 rs.

(** [compareIndexes]: siblings compare by their last index, others tie. *)
Fixpoint compareIndexes (a b : list nat) : Z :=
  match a, b with
  | [x], [y] => (Z.of_nat x - Z.of_nat y)%Z
  | x :: a', y :: b' => if Nat.eqb x y then compareIndexes a' b' else 0%Z
  | _, _ => 0%Z
  end.

Definition compareBranches (a b : Branch) : Z :=
  if Z.eqb (bscore a) (bscore b)
  then compareIndexes (map fst (bmeta a)) (map fst (bmeta b))
  else (bscore b - bscore a)%Z.

(** [Array.prototype.sort] is stable: insert each branch after every
    branch that does not compare greater. *)
Fixpoint insert_branch (x : Branch) (sorted : list Branch) : list Branch :=
  match sorted with
  | [] => [x]
  | y :: ys => if (compareBranches x y <? 0)%Z then x :: y :: ys else y :: insert_branch x ys
  end.

Definition rankRouteBranches (bs : list Branch) : list Branch :=
  fold_left (fun acc b => insert_branch b acc) bs [].

(** ** Matching *)

(** Drop the trailing slashes: the [\/*$] of the compiled pattern. *)
Fixpoint strip_trailing (s : string) : string :=
  match s with
  | EmptyString => EmptyString
  | String c r =>
      let r' := strip_trailing r in
      if Ascii.eqb c "/" && String.eqb r' "" then "" else String c r'
  end.

Definition ends_with_star (p : string) : bool :=
  match List.last (chars p) " "%char with "*"%char => true | _ => false end.

(** [matchPath({path: p, end: true}, pathname)] for a static or splat
    path, case-insensitive. *)
Definition splat_base (p : string) : string :=
  toLowerCase (strip_trailing (substring 0 (String.length p - 1) p)).

Definition matchBranch (p pathname : string) : bool :=
  startsWith pathname "/" &&
  (if ends_with_star p then
     String.eqb (splat_base p) "" || String.eqb (toLowerCase (strip_trailing pathname)) (splat_base p)
     || startsWith (toLowerCase pathname) (splat_base p ++ "/")
   else String.eqb (toLowerCase (strip_trailing p)) (toLowerCase (strip_trailing pathname))).

Definition branches : list Branch := rankRouteBranches (flattenRoutes appRoutes).

(** [useRoutes]: the element chain rendered for a pathname. *)
Definition resolve (pathname : string) : option (list Element) :=
  option_map (fun b => map snd (bmeta b)) (List.find (fun b => matchBranch (bpath b) pathname) branches).

(** Follow a [<Navigate replace>] element once. *)
Definition visit (pathname : string) : option (list Element) :=
  match resolve pathname with
  | Some [Redirect t] => resolve t
  | r => r
  end.

(** ** Links offered by the rendered components *)

(** MainLayout's [navigation] array and the sign-in / sign-up links. *)
Definition mainNavigation : list string :=
  ["/home"; "/dashboard"; "/events"; "/connect"; "/jobs"; "/resources"; "/hall-of-fame"].

(** [const isActive = location.pathname === item.href] *)
Definition isActive (pathname href : string) : bool := String.eqb pathname href.

Definition mainLayoutLinks : list string := ("/" :: mainNavigation ++ ["/login"; "/register"])%list.
Definition adminLayoutLinks : list string :=
  ["/admin"; "/admin/users"; "/admin/events"; "/admin/jobs"; "/admin/resources"; "/"].
Definition indexLinks : list string :=
  ["/auth/signup"; "/auth/login"; "/"; "/events"; "/connect"; "/jobs"; "/resources";
   "/about"; "/privacy"; "/terms"; "/contact"].
Definition heroLinks : list string := ["/auth/signup"; "/about"].
Definition homeLinks : list string := ["/signup"; "/dashboard"; "/signup"; "/login"].
Definition dashboardLinks : list string := ["/notifications"; "/connect"; "/events"; "/connect"].
Definition loginLinks : list string := ["/register"; "/forgot-password"; "/terms"; "/privacy"].
Definition registerLinks : list string := ["/admin/register"; "/login"].
Definition adminRegisterLinks : list string := ["/register"; "/login"].
Definition topInnovatorsLinks : list string := ["/ideas-donations"].

(** Every link of a component that some route renders. *)
Definition routedLinks : list string :=
  (mainLayoutLinks ++ adminLayoutLinks ++ indexLinks ++ heroLinks ++ homeLinks ++
   dashboardLinks ++ loginLinks ++ registerLinks ++ adminRegisterLinks ++ topInnovatorsLinks)%list.

Definition is_not_found (pathname : string) : bool :=
  bool_decide (visit pathname = Some [NotFound]).

(** The paths a list of effects navigates to. *)
Definition navigations (effs : list effect) : list string :=
  List.concat (map (fun e => match e with Navigate p _ => [p] | _ => [] end) effs).

(** ** Matching ignores trailing slashes and case *)

Lemma strip_trailing_snoc_slash s : strip_trailing (s ++ "/") = strip_trailing s.
Proof. induction s as [|c s IH]; [reflexivity|]. rewrite str_app_cons. simpl. by rewrite IH. Qed.

Lemma to_lower_char_slash c : Ascii.eqb (to_lower_char c) "/" = Ascii.eqb c "/".
Proof. destruct c as [[] [] [] [] [] [] [] []]; vm_compute; reflexivity. Qed.

Lemma toLowerCase_eqb_empty s : String.eqb (toLowerCase s) "" = String.eqb s "".
Proof. by destruct s. Qed.

Lemma strip_trailing_lower s : strip_trailing (toLowerCase s) = toLowerCase (strip_trailing s).
Proof.
  induction s as [|c s IH]; [done|]. simpl. rewrite IH, to_lower_char_slash, toLowerCase_eqb_empty.
  by destruct (Ascii.eqb c "/" && String.eqb (strip_trailing s) "").
Qed.

Lemma startsWith_slash_snoc s : s <> "" -> startsWith (s ++ "/") "/" = startsWith s "/".
Proof. destruct s as [|c s]; [done|]. intros _. rewrite str_app_cons. reflexivity. Qed.

Lemma startsWith_slash_lower s : startsWith (toLowerCase s) "/" = startsWith s "/".
Proof. destruct s as [|c s]; [done|]. cbn [toLowerCase startsWith]. by rewrite !(Ascii.eqb_sym "/"), to_lower_char_slash. Qed.

Lemma matchBranch_static_snoc p s :
  ends_with_star p = false -> s <> "" -> matchBranch p (s ++ "/") = matchBranch p s.
Proof. intros Hp Hs. unfold matchBranch. by rewrite Hp, startsWith_slash_snoc, strip_trailing_snoc_slash. Qed.

Lemma matchBranch_static_lower p s :
  ends_with_star p = false -> matchBranch p (toLowerCase s) = matchBranch p s.
Proof.
  intros Hp. unfold matchBranch.
  by rewrite Hp, startsWith_slash_lower, strip_trailing_lower, toLowerCase_idem.
Qed.

Lemma matchBranch_root_splat s : matchBranch "/*" s = startsWith s "/".
Proof.
  unfold matchBranch. change (ends_with_star "/*") with true. change (splat_base "/*") with "".
  cbn [String.eqb orb]. by rewrite andb_true_r.
Qed.

(** Every branch of the table is static or the root splat. *)
Lemma branches_shape b :
  In b branches -> ends_with_star (bpath b) = false \/ bpath b = "/*".
Proof.
  intros Hb. assert (H : forallb (fun b => negb (ends_with_star (bpath b)) || String.eqb (bpath b) "/*")
                           branches = true) by (vm_compute; reflexivity).
  rewrite forallb_forall in H. specialize (H b Hb).
  destruct (ends_with_star (bpath b)); [right|by left]. by apply String.eqb_eq.
Qed.

Lemma splat_last : branches = (removelast branches ++ [mkBranch "/*" 1 [(7%nat, NotFound)]])%list.
Proof. vm_compute. reflexivity. Qed.

Lemma resolve_snoc_slash s : s <> "" -> resolve (s ++ "/") = resolve s.
Proof.
  intros Hs. unfold resolve. f_equal. apply find_ext_in. intros b Hb.
  destruct (branches_shape b Hb) as [Hp | ->].
  - by apply matchBranch_static_snoc.
  - by rewrite !matchBranch_root_splat, startsWith_slash_snoc.
Qed.

Lemma resolve_lower s : resolve (toLowerCase s) = resolve s.
Proof.
  unfold resolve. f_equal. apply find_ext_in. intros b Hb.
  destruct (branches_shape b Hb) as [Hp | ->].
  - by apply matchBranch_static_lower.
  - by rewrite !matchBranch_root_splat, startsWith_slash_lower.
Qed.

(** The catch-all renders every pathname no other branch takes. *)
Lemma resolve_some s : startsWith s "/" = true -> exists els, resolve s = Some els.
Proof.
  intros Hs. unfold resolve.
  destruct (List.find _ branches) as [b|] eqn:E; [by eexists|exfalso].
  apply find_none_spec with (x := mkBranch "/*" 1 [(7%nat, NotFound)]) in E.
  - cbn [bpath] in E. by rewrite matchBranch_root_splat, Hs in E.
  - rewrite splat_last. apply in_or_app. right. by left.
Qed.

(** Redirect targets render a page. *)
Lemma redirects_resolve s t : resolve s = Some [Redirect t] -> exists els, resolve t = Some els.
Proof.
  unfold resolve. destruct (List.find _ branches) as [b|] eqn:E; [|done]. intros [= Hb].
  apply find_some_spec in E as [Hin _].
  assert (H : forallb (fun b => match map snd (bmeta b) with
                                | [Redirect t] => bool_decide (is_Some (resolve t)) | _ => true end) branches = true)
    by (vm_compute; reflexivity).
  rewrite forallb_forall in H. specialize (H b Hin). rewrite Hb in H.
  by apply bool_decide_eq_true in H.
Qed.

(** C12: every pathname renders something (the catch-all takes what no
    other route matches, and a redirect always lands on a page), and what
    it renders does not change with trailing slashes or letter case. *)
Theorem visit_total_normalized s :
  startsWith s "/" = true ->
  (exists els, visit s = Some els) /\
  visit (s ++ "/") = visit s /\ visit (toLowerCase s) = visit s.
Proof.
  intros Hs. assert (Hne : s <> "") by (by intros ->).
  split; [|split]; unfold visit.
  - destruct (resolve_some s Hs) as [els Hr]. rewrite Hr.
    destruct els as [|[] [|]]; eauto. by apply (redirects_resolve s).
  - by rewrite resolve_snoc_slash.
  - by rewrite resolve_lower.
Qed.

(** C16: every navigation a form handler emits reaches a page: Login's
    "/admin" and "/dashboard", Register's "/login", AdminRegister's
    "/admin", and AuthForm's "/dashboard" and "/login" render the admin
    dashboard, the member dashboard or the login page. *)
Theorem form_navigations_routed f1 f2 f3 ty effs p :
  (LoginPage.submit f1 = inr effs \/ RegisterPage.submit f2 = inr effs \/
   AdminRegisterPage.submit f3 = inr effs \/ effs = AuthFormComponent.resolved_effects ty) ->
  In p (navigations effs) ->
  visit p = Some [AdminLayout; AdminDashboard] \/ visit p = Some [MainLayout; DashboardPage] \/
  visit p = Some [LoginPage].
Proof.
  intros [H|[H|[H| ->]]];
    [unfold LoginPage.submit, RegisterPage.submit, AdminRegisterPage.submit in H;
     apply handleSubmit_inr in H as ->..|].
  - unfold LoginPage.onSubmit. destruct (includes _ _); intros [<-|[]]; vm_compute; auto.
  - intros [<-|[]]. vm_compute. auto.
  - intros [<-|[]]. vm_compute. auto.
  - destruct ty; intros [<-|[]]; vm_compute; auto.
Qed.

(** "/Events" renders the Events page, as "/events" and "/events/" do. *)
Lemma visit_total_normalized_witness :
  visit ("/Events" ++ "/") = visit "/Events" /\ visit (toLowerCase "/Events") = visit "/Events".
Proof. exact (proj2 (visit_total_normalized "/Events" eq_refl)). Defined.

(** An administrator's login lands on the admin dashboard. *)
Lemma form_navigations_routed_witness :
  visit "/admin" = Some [AdminLayout; AdminDashboard] \/
  visit "/admin" = Some [MainLayout; DashboardPage] \/ visit "/admin" = Some [LoginPage].
Proof.
  assert (H : LoginPage.submit (LoginPage.Build_LoginForm "admin@linkcube.edu" "secret1") =
              inr [Navigate "/admin" false]) by (vm_compute; reflexivity).
  exact (form_navigations_routed (LoginPage.Build_LoginForm "admin@linkcube.edu" "secret1")
           (RegisterPage.Build_RegistrationForm "" "" "" None None None "" "")
           (AdminRegisterPage.Build_AdminRegistrationForm "" "" "" "") AuthFormComponent.Login
           [Navigate "/admin" false] "/admin" (or_introl H) (or_introl eq_refl)).
Defined.

End Router.
