(* ===== verification/Admin.v ===== *)
(** * Admin: the admin panel, the unrouted admin shell, the admin dashboard

    - [AdminPanel] models src/src/components/layout/AdminLayout.tsx, the
      layout App.tsx mounts at [/admin]: its [navigation] array, the
      [isSidebarOpen] state and its toggle, and the highlighted item
      ([location.pathname === item.href]).
    - [AdminSidebarNav] models src/src/components/admin/AdminSidebar.tsx:
      eight [NavLink]s, only the first ([/admin]) with [end].  A
      [NavLink]'s [isActive] is react-router's (a library, modelled from
      its documented algorithm): case-insensitive, the location equals
      [to], or, without [end], it continues [to] with a slash.
    - [AdminShell] models src/src/components/admin/AdminLayout.tsx, the
      other admin layout (which no route mounts): [sidebarOpen],
      [toggleSidebar], the backdrop shown while the sidebar is open and
      the optional title.
    - [Charts] models src/src/components/ui/charts.tsx: [AreaChart] and
      [BarChart] draw one series per category with [colors[i]], and
      [AreaChart] one gradient per category; [colors] defaults to one
      colour.  An index past the end of [colors] reads [undefined]
      ([None]).
    - [AdminDashboardPage] models src/src/pages/admin/Dashboard.tsx: its
      [chartData], its four stat cards and the two charts it draws. *)

From S2P Require Import Prelude JsString Zod Routes.

Local Open Scope string_scope.

Module AdminPanel.

Inductive NavIcon : Type := LayoutDashboard | Users | Calendar | Briefcase | BookOpen.

Record NavItem : Type := mkNavItem { name : string; href : string; icon : NavIcon }.

Definition navigation : list NavItem := [
  mkNavItem "Dashboard" "/admin" LayoutDashboard;
  mkNavItem "Users" "/admin/users" Users;
  mkNavItem "Events" "/admin/events" Calendar;
  mkNavItem "Jobs" "/admin/jobs" Briefcase;
  mkNavItem "Resources" "/admin/resources" BookOpen
].

Record PanelState : Type := { isSidebarOpen : bool }.

(** [useState(true)] *)
Definition initial : PanelState := {| isSidebarOpen := true |}.

(** The menu button: [setIsSidebarOpen(!isSidebarOpen)]. *)
Definition toggle (st : PanelState) : PanelState := {| isSidebarOpen := negb (isSidebarOpen st) |}.

Definition sidebar_class (st : PanelState) : string :=
  if isSidebarOpen st then "translate-x-0" else "-translate-x-full".

Definition content_class (st : PanelState) : string :=
  if isSidebarOpen st then "lg:pl-64" else "lg:pl-0".

(** [const isActive = location.pathname === item.href] *)
Definition item_active (pathname : string) (item : NavItem) : bool := String.eqb pathname (href item).

Definition highlighted (pathname : string) : list NavItem := List.filter (item_active pathname) navigation.

End AdminPanel.

Module AdminSidebarNav.

Import Zod.

Record SideLink : Type := mkSideLink { to : string; label : string; end_ : bool }.

Definition sidebarLinks : list SideLink := [
  mkSideLink "/admin" "Dashboard" true;
  mkSideLink "/admin/users" "User Management" false;
  mkSideLink "/admin/content" "Content Management" false;
  mkSideLink "/admin/events" "Event Management" false;
  mkSideLink "/admin/analytics" "Analytics" false;
  mkSideLink "/admin/donations" "Donations" false;
  mkSideLink "/admin/support" "Support" false;
  mkSideLink "/admin/settings" "Settings" false
].

(** [s.charAt(n)]; [None] is the empty string past the end. *)
Definition charAt (s : string) (n : nat) : option ascii := String.get n s.

Definition ends_with_slash (s : string) : bool :=
  match List.last (chars s) " "%char with "/"%char => true | _ => false end.

(** [NavLink]'s [isActive] for [to], without [caseSensitive]. *)
Definition navlink_active (pathname to : string) (end_ : bool) : bool :=
  let locationPathname := toLowerCase pathname in
  let toPathname := toLowerCase to in
  let endSlashPosition :=
    if negb (String.eqb toPathname "/") && ends_with_slash toPathname
    then (String.length toPathname - 1)%nat else String.length toPathname in
  String.eqb locationPathname toPathname ||
  (negb end_ && startsWith locationPathname toPathname &&
   match charAt locationPathname endSlashPosition with Some "/"%char => true | _ => false end).

(** The [className] callback: the highlighted style while active. *)
Definition link_class (active : bool) : string :=
  if active then "bg-cube-purple/10 text-cube-purple"
  else "text-muted-foreground hover:bg-muted hover:text-foreground".

Definition active_links (pathname : string) : list SideLink :=
  List.filter (fun l => navlink_active pathname (to l) (end_ l)) sidebarLinks.

(** Two links that cannot be active together: their paths differ, and
    when one continues the other the shorter one has [end]. *)
Definition exclusive (a b : SideLink) : bool :=
  let A := toLowerCase (to a) in
  let B := toLowerCase (to b) in
  negb (String.eqb A B) &&
  (if startsWith B A then end_ a else if startsWith A B then end_ b else true).

Fixpoint pairwise {X} (R : X -> X -> bool) (xs : list X) : bool :=
  match xs with
  | [] => true
  | x :: xs' => forallb (R x) xs' && pairwise R xs'
  end.

End AdminSidebarNav.

Module AdminShell.

Record ShellState : Type := { sidebarOpen : bool }.

(** [useState(true)] *)
Definition initial : ShellState := {| sidebarOpen := true |}.

(** [toggleSidebar], called by the menu button and by the backdrop. *)
Definition toggleSidebar (st : ShellState) : ShellState := {| sidebarOpen := negb (sidebarOpen st) |}.

(** [{sidebarOpen && <div onClick={toggleSidebar} />}] *)
Definition backdrop_shown (st : ShellState) : bool := sidebarOpen st.

Inductive ShellEvent : Type := ClickMenu | ClickBackdrop.

Definition step (st : ShellState) (ev : ShellEvent) : option ShellState :=
  match ev with
  | ClickMenu => Some (toggleSidebar st)
  | ClickBackdrop => if backdrop_shown st then Some (toggleSidebar st) else None
  end.

(** [{title && <h1>{title}</h1>}]: an absent or empty title renders no
    heading. *)
Definition title_heading (title : option string) : option string :=
  match title with
  | Some t => if String.eqb t "" then None else Some t
  | None => None
  end.

End AdminShell.

Module Charts.

(** One drawn series: its [dataKey] and [colors[i]]. *)
Record Series : Type := mkSeries { dataKey : string; color : option string }.

(** [colors = ['#2563eb']] *)
Definition default_colors : list string := ["#2563eb"].

Definition colors_or_default (colors : option (list string)) : list string :=
  match colors with Some cs => cs | None => default_colors end.

(** [categories.map((category, i) => <Area|Bar dataKey={category}
    stroke|fill={colors[i]} />)] *)
Definition series (categories : list string) (colors : list string) : list Series :=
  mapi (fun i c => mkSeries c (nth_error colors i)) categories.

(** [AreaChart]'s [<linearGradient id={`color-${category}`}>] with
    [stopColor={colors[i]}]. *)
Definition gradients (categories : list string) (colors : list string) : list (string * option string) :=
  mapi (fun i c => ("color-" ++ c, nth_error colors i)) categories.

Record AreaView : Type := { area_gradients : list (string * option string); area_series : list Series }.

Definition AreaChart (categories : list string) (colors : option (list string)) : AreaView :=
  {| area_gradients := gradients categories (colors_or_default colors);
     area_series := series categories (colors_or_default colors) |}.

Definition BarChart (categories : list string) (colors : option (list string)) : list Series :=
  series categories (colors_or_default colors).

(** Every series has a colour. *)
Definition all_colored (ss : list Series) : bool := forallb (fun s => bool_decide (is_Some (color s))) ss.

End Charts.

Module AdminDashboardPage.

Record ChartRow : Type := mkRow { name : string; users : Z; events : Z; engagement : Z }.

Definition chartData : list ChartRow := [
  mkRow "Jan" 400 240 67; mkRow "Feb" 450 320 75; mkRow "Mar" 480 280 72;
  mkRow "Apr" 520 305 70; mkRow "May" 560 350 78; mkRow "Jun" 590 390 82
].

(** A row's value for a [dataKey] ([undefined] for an unknown key). *)
Definition row_value (r : ChartRow) (key : string) : option Z :=
  if String.eqb key "users" then Some (users r)
  else if String.eqb key "events" then Some (events r)
  else if String.eqb key "engagement" then Some (engagement r)
  else None.

Record StatCard : Type := mkStat { ctitle : string; value : string; change : string }.

Definition statCards : list StatCard := [
  mkStat "Total Users" "2,453" "+12% from last month";
  mkStat "Events" "36" "+8% from last month";
  mkStat "Content Pieces" "128" "+5% from last month";
  mkStat "Donations" "$45,324" "+15% from last month"
].

Definition activity_chart : Charts.AreaView :=
  Charts.AreaChart ["users"; "events"] (Some ["#2563eb"; "#9333ea"]).

Definition engagement_chart : list Charts.Series := Charts.BarChart ["engagement"] (Some ["#9333ea"]).

End AdminDashboardPage.

(** ** Properties *)

(** *** Prefixes of strings *)

Lemma str_app_self_r (a z : string) : a = a ++ z -> z = "".
Proof. induction a as [|c a IH]; [done|]. intros H. injection H. apply IH. Qed.

(** A string that extends [A] and is extended by [A] is [A]. *)
Lemma str_extend_self (A B z x : string) : B = A ++ z -> A = B ++ x -> A = B.
Proof.
  intros -> H. rewrite <- str_app_assoc in H. apply str_app_self_r in H.
  destruct z; [by rewrite str_app_nil_r|discriminate].
Qed.

(** Two prefixes of one string are comparable. *)
Lemma str_prefix_comparable (A B x y : string) :
  A ++ x = B ++ y -> (exists z, B = A ++ z) \/ (exists z, A = B ++ z).
Proof.
  revert B. induction A as [|c A IH]; intros B H; [by left; exists B|].
  destruct B as [|d B]; [by right; exists (String c A)|].
  injection H as -> H. destruct (IH B H) as [[z ->]|[z ->]]; [left|right]; by exists z.
Qed.

Section Pairwise.
Context {X : Type} (R : X -> X -> bool) (f : X -> bool).
Hypothesis R_excl : forall a b, R a b = true -> f a = true -> f b = true -> False.

(** A list whose elements are pairwise exclusive has at most one element
    satisfying [f]. *)
Lemma pairwise_filter_le1 xs : AdminSidebarNav.pairwise R xs = true -> (List.length (List.filter f xs) <= 1)%nat.
Proof.
  induction xs as [|x xs IH]; cbn; [lia|]. intros [Hx Hp]%andb_prop.
  destruct (f x) eqn:Ef; cbn; [|by apply IH].
  rewrite (filter_none _ xs); [cbn; lia|].
  intros b Hb. rewrite forallb_forall in Hx. specialize (Hx b Hb).
  destruct (f b) eqn:Eb; [|done]. destruct (R_excl x b Hx Ef Eb).
Qed.

End Pairwise.

Module SidebarProps.
Import AdminSidebarNav.

(** An active link is a prefix of the location, the whole of it under
    [end]. *)
Lemma navlink_active_prefix p t e :
  navlink_active p t e = true ->
  exists post, toLowerCase p = toLowerCase t ++ post /\ (e = true -> post = "").
Proof.
  unfold navlink_active. intros [Heq|H]%orb_true_iff.
  - apply String.eqb_eq in Heq. exists "". rewrite str_app_nil_r. done.
  - apply andb_prop in H as [H _]. apply andb_prop in H as [He Hs].
    apply startsWith_spec in Hs as [post Hp]. exists post. split; [done|].
    intros ->. discriminate.
Qed.

Lemma exclusive_not_both a b p :
  exclusive a b = true -> navlink_active p (to a) (end_ a) = true ->
  navlink_active p (to b) (end_ b) = true -> False.
Proof.
  unfold exclusive. intros Hx Ha Hb.
  apply navlink_active_prefix in Ha as (x & Hpa & Hea), Hb as (y & Hpb & Heb).
  apply andb_prop in Hx as [Hne Hx]. apply negb_true_iff, String.eqb_neq in Hne.
  rewrite Hpa in Hpb. destruct (str_prefix_comparable _ _ _ _ Hpb) as [[z Hz]|[z Hz]].
  - assert (startsWith (toLowerCase (to b)) (toLowerCase (to a)) = true) as Hs
      by (apply startsWith_spec; by exists z).
    rewrite Hs in Hx. rewrite (Hea Hx), str_app_nil_r in Hpb.
    apply Hne, (str_extend_self _ _ z y); [exact Hz|exact Hpb].
  - destruct (startsWith (toLowerCase (to b)) (toLowerCase (to a))) eqn:Eba.
    + apply startsWith_spec in Eba as [w Hw]. apply Hne, eq_sym, (str_extend_self _ _ z w); done.
    + assert (startsWith (toLowerCase (to a)) (toLowerCase (to b)) = true) as Hs
        by (apply startsWith_spec; by exists z).
      rewrite Hs in Hx. rewrite (Heb Hx), str_app_nil_r in Hpb.
      apply Hne, eq_sym, (str_extend_self _ _ z x); [exact Hz|exact (eq_sym Hpb)].
Qed.

(** Below a section, its link alone is active. *)
Lemma active_links_below l rest :
  In l sidebarLinks -> end_ l = false -> active_links (to l ++ "/" ++ rest) = [l].
Proof.
  intros Hl He. unfold active_links, navlink_active. rewrite !toLowerCase_app.
  repeat destruct Hl as [<-|Hl]; try discriminate He; try done; vm_compute; reflexivity.
Qed.

(** C19: the admin sidebar highlights at most one link.  For every
    location, at most one of the eight [NavLink]s is active (the [end] on
    the Dashboard link keeps it from matching below [/admin]); each
    link's own path activates that link alone, and so does every path
    below a section's link. *)
Theorem sidebar_single_active p :
  (List.length (active_links p) <= 1)%nat /\
  (forall l, In l sidebarLinks -> active_links (to l) = [l]) /\
  (forall l rest, In l sidebarLinks -> end_ l = false -> active_links (to l ++ "/" ++ rest) = [l]).
Proof.
  split; [|split; [|apply active_links_below]].
  - apply (pairwise_filter_le1 exclusive); [intros a b; apply exclusive_not_both|].
    vm_compute. reflexivity.
  - intros l Hl. repeat destruct Hl as [<-|Hl]; [vm_compute; reflexivity..|done].
Qed.

(** Were the sidebar mounted, five of its links would show the 404 page:
    the route table has no content, analytics, donations, support or
    settings page under [/admin]. *)
Lemma sidebar_dead_links :
  map to (List.filter (fun l => Router.is_not_found (to l)) sidebarLinks) =
  ["/admin/content"; "/admin/analytics"; "/admin/donations"; "/admin/support"; "/admin/settings"].
Proof. vm_compute. reflexivity. Qed.

End SidebarProps.

Module ChartProps.
Import Charts.

End ChartProps.

(** The admin dashboard's two charts: every series has a colour and a
    value in every row of [chartData]. *)
Lemma admin_dashboard_charts_defined :
  Charts.all_colored (Charts.area_series AdminDashboardPage.activity_chart) = true /\
  Charts.all_colored AdminDashboardPage.engagement_chart = true /\
  Forall (fun r => Forall (fun s => is_Some (AdminDashboardPage.row_value r (Charts.dataKey s)))
                     (Charts.area_series AdminDashboardPage.activity_chart ++
                      AdminDashboardPage.engagement_chart))
    AdminDashboardPage.chartData.
Proof. split; [reflexivity|]. split; [reflexivity|]. repeat constructor; eexists; reflexivity. Qed.
