(* ===== verification/Contracts.v ===== *)
(** * Contracts: the spec's shared contracts discharged for every page

    Spec section 4.3 describes one action dispatcher: look the record up
    by id, act on it, and do nothing for an unknown id.  [Fixture] states
    that contract ([dispatch_contract]) against the data-access interface
    of spec section 9; this file shows that every handler of every page
    implements it, with the exact notification each one emits, and that
    every fixture satisfies the id invariant of spec section 3 on which
    the contract depends. *)

From S2P Require Import Prelude JsString JsDate Fixture Search Jobs Connect Events Resources Dashboard HallOfFame.

Local Open Scope string_scope.

#[local] Existing Instances JobsPage.job_has_id ConnectPage.person_has_id EventsPage.event_has_id
  ResourcesPage.resource_has_id.

(** Ids of a fixture, for the fixtures whose records are not [HasId]
    instances. *)
Definition dashboard_ids : list (list nat) :=
  [map DashboardPage.nid DashboardPage.notifications; map DashboardPage.id DashboardPage.upcomingEvents;
   map DashboardPage.cid DashboardPage.recentConnections].

Definition hall_ids : list (list nat) :=
  [map HallOfFamePage.cid HallOfFamePage.topContributors;
   map HallOfFamePage.aid HallOfFamePage.createRecentAchievements;
   map HallOfFamePage.iid HallOfFamePage.topInnovators].

(** The four list pages as their search bars see them, Events at its
    page clock [tPage] in the zone [tz]. *)
Record AnyListing : Type := mkAnyListing {
  listing_state : Type; listing_tab : Type; listing_event : Type;
  any_listing : ListingPage listing_state listing_tab listing_event }.

Definition list_pages (tz tPage : Z) : list AnyListing :=
  [mkAnyListing _ _ _ JobsPage.listing; mkAnyListing _ _ _ ConnectPage.listing;
   mkAnyListing _ _ _ (EventsPage.listing tz tPage); mkAnyListing _ _ _ ResourcesPage.listing].

(** ** The notifications the dispatcher promises, per intent *)

Definition apply_notification (job : JobsPage.Job) : list effect :=
  [Toast "Application Started"
     ("You're applying for " ++ JobsPage.title job ++ " at " ++ JobsPage.company job)].

Definition job_bookmark_notification (b : bool) (job : JobsPage.Job) : list effect :=
  [Toast (if b then "Job Bookmarked" else "Bookmark Removed")
     (if b then JobsPage.title job ++ " at " ++ JobsPage.company job ++ " has been saved to your bookmarks."
      else JobsPage.title job ++ " has been removed from your bookmarks.")].

Definition connect_notification (person : ConnectPage.Person) : list effect :=
  [Toast "Connection Request Sent"
     ("Your connection request to " ++ ConnectPage.name person ++ " has been sent.")].

Definition message_notification (person : ConnectPage.Person) : list effect :=
  [Toast "Message Feature Coming Soon" "Messaging functionality will be available soon!"].

Definition rsvp_notification (e : EventsPage.Event) : list effect :=
  [Toast "RSVP Confirmed!" ("You've successfully RSVP'd to " ++ EventsPage.title e)].

Definition resource_bookmark_notification (b : bool) (r : ResourcesPage.Resource) : list effect :=
  [Toast (if b then "Resource Bookmarked" else "Bookmark Removed")
     (if b then ResourcesPage.title r ++ " has been saved to your bookmarks."
      else ResourcesPage.title r ++ " has been removed from your bookmarks.")].

Definition download_notification (r : ResourcesPage.Resource) : list effect :=
  [Toast "Download Started" (ResourcesPage.title r ++ " is being downloaded.")].

Definition view_notification (r : ResourcesPage.Resource) : list effect :=
  [Toast "Opening Resource" ("Opening " ++ ResourcesPage.title r)].

(** C5: every handler of the four list pages refines the dispatcher of
    spec 4.3: for each listed record, the handler called with its id emits
    exactly the notification above, naming that record, and for an id
    that is not in the fixture it emits nothing.  This covers Jobs' apply
    and bookmark, Connect's connect and message, Events' RSVP (in every
    time zone), and Resources' bookmark, download and view. *)
Theorem page_handlers_refine_dispatch (tz : Z) (b : bool) :
  dispatch_contract JobsPage.jobsData JobsPage.handleApply apply_notification /\
  dispatch_contract JobsPage.jobsData (fun k => JobsPage.handleBookmark k b) (job_bookmark_notification b) /\
  dispatch_contract ConnectPage.peopleData ConnectPage.handleConnect connect_notification /\
  dispatch_contract ConnectPage.peopleData ConnectPage.handleMessage message_notification /\
  dispatch_contract (EventsPage.eventsData tz) (EventsPage.handleRSVP tz) rsvp_notification /\
  dispatch_contract ResourcesPage.resourcesData (fun k => ResourcesPage.handleBookmark k b)
    (resource_bookmark_notification b) /\
  dispatch_contract ResourcesPage.resourcesData ResourcesPage.handleDownload download_notification /\
  dispatch_contract ResourcesPage.resourcesData ResourcesPage.handleView view_notification.
Proof.
  assert (He : ids_unique (EventsPage.eventsData tz) = true) by reflexivity.
  repeat match goal with |- _ /\ _ => split end;
    apply find_then_contract; first [exact He | vm_compute; reflexivity].
Qed.

(** C14: the search bar of every list page is a controlled input over a
    case-insensitive search.  On Jobs, Connect, Events (at every page
    clock and in every time zone) and Resources, typing [v] into the search field emits no
    effect, the field then shows exactly [v], and every tab shows the
    same cards or empty state as after typing any [v'] that lower-cases
    like [v]. *)
Theorem search_bars_controlled tz tPage :
  Forall (fun p => @search_controlled _ _ _ (any_listing p)) (list_pages tz tPage).
Proof.
  constructor; [apply JobsPage.jobs_listing_controlled|].
  constructor; [apply ConnectPage.connect_listing_controlled|].
  constructor; [apply EventsPage.events_listing_controlled|].
  constructor; [apply ResourcesPage.resources_listing_controlled|constructor].
Qed.

(** The fixture invariant of spec section 3 holds for every fixture
    of the program: ids are distinct within each collection. *)
Theorem fixtures_ids_unique (tz : Z) :
  ids_unique JobsPage.jobsData = true /\ ids_unique ConnectPage.peopleData = true /\
  ids_unique (EventsPage.eventsData tz) = true /\ ids_unique ResourcesPage.resourcesData = true /\
  Forall (fun ids => NoDup ids) (dashboard_ids ++ hall_ids)%list.
Proof.
  split; [vm_compute; reflexivity|]. split; [vm_compute; reflexivity|].
  split; [reflexivity|]. split; [vm_compute; reflexivity|].
  apply (bool_decide_unpack _). vm_compute. reflexivity.
Qed.
